(** * hetzner.server: the remote-resource model of src/hetzner/server.py

    A shallow embedding of the classes of [hetzner/server.py]
    ([RescueSystem], [AdminAccount], [IpAddress], [IpManager], [Subnet],
    [SubnetManager], [Server]) over explicit Python data values, an
    exception type and a request log, followed by the theorems that
    settle the claims made about them. *)

From Stdlib Require Import ZArith String Ascii List Bool Lia.
From stdpp Require Import gmap strings.

Import ListNotations.
Set Warnings "-register-all".
Local Open Scope string_scope.
Local Open Scope list_scope.
Local Open Scope Z_scope.

(** ** Python data values

    What the transport decodes from JSON and what the objects cache:
    [None], booleans, integers, text, lists, tuples and dictionaries with
    text keys (kept in insertion order, one entry per key). *)

Inductive value : Type :=
| VNone
| VBool (b : bool)
| VInt (z : Z)
| VStr (s : string)
| VList (l : list value)
| VTuple (l : list value)
| VDict (d : list (string * value)).

(** ** Exceptions *)

Inductive exn : Type :=
| RobotError (status : value)      (* hetzner.RobotError, with its [status] *)
| WebRobotError (msg : string)     (* hetzner.WebRobotError(msg) *)
| KeyError (key : value)
| IndexError
| TypeError
| ValueError
| AttributeError (name : string)
| UnboundLocalError (name : string)
| AssertionError
| External (name : string)         (* any other exception of a collaborator *)
| Unmodelled (what : string).      (* behaviour outside this model *)

Inductive outcome (A : Type) : Type :=
| Ok (a : A)
| Raise (e : exn).
Arguments Ok {A} a.
Arguments Raise {A} e.

(** Truth value of a data value ([if v:], [not v]). *)
Definition truthy (v : value) : bool :=
  match v with
  | VNone => false
  | VBool b => b
  | VInt z => negb (z =? 0)
  | VStr s => match s with EmptyString => false | String _ _ => true end
  | VList l | VTuple l => match l with [] => false | _ => true end
  | VDict d => match d with [] => false | _ => true end
  end.

(** [v is None] *)
Definition is_None (v : value) : bool :=
  match v with VNone => true | _ => false end.

(** [d[k]] on a dictionary held as an association list. *)
Fixpoint dict_get (d : list (string * value)) (k : string) : option value :=
  match d with
  | [] => None
  | (k', v) :: d' => if String.eqb k' k then Some v else dict_get d' k
  end.

(** [d[k] = v]: replaces the entry in place, or appends a new one. *)
Fixpoint dict_set (d : list (string * value)) (k : string) (v : value)
  : list (string * value) :=
  match d with
  | [] => [(k, v)]
  | (k', v') :: d' =>
      if String.eqb k' k then (k, v) :: d' else (k', v') :: dict_set d' k v
  end.

(** [v[k]] with a text key: only a dictionary can be subscripted that
    way; a missing key is a [KeyError]. *)
Definition subscript (v : value) (k : string) : outcome value :=
  match v with
  | VDict d => match dict_get d k with
               | Some x => Ok x
               | None => Raise (KeyError (VStr k))
               end
  | _ => Raise TypeError
  end.

(** The characters of a text, each as a text of length one. *)
Fixpoint chars (s : string) : list value :=
  match s with
  | EmptyString => []
  | String c s' => VStr (String c EmptyString) :: chars s'
  end.

(** [v[i]] with an integer literal [i] that is not negative. *)
Definition subscript_nat (v : value) (i : nat) : outcome value :=
  match v with
  | VList l | VTuple l =>
      match nth_error l i with Some x => Ok x | None => Raise IndexError end
  | VStr s =>
      match nth_error (chars s) i with Some x => Ok x | None => Raise IndexError end
  | VDict _ => Raise (KeyError (VInt (Z.of_nat i)))
  | VNone | VBool _ | VInt _ => Raise TypeError
  end.

(** [a <= b] on numbers and on text; ordering of containers is left
    out of the model. *)
Definition py_le (a b : value) : outcome bool :=
  let num (v : value) : option Z :=
    match v with
    | VInt z => Some z
    | VBool b => Some (if b then 1 else 0)
    | _ => None
    end in
  match num a, num b with
  | Some x, Some y => Ok (x <=? y)
  | _, _ =>
      match a, b with
      | VStr x, VStr y => Ok (String.leb x y)
      | VList _, VList _ | VTuple _, VTuple _ => Raise (Unmodelled "ordering of sequences")
      | _, _ => Raise TypeError
      end
  end.

(** [v[k] = x] where [v] is already known to support [v[k]]. *)
Definition setitem (v : value) (k : string) (x : value) : outcome value :=
  match v with
  | VDict d => Ok (VDict (dict_set d k x))
  | _ => Raise TypeError
  end.

(** [iter(v)]: what a [for] loop, [list(v)] or tuple unpacking sees. *)
Definition py_iter (v : value) : outcome (list value) :=
  match v with
  | VList l | VTuple l => Ok l
  | VDict d => Ok (map (fun kv => VStr (fst kv)) d)
  | VStr s => Ok (chars s)
  | VNone | VBool _ | VInt _ => Raise TypeError
  end.

(** [a, b = v] *)
Definition unpack2 (v : value) : outcome (value * value) :=
  match py_iter v with
  | Ok [a; b] => Ok (a, b)
  | Ok _ => Raise ValueError
  | Raise e => Raise e
  end.

(** [v == n] for an integer literal [n]. *)
Definition eq_int (v : value) (n : Z) : bool :=
  match v with
  | VInt z => z =? n
  | VBool b => (if b then 1 else 0) =? n
  | _ => false
  end.

(** [a + b] as used on text ([data["server_ipv6_net"] + "2"]) and
    numbers. *)
Definition py_add (a b : value) : outcome value :=
  match a, b with
  | VStr x, VStr y => Ok (VStr (String.append x y))
  | VInt x, VInt y => Ok (VInt (x + y))
  | VInt x, VBool y => Ok (VInt (x + (if y then 1 else 0)))
  | VBool x, VInt y => Ok (VInt ((if x then 1 else 0) + y))
  | VBool x, VBool y => Ok (VInt ((if x then 1 else 0) + (if y then 1 else 0)))
  | VList x, VList y => Ok (VList (x ++ y))
  | VTuple x, VTuple y => Ok (VTuple (x ++ y))
  | _, _ => Raise TypeError
  end.

(** ** Requests, the log and the collaborators

    Each path constructor stands for one f-string of the source and
    carries the value interpolated into it. *)

Inductive path : Type :=
| ServerPath (ip : value)          (* f"/server/{ip}" *)
| IpPath (ip : value)              (* f"/ip/{ip}" *)
| IpQuery (main_ip : value)        (* "/ip?" + urlencode({"server_ip": main_ip}) *)
| SubnetPath (net_ip : value)      (* f"/subnet/{net_ip}" *)
| SubnetQuery (main_ip : value)    (* "/subnet?" + urlencode({"server_ip": main_ip}) *)
| BootRescuePath (number : value). (* f"/boot/{number}/rescue" *)

(** The three entry points of the transport [conn]. *)
Inductive request : Type :=
| Get (p : path)                                    (* conn.get(path) *)
| Post (p : path) (data : value)                    (* conn.post(path, data) *)
| Request (method : string) (p : path) (opts : value). (* conn.request(method, path, opts) *)

Definition is_mutating (r : request) : bool :=
  match r with
  | Get _ => false
  | Post _ _ => true
  | Request m _ _ => negb (String.eqb m "get")
  end.

Inductive web_path : Type :=
| AdminPath (id : value)           (* f"/server/admin/id/{id}" *)
| AdminCreatePath (id : value)     (* f"/server/adminCreate/id/{id}" *)
| AdminUpdatePath                  (* "/server/adminUpdate" *)
| AdminDeletePath (id : value).    (* f"/server/adminDelete/id/{id}" *)

(** [scraper.request(path, data, method=...)]; an argument that the call
    leaves out is [None] here. *)
Record web_request : Type := WebRequest {
  wr_path : web_path;
  wr_data : option value;
  wr_method : option string
}.

(** A scraped page: its status and its body as text (what
    [response.read().decode("utf-8")] gives), one character per code
    point below 256. *)
Record response : Type := Response { status : Z; text : string }.

Inductive event : Type :=
| Api (r : request)
| WebLogin
| Web (r : web_request).

Definition log : Type := list event.

Definition mutations (l : log) : list event :=
  List.filter (fun ev => match ev with Api r => is_mutating r | _ => false end) l.

(** What the transport answers: a document or an error.  Its errors are
    [RobotError] with a status, or something unrelated. *)
Inductive reply : Type :=
| Doc (v : value)
| Fail (status : value)
| Broken (name : string).

(** The collaborators of the module.  The transport and the scraper
    answer from the history of calls so far; [urandom]-seeded password
    generation, [scraping.CSRFParser], [hetzner.util.addr] and
    [datetime.strptime] are taken as given. *)
Record env : Type := Env {
  conn : log -> request -> reply;
  scraper_login : log -> option exn;
  scraper_request : log -> web_request -> outcome response;
  csrf_token : string -> string -> value;
    (* CSRFParser(name) fed with a page: its [csrf_token] *)
  genpasswd : log -> value;
    (* AdminAccount._genpasswd() *)
  parse_ipaddr : value -> value -> outcome value;
    (* addr.parse_ipaddr(addr, is_ipv6=None) *)
  get_ipv4_range : value -> value -> outcome value;
  get_ipv6_range : value -> value -> outcome value;
  strptime : value -> string -> outcome value
    (* datetime.strptime(text, format) *)
}.

(** ** Methods as state transformers

    A method body runs on its object [S] and on the log; an exception
    leaves both as they are at the point where it is raised. *)

Definition M (S A : Type) : Type := S -> log -> outcome A * S * log.

Definition ret {S A} (a : A) : M S A := fun s l => (Ok a, s, l).

Definition raise {S A} (e : exn) : M S A := fun s l => (Raise e, s, l).

Definition bind {S A B} (m : M S A) (k : A -> M S B) : M S B :=
  fun s l =>
    match m s l with
    | (Ok a, s', l') => k a s' l'
    | (Raise e, s', l') => (Raise e, s', l')
    end.

Declare Scope py_scope.
Delimit Scope py_scope with py.
Notation "'let*' x ':=' c1 'in' c2" := (bind c1 (fun x => c2))
  (at level 10, x pattern, c1 at level 100, c2 at level 200) : py_scope.
Notation "'do*' c1 'in' c2" := (bind c1 (fun _ => c2))
  (at level 10, c1 at level 100, c2 at level 200) : py_scope.
Local Open Scope py_scope.

Definition lift {S A} (o : outcome A) : M S A := fun s l => (o, s, l).

Definition self {S} : M S S := fun s l => (Ok s, s, l).

Definition modify {S} (f : S -> S) : M S unit := fun s l => (Ok tt, f s, l).

(** [assert b] *)
Definition assert {S} (b : bool) : M S unit :=
  if b then ret tt else raise AssertionError.

Definition of_reply (r : reply) : outcome value :=
  match r with
  | Doc v => Ok v
  | Fail st => Raise (RobotError st)
  | Broken n => Raise (External n)
  end.

(** Objects keep their attributes in a dictionary; reading an attribute
    that was never assigned is an [AttributeError]. *)
Definition getattr {V} (name : string) : M (gmap string V) V :=
  fun s l =>
    match s !! name with
    | Some v => (Ok v, s, l)
    | None => (Raise (AttributeError name), s, l)
    end.

Definition setattr {V} (name : string) (v : V) : M (gmap string V) unit :=
  modify (fun s => <[name := v]> s).

Section Transport.
Variable E : env.

Definition conn_get {S} (p : path) : M S value :=
  fun s l => (of_reply (conn E l (Get p)), s, l ++ [Api (Get p)]).


Definition conn_request {S} (method : string) (p : path) (opts : value)
  : M S value :=
  fun s l => (of_reply (conn E l (Request method p opts)), s,
              l ++ [Api (Request method p opts)]).

Definition scraper_do_login {S} : M S unit :=
  fun s l =>
    match scraper_login E l with
    | None => (Ok tt, s, l ++ [WebLogin])
    | Some e => (Raise e, s, l ++ [WebLogin])
    end.

Definition scraper_do_request {S} (r : web_request) : M S response :=
  fun s l => (scraper_request E l r, s, l ++ [Web r]).
End Transport.

(** ** Text and the fragment of [re] the module uses

    The three patterns of the source are sequences of literals, of one
    character class repeated (greedy or lazy, with a minimum count) and
    of one capture group.  [match_here] follows the backtracking order of
    [re]: a greedy repetition first tries to take one more character, a
    lazy one first tries to stop. *)

(** [s.startswith(p)], returning the rest of [s]. *)
Fixpoint strip_prefix (p s : string) : option string :=
  match p, s with
  | EmptyString, _ => Some s
  | String a p', String b s' =>
      if Ascii.eqb a b then strip_prefix p' s' else None
  | String _ _, EmptyString => None
  end.

(** [needle in hay] *)
Fixpoint contains (needle hay : string) : bool :=
  match strip_prefix needle hay with
  | Some _ => true
  | None =>
      match hay with
      | EmptyString => false
      | String _ hay' => contains needle hay'
      end
  end.

Inductive item : Type :=
| Lit (s : string)
| Rep (greedy : bool) (least : nat) (cls : ascii -> bool)
| GOpen
| GClose.

(** [\s] on code points below 256. *)
Definition is_space (c : ascii) : bool :=
  let n := nat_of_ascii c in
  ((9 <=? n) && (n <=? 13) || (28 <=? n) && (n <=? 32)
   || (n =? 133) || (n =? 160))%nat.

(** [.] under [re.DOTALL] *)
Definition any_char (c : ascii) : bool := true.

(** [[^<]] *)
Definition not_lt (c : ascii) : bool := negb (Ascii.eqb c "<").

(** A match: where it starts and ends, and the span of group 1. *)
Record span : Type := Span { m_start : nat; m_end : nat; g_start : nat; g_end : nat }.

Fixpoint match_here (p : list item) (s : string) (pos : nat) (g : nat * nat)
  : option (nat * (nat * nat)) :=
  match p with
  | [] => Some (pos, g)
  | Lit t :: p' =>
      match strip_prefix t s with
      | Some s' => match_here p' s' (pos + String.length t)%nat g
      | None => None
      end
  | GOpen :: p' => match_here p' s pos (pos, snd g)
  | GClose :: p' => match_here p' s pos (fst g, pos)
  | Rep greedy least cls :: p' =>
      (fix rep (s : string) (pos : nat) (taken : nat) {struct s} :=
         let stop :=
           if (least <=? taken)%nat then match_here p' s pos g else None in
         let more :=
           match s with
           | String c s' => if cls c then rep s' (S pos) (S taken) else None
           | EmptyString => None
           end in
         if greedy
         then match more with Some r => Some r | None => stop end
         else match stop with Some r => Some r | None => more end)
        s pos 0%nat
  end.

(** [pattern.search(text)] from position [pos] on: the leftmost match. *)
Fixpoint search_from (p : list item) (s : string) (pos : nat) : option span :=
  match match_here p s pos (pos, pos) with
  | Some (e, (gs, ge)) => Some (Span pos e gs ge)
  | None =>
      match s with
      | String _ s' => search_from p s' (S pos)
      | EmptyString => None
      end
  end.

Definition search (p : list item) (s : string) : option span :=
  search_from p s 0%nat.

(** [pattern.finditer(text)]: the matches from left to right, each search
    resuming where the previous match ended ([skip] counts the characters
    of the text the previous match still covers). *)
Fixpoint finditer_from (p : list item) (s : string) (pos skip : nat)
  : list span :=
  match skip with
  | S k =>
      match s with
      | String _ s' => finditer_from p s' (S pos) k
      | EmptyString => []
      end
  | O =>
      match match_here p s pos (pos, pos) with
      | Some (e, (gs, ge)) =>
          Span pos e gs ge ::
            match s with
            | String _ s' => finditer_from p s' (S pos) (e - pos - 1)%nat
            | EmptyString => []
            end
      | None =>
          match s with
          | String _ s' => finditer_from p s' (S pos) 0%nat
          | EmptyString => []
          end
      end
  end.

Definition finditer (p : list item) (s : string) : list span :=
  finditer_from p s 0%nat 0%nat.

(** [match.group(0)] and [match.group(1)] *)
Definition group0 (s : string) (m : span) : string :=
  String.substring (m_start m) (m_end m - m_start m) s.

Definition group1 (s : string) (m : span) : string :=
  String.substring (g_start m) (g_end m - g_start m) s.

(** The double quote character, and [s] between double quotes. *)
Definition dquote : ascii := "034"%char.

Definition quoted (s : string) : string :=
  String dquote (String.append s (String dquote EmptyString)).

(** [r'"label_req">Login.*?"element">([^<]+)'] with [re.DOTALL] *)
Definition login_re : list item :=
  [ Lit (String.append (quoted "label_req") ">Login"); Rep false 0 any_char;
    Lit (String.append (quoted "element") ">"); GOpen; Rep true 1 not_lt;
    GClose ].

(** [r'<ul\s+class="error_list">(.*?)</ul>'] with [re.DOTALL] *)
Definition ul_re : list item :=
  [ Lit "<ul"; Rep true 1 is_space;
    Lit (String.append "class=" (String.append (quoted "error_list") ">"));
    GOpen; Rep false 0 any_char; GClose; Lit "</ul>" ].

(** [r"<li>\s*([^<]*?)\s*</li>"] *)
Definition li_re : list item :=
  [ Lit "<li>"; Rep true 0 is_space; GOpen; Rep false 0 not_lt; GClose;
    Rep true 0 is_space; Lit "</li>" ].

(** [sep.join(parts)] *)
Definition join (sep : string) (parts : list string) : string :=
  String.concat sep parts.


(** ** The objects

    [RescueSystem] and [AdminAccount] assign all their fields in
    [__init__] before anything reads them, so they are records.
    [IpAddress], [Subnet] and [Server] read attributes that only
    [update_info] assigns, so they are attribute dictionaries. *)

Record RescueSystem : Type := mkRescueSystem {
  _active : value;
  _password : value;
  _authorized_keys : value
}.

Record AdminAccount : Type := mkAdminAccount {
  _serverid : value;
  exists_ : bool;      (* the attribute [exists] *)
  login : value;
  passwd : value
}.

Inductive IpManager : Type := mkIpManager (main_ip : value).
Inductive SubnetManager : Type := mkSubnetManager (main_ip : value).

(** What an attribute of a [Server] can hold. *)
Inductive pyobj : Type :=
| PData (v : value)
| PRescueSystem (r : RescueSystem)
| PReset                             (* hetzner.reset.Reset(server) *)
| PIpManager (m : IpManager)
| PSubnetManager (m : SubnetManager)
| PReverseDNSManager (ip : value)    (* hetzner.rdns.ReverseDNSManager(conn, ip) *)
| PAdminAccount (a : AdminAccount)
| PLogger (number : value).          (* logging.getLogger(f"Server #{number}") *)

Abbreviation IpAddress := (gmap string value).
Abbreviation Subnet := (gmap string value).
Abbreviation Server := (gmap string pyobj).

(** Read a data attribute of a server ([server.number], [self.ip]). *)
Definition data_attr (server : Server) (name : string) : outcome value :=
  match server !! name with
  | Some (PData v) => Ok v
  | Some _ => Raise (Unmodelled "component object used as data")
  | None => Raise (AttributeError name)
  end.

(** Run a constructor body on a blank object and hand the object out. *)
Definition construct {S T} (blank : T) (body : M T unit) : M S T :=
  fun s l =>
    match body blank l with
    | (Ok _, t, l') => (Ok t, s, l')
    | (Raise e, _, l') => (Raise e, s, l')
    end.

(** A list comprehension whose element expression has effects. *)
Fixpoint for_each {S A B} (f : A -> M S B) (xs : list A) : M S (list B) :=
  match xs with
  | [] => ret []
  | x :: xs' =>
      let* y := f x in
      let* ys := for_each f xs' in
      ret (y :: ys)
  end.

Section Classes.
Variable E : env.

(** *** class RescueSystem

    [server] is the object behind [self.server]; the methods read its
    [number] each time they build the path. *)

Definition RescueSystem_init : RescueSystem :=
  mkRescueSystem VNone VNone VNone.

Definition set_active (v : value) (r : RescueSystem) : RescueSystem :=
  mkRescueSystem v (_password r) (_authorized_keys r).
Definition set_password (v : value) (r : RescueSystem) : RescueSystem :=
  mkRescueSystem (_active r) v (_authorized_keys r).
Definition set_authorized_keys (v : value) (r : RescueSystem) : RescueSystem :=
  mkRescueSystem (_active r) (_password r) v.

Definition RescueSystem_update_status (server : Server) (data : value)
  : M RescueSystem unit :=
  let* data :=
    (if is_None data then
       let* number := lift (data_attr server "number") in
       conn_get E (BootRescuePath number)
     else ret data) in
  let* rescue := lift (subscript data "rescue") in
  let* a := lift (subscript rescue "active") in
  do* modify (set_active a) in
  let* p := lift (subscript rescue "password") in
  do* modify (set_password p) in
  let* k := lift (subscript rescue "authorized_key") in
  modify (set_authorized_keys k).

(** The three properties share one shape: the cached field if it is
    not [None], otherwise a status fetch and then the field. *)
Definition cached_property (server : Server) (field : RescueSystem -> value)
  : M RescueSystem value :=
  let* r := self in
  if negb (is_None (field r)) then ret (field r)
  else
    do* RescueSystem_update_status server VNone in
    let* r := self in
    ret (field r).

Definition RescueSystem_active (server : Server) : M RescueSystem value :=
  cached_property server _active.
Definition RescueSystem_password (server : Server) : M RescueSystem value :=
  cached_property server _password.
Definition RescueSystem_authorized_keys (server : Server)
  : M RescueSystem value :=
  cached_property server _authorized_keys.

Definition RescueSystem_rescue_action (server : Server) (method : string)
    (opts : value) : M RescueSystem unit :=
  let* number := lift (data_attr server "number") in
  let* reply := conn_request E method (BootRescuePath number) opts in
  RescueSystem_update_status server reply.

(** [activate(bits=64, os="linux", authorized_keys=None)] *)
Definition RescueSystem_activate (server : Server)
    (bits os authorized_keys : value) : M RescueSystem unit :=
  let* a := RescueSystem_active server in
  if negb (truthy a) then
    let opts := [("os", os); ("arch", bits)] in
    let* opts :=
      (if negb (is_None authorized_keys) then
         let* keys := lift (py_iter authorized_keys) in
         ret (dict_set opts "authorized_key" (VList keys))
       else ret opts) in
    RescueSystem_rescue_action server "post" (VDict opts)
  else ret tt.

Definition RescueSystem_deactivate (server : Server) : M RescueSystem unit :=
  let* a := RescueSystem_active server in
  if truthy a then RescueSystem_rescue_action server "delete" VNone
  else ret tt.

(** *** class AdminAccount *)

Definition set_exists (b : bool) (a : AdminAccount) : AdminAccount :=
  mkAdminAccount (_serverid a) b (login a) (passwd a).
Definition set_login (v : value) (a : AdminAccount) : AdminAccount :=
  mkAdminAccount (_serverid a) (exists_ a) v (passwd a).
Definition set_passwd (v : value) (a : AdminAccount) : AdminAccount :=
  mkAdminAccount (_serverid a) (exists_ a) (login a) v.

Definition AdminAccount_update_info : M AdminAccount unit :=
  do* scraper_do_login E in
  let* a := self in
  let* response :=
    scraper_do_request E (WebRequest (AdminPath (_serverid a)) None None) in
  do* assert (status response =? 200) in
  match search login_re (text response) with
  | None => modify (set_exists false)
  | Some m =>
      do* modify (set_exists true) in
      modify (set_login (VStr (group1 (text response) m)))
  end.

Definition AdminAccount_init {S} (server : Server) : M S AdminAccount :=
  let* number := lift (data_attr server "number") in
  construct (mkAdminAccount number false VNone VNone)
    AdminAccount_update_info.

Definition AdminAccount_genpasswd : M AdminAccount value :=
  fun a l => (Ok (genpasswd E l), a, l).

(** [create(passwd=None)]; the result is the pair [(login, passwd)]. *)
Definition AdminAccount_create (passwd_arg : value) : M AdminAccount value :=
  let* new_passwd :=
    (if is_None passwd_arg then AdminAccount_genpasswd else ret passwd_arg) in
  let* a := self in
  let* form_response :=
    scraper_do_request E
      (WebRequest (AdminPath (_serverid a)) None (Some "POST")) in
  let token := csrf_token E "password[_csrf_token]" (text form_response) in
  do* assert (negb (is_None token)) in
  let data := [("password[new_password]", new_passwd);
               ("password[new_password_repeat]", new_passwd);
               ("password[_csrf_token]", token)] in
  let* a := self in
  let '(failmsg, path, data) :=
    if negb (exists_ a) then
      ("Unable to create admin account",
       AdminCreatePath (_serverid a), data)
    else
      ("Unable to update admin account password",
       AdminUpdatePath, dict_set data "id" (_serverid a)) in
  let* response :=
    scraper_do_request E (WebRequest path (Some (VDict data)) None) in
  let data := text response in
  if negb (contains "msgbox_success" data) then
    match search ul_re data with
    | Some ul_match =>
        let ul := group0 data ul_match in
        let errors := map (group1 ul) (finditer li_re ul) in
        raise (WebRobotError
                 (String.append failmsg
                    (String.append ": " (join ", " errors))))
    | None => raise (WebRobotError failmsg)
    end
  else
    do* AdminAccount_update_info in
    do* modify (set_passwd new_passwd) in
    let* a := self in
    ret (VTuple [login a; passwd a]).

Definition AdminAccount_delete : M AdminAccount unit :=
  let* a := self in
  if negb (exists_ a) then ret tt
  else
    let* response :=
      scraper_do_request E
        (WebRequest (AdminDeletePath (_serverid a)) None None) in
    do* assert (contains "msgbox_success" (text response)) in
    AdminAccount_update_info.

(** *** class IpAddress

    The attribute [conn] is the transport of [E].  In a subnet context
    [update_info] writes the member address into the document it was
    given; the document is a value here, so the write is local. *)

(** [self.<name> = data["<key>"]] *)
Definition copy_field {V} (inj : value -> V) (data : value)
    (name key : string) : M (gmap string V) unit :=
  let* v := lift (subscript data key) in
  setattr name (inj v).

Definition IpAddress_update_info (result : value) : M IpAddress unit :=
  let* subnet_ip := getattr "subnet_ip" in
  let* data :=
    (if negb (is_None subnet_ip) then
       let* result :=
         (if is_None result then
            let* a := getattr "_subnet_addr" in
            conn_get E (SubnetPath a)
          else ret result) in
       let* data := lift (subscript result "subnet") in
       do* copy_field id data "_subnet_addr" "ip" in
       let* data := lift (setitem data "ip" subnet_ip) in
       (* Does not exist in subnets *)
       lift (setitem data "separate_mac" VNone)
     else
       let* result :=
         (if is_None result then
            let* ip := getattr "ip" in
            conn_get E (IpPath ip)
          else ret result) in
       lift (subscript result "ip")) in
  do* copy_field id data "ip" "ip" in
  do* copy_field id data "server_ip" "server_ip" in
  do* copy_field id data "locked" "locked" in
  do* copy_field id data "separate_mac" "separate_mac" in
  do* copy_field id data "traffic_warnings" "traffic_warnings" in
  do* copy_field id data "traffic_hourly" "traffic_hourly" in
  do* copy_field id data "traffic_daily" "traffic_daily" in
  copy_field id data "traffic_monthly" "traffic_monthly".

(** [IpAddress(conn, result, subnet_ip=None)] *)
Definition IpAddress_init {S} (result subnet_ip : value) : M S IpAddress :=
  construct (∅ : IpAddress)
    (do* setattr "subnet_ip" subnet_ip in
     do* IpAddress_update_info result in
     setattr "_rdns" VNone).

(** *** class IpManager *)

Definition IpManager_get {S} (m : IpManager) (ip : value) : M S IpAddress :=
  let* result := conn_get E (IpPath ip) in
  IpAddress_init result VNone.

(** [try: result = conn.get(...)] / [except RobotError: result = []] *)
Definition IpManager_iter {S} (m : IpManager) : M S (list IpAddress) :=
  let 'mkIpManager main_ip := m in
  let* result :=
    (fun s l =>
       let l' := l ++ [Api (Get (IpQuery main_ip))] in
       match conn E l (Get (IpQuery main_ip)) with
       | Doc v => (Ok v, s, l')
       | Fail _ => (Ok (VList []), s, l')
       | Broken n => (Raise (External n), s, l')
       end) in
  let* entries := lift (py_iter result) in
  for_each (fun ip => IpAddress_init ip VNone) entries.

(** *** class Subnet *)

Definition Subnet_update_info (result : value) : M Subnet unit :=
  let* result :=
    (if is_None result then
       let* net_ip := getattr "net_ip" in
       conn_get E (SubnetPath net_ip)
     else ret result) in
  let* data := lift (subscript result "subnet") in
  do* copy_field id data "net_ip" "ip" in
  do* copy_field id data "mask" "mask" in
  do* copy_field id data "gateway" "gateway" in
  do* copy_field id data "server_ip" "server_ip" in
  do* copy_field id data "failover" "failover" in
  do* copy_field id data "locked" "locked" in
  do* copy_field id data "traffic_warnings" "traffic_warnings" in
  do* copy_field id data "traffic_hourly" "traffic_hourly" in
  do* copy_field id data "traffic_daily" "traffic_daily" in
  do* copy_field id data "traffic_monthly" "traffic_monthly" in
  let* net_ip := getattr "net_ip" in
  let* parsed := lift (parse_ipaddr E net_ip VNone) in
  let* both := lift (unpack2 parsed) in
  let '(is_ipv6, numeric_net_ip) := both in
  do* setattr "is_ipv6" is_ipv6 in
  do* setattr "numeric_net_ip" numeric_net_ip in
  let* gateway := getattr "gateway" in
  let* is_ipv6 := getattr "is_ipv6" in
  let* numeric_gateway := lift (parse_ipaddr E gateway is_ipv6) in
  do* setattr "numeric_gateway" numeric_gateway in
  let* is_ipv6 := getattr "is_ipv6" in
  let getrange :=
    if truthy is_ipv6 then get_ipv6_range E else get_ipv4_range E in
  let* numeric_net_ip := getattr "numeric_net_ip" in
  let* mask := getattr "mask" in
  let* numeric_range := lift (getrange numeric_net_ip mask) in
  setattr "numeric_range" numeric_range.

(** [Subnet(conn, result)] *)
Definition Subnet_init {S} (result : value) : M S Subnet :=
  construct (∅ : Subnet) (Subnet_update_info result).

(** [v.parse_ipaddr] for a data value [v]: none of the built-in types
    has an attribute of that name. *)
Definition value_parse_ipaddr (v : value)
  : outcome (value -> value -> outcome value) :=
  match v with
  | VNone | VBool _ | VInt _ | VStr _ | VList _ | VTuple _ | VDict _ =>
      Raise (AttributeError "parse_ipaddr")
  end.

(** [__contains__(self, addr)].  Inside the method the name [addr] is
    the parameter, so [addr.parse_ipaddr] is looked up on the argument
    and not on the module [hetzner.util.addr]. *)
Definition Subnet_contains (addr : value) : M Subnet bool :=
  let* parse := lift (value_parse_ipaddr addr) in
  let* is_ipv6 := getattr "is_ipv6" in
  let* numeric_addr := lift (parse addr is_ipv6) in
  let* range := getattr "numeric_range" in
  let* low := lift (subscript_nat range 0) in
  let* above := lift (py_le low numeric_addr) in
  if above then
    let* range := getattr "numeric_range" in
    let* high := lift (subscript_nat range 1) in
    lift (py_le numeric_addr high)
  else ret false.

(** [get_ip(self, addr)]: the member address as an [IpAddress], or
    [None]. *)
Definition Subnet_get_ip (addr : value) : M Subnet (option IpAddress) :=
  let* inside := Subnet_contains addr in
  if inside then
    let* net_ip := getattr "net_ip" in
    let* result := conn_get E (SubnetPath net_ip) in
    let* ip := IpAddress_init result addr in
    ret (Some ip)
  else ret None.

(** *** class SubnetManager *)

Definition SubnetManager_get {S} (m : SubnetManager) (net_ip : value)
  : M S Subnet :=
  let* result := conn_get E (SubnetPath net_ip) in
  Subnet_init result.

(** [try: result = conn.get(...)] /
    [except RobotError as err: if err.status == 404: result = []];
    with another status the local [result] stays unbound. *)
Definition SubnetManager_iter {S} (m : SubnetManager) : M S (list Subnet) :=
  let 'mkSubnetManager main_ip := m in
  let* result :=
    (fun s l =>
       let l' := l ++ [Api (Get (SubnetQuery main_ip))] in
       match conn E l (Get (SubnetQuery main_ip)) with
       | Doc v => (Ok v, s, l')
       | Fail st =>
           if eq_int st 404 then (Ok (VList []), s, l')
           else (Raise (UnboundLocalError "result"), s, l')
       | Broken n => (Raise (External n), s, l')
       end) in
  let* entries := lift (py_iter result) in
  for_each (fun net => Subnet_init net) entries.

(** *** class Server *)

(** The [if] / [elif] / [elif] / [else] chain of [update_info] that
    picks [self.ip]. *)
Definition select_ip (data : value) : outcome value :=
  match subscript data "server_ip" with
  | Raise e => Raise e
  | Ok server_ip =>
      if truthy server_ip then Ok server_ip
      else if negb (is_None server_ip) then Ok server_ip
      else
        match subscript data "server_ipv6_net" with
        | Raise e => Raise e
        | Ok net =>
            if truthy net && negb (is_None net)
            then py_add net (VStr "2")
            else Ok VNone
        end
  end.

Definition Server_update_info (result : value) : M Server unit :=
  let* result :=
    (if is_None result then
       let* s := self in
       let* ip := lift (data_attr s "ip") in
       conn_get E (ServerPath ip)
     else ret result) in
  let* data := lift (subscript result "server") in
  let* ip := lift (select_ip data) in
  do* setattr "ip" (PData ip) in
  do* copy_field PData data "number" "server_number" in
  do* copy_field PData data "name" "server_name" in
  do* copy_field PData data "product" "product" in
  do* copy_field PData data "datacenter" "dc" in
  do* copy_field PData data "traffic" "traffic" in
  do* copy_field PData data "status" "status" in
  do* copy_field PData data "subnets" "subnet" in
  do* copy_field PData data "cancelled" "cancelled" in
  let* paid := lift (subscript data "paid_until") in
  let* date := lift (strptime E paid "%Y-%m-%d") in
  do* setattr "paid_until" (PData date) in
  copy_field PData data "linked_storagebox" "linked_storagebox".

(** [Server(conn, result)]; the line that would assign a
    [SubnetManager] to [self.subnets] is commented out in the source. *)
Definition Server_init {S} (result : value) : M S Server :=
  construct (∅ : Server)
    (do* Server_update_info result in
     do* setattr "rescue" (PRescueSystem RescueSystem_init) in
     do* setattr "reset" PReset in
     let* s := self in
     let* ip := lift (data_attr s "ip") in
     do* setattr "ips" (PIpManager (mkIpManager ip)) in
     let* s := self in
     let* ip := lift (data_attr s "ip") in
     do* setattr "rdns" (PReverseDNSManager ip) in
     do* setattr "_admin_account" (PData VNone) in
     let* s := self in
     let* number := lift (data_attr s "number") in
     setattr "logger" (PLogger number)).

(** The property [admin]. *)
Definition Server_admin : M Server pyobj :=
  let* account := getattr "_admin_account" in
  match account with
  | PData VNone =>
      let* s := self in
      let* a := AdminAccount_init s in
      do* setattr "_admin_account" (PAdminAccount a) in
      getattr "_admin_account"
  | _ => ret account
  end.

End Classes.

(** ** The address arithmetic of [hetzner.util.addr] *)

(** The decimal number written by [s], if [s] is one to three digits. *)
Definition digit (c : ascii) : option Z :=
  let n := Z.of_nat (nat_of_ascii c) in
  if (48 <=? n) && (n <=? 57) then Some (n - 48) else None.

Fixpoint number_from (acc : Z) (s : string) : option Z :=
  match s with
  | EmptyString => Some acc
  | String c s' =>
      match digit c with
      | Some d => number_from (10 * acc + d) s'
      | None => None
      end
  end.

Definition octet (s : string) : option Z :=
  match s with
  | EmptyString => None
  | _ =>
      if (String.length s <=? 3)%nat then
        match number_from 0 s with
        | Some n => if n <=? 255 then Some n else None
        | None => None
        end
      else None
  end.

(** [s.split(sep)] for a one-character separator. *)
Fixpoint split_on (sep : ascii) (cur : string) (s : string) : list string :=
  match s with
  | EmptyString => [cur]
  | String c s' =>
      if Ascii.eqb c sep then cur :: split_on sep EmptyString s'
      else split_on sep (String.append cur (String c EmptyString)) s'
  end.

Definition parse_ipv4 (s : string) : option Z :=
  match map octet (split_on "." EmptyString s) with
  | [Some a; Some b; Some c; Some d] =>
      Some (((a * 256 + b) * 256 + c) * 256 + d)
  | _ => None
  end.

(** Modelled from the spec: [hetzner/util/addr.py] is not among the
    sources.  Section 4.1 gives [parse(address, is_v6_hint=None)] and
    says that malformed text fails with [AddressFormatError]; the caller
    in [Subnet.update_info] unpacks the answer without a hint as the pair
    (family, number).  Only the IPv4 family is given numbers here; IPv6
    text is outside this model. *)
Definition spec_parse_ipaddr (addr hint : value) : outcome value :=
  match addr with
  | VStr s =>
      if contains ":" s then Raise (Unmodelled "IPv6 address text")
      else
        match parse_ipv4 s with
        | Some n =>
            if is_None hint then Ok (VTuple [VBool false; VInt n])
            else if truthy hint then Raise (External "AddressFormatError")
            else Ok (VInt n)
        | None => Raise (External "AddressFormatError")
        end
  | _ => Raise TypeError
  end.

(** Modelled from the spec: [range_for(network_value, mask, is_v6)] of
    section 4.1, "computed by zeroing/setting the host bits of the
    network value according to the mask", the mask being counted out of
    [bits] (32 for IPv4, 128 for IPv6). *)
Definition spec_range (bits : Z) (network mask : value) : outcome value :=
  match network, mask with
  | VInt n, VInt m =>
      if (0 <=? m) && (m <=? bits) then
        let host := bits - m in
        let low := Z.shiftl (Z.shiftr n host) host in
        let high := Z.lor low (Z.ones host) in
        Ok (VTuple [VInt low; VInt high])
      else Raise ValueError
  | _, _ => Raise TypeError
  end.

(** ** A parser for ["%Y-%m-%d"] dates, as [datetime.strptime] reads
    them: four digits, then month and day in one or two digits, then a
    check that the day exists. *)

Definition leap (y : Z) : bool :=
  ((y mod 4 =? 0) && negb (y mod 100 =? 0)) || (y mod 400 =? 0).

Definition days_in_month (y m : Z) : Z :=
  if m =? 2 then (if leap y then 29 else 28)
  else if (m =? 4) || (m =? 6) || (m =? 9) || (m =? 11) then 30
  else 31.

Definition small_number (s : string) : option Z :=
  match s with
  | EmptyString => None
  | _ => if (String.length s <=? 2)%nat then number_from 0 s else None
  end.

(** The day may also be written as a blank and one digit. *)
Definition day_number (s : string) : option Z :=
  match s with
  | String " " (String c EmptyString) => digit c
  | _ => small_number s
  end.

Definition strptime_ymd (v : value) (fmt : string) : outcome value :=
  match v with
  | VStr s =>
      match split_on "-" EmptyString s with
      | [ys; ms; ds] =>
          match (if (String.length ys =? 4)%nat then number_from 0 ys else None),
                small_number ms, day_number ds with
          | Some y, Some m, Some d =>
              if (1 <=? y) && (1 <=? m) && (m <=? 12) && (1 <=? d)
                 && (d <=? days_in_month y m)
              then Ok (VTuple [VInt y; VInt m; VInt d])
              else Raise ValueError
          | _, _, _ => Raise ValueError
          end
      | _ => Raise ValueError
      end
  | _ => Raise TypeError
  end.

(** ** Collaborators for the examples *)

(** Modelled from the spec: [hetzner/util/scraping.py] is not among the
    sources.  Section 4.5 says that the form embeds a one-time token in
    its HTML and that the token may be missing; here the token is the
    value of an input element written [name="..." value="..."]. *)
Definition spec_csrf_token (name page : string) : value :=
  let pattern :=
    [ Lit (String.append "name=" (String.append (quoted name) " value="));
      Lit (String dquote EmptyString); GOpen;
      Rep false 0 (fun c => negb (Ascii.eqb c dquote)); GClose;
      Lit (String dquote EmptyString) ] in
  match search pattern page with
  | Some m => VStr (group1 page m)
  | None => VNone
  end.

(** An environment from a transport and a scraper; login always works
    and the generated password is fixed. *)
Definition example_env (c : log -> request -> reply)
    (w : log -> web_request -> outcome response) : env :=
  Env c (fun _ => None) w spec_csrf_token
    (fun _ => VStr "q7Rk/2mZ(x)-Lw=8+Tb_4,nY")
    spec_parse_ipaddr (spec_range 32) (spec_range 128) strptime_ymd.

Definition no_scraper (l : log) (r : web_request) : outcome response :=
  Raise (External "ConnectError").

Definition no_conn (l : log) (r : request) : reply := Broken "ConnectError".

(** The status document of the rescue system: [d["rescue"]] holds the
    three values [active], [password] and [authorized_key]. *)
Definition rescue_status (d : value) (a p k : value) : Prop :=
  exists rs,
    subscript d "rescue" = Ok rs /\
    subscript rs "active" = Ok a /\
    subscript rs "password" = Ok p /\
    subscript rs "authorized_key" = Ok k.

(** A server handle that knows its number, and a transport that reports
    the rescue system as given by [active], with password [pw]. *)
Definition numbered_server : Server := {[ "number" := PData (VInt 321) ]}.

Definition rescue_doc (active pw : value) : value :=
  VDict [("rescue", VDict [("server_ip", VStr "192.0.2.10");
                           ("active", active);
                           ("password", pw);
                           ("authorized_key", VList [])])].

Definition rescue_conn (l : log) (r : request) : reply :=
  match r with
  | Get (BootRescuePath _) => Doc (rescue_doc (VBool false) VNone)
  | Request _ (BootRescuePath _) _ =>
      Doc (rescue_doc (VBool true) (VStr "jEt0dvTlXzyp1"))
  | _ => Fail (VInt 404)
  end.

Definition rescue_env : env := example_env rescue_conn no_scraper.

(** The options that [activate] sends: [os] and [arch], and the list of
    key fingerprints when one is passed. *)
Definition activation_opts (bits os authorized_keys : value) : outcome value :=
  if is_None authorized_keys then Ok (VDict [("os", os); ("arch", bits)])
  else
    match py_iter authorized_keys with
    | Ok keys =>
        Ok (VDict [("os", os); ("arch", bits); ("authorized_key", VList keys)])
    | Raise e => Raise e
    end.

(** What [create] submits: the failure message of the operation and the
    request, depending on whether the account exists. *)
Definition create_submission (a : AdminAccount) (pw token : value)
  : string * web_request :=
  let data := [("password[new_password]", pw);
               ("password[new_password_repeat]", pw);
               ("password[_csrf_token]", token)] in
  if exists_ a then
    ("Unable to update admin account password",
     WebRequest AdminUpdatePath
       (Some (VDict (data ++ [("id", _serverid a)]))) None)
  else
    ("Unable to create admin account",
     WebRequest (AdminCreatePath (_serverid a)) (Some (VDict data)) None).

(** The message of the error raised for a failed submission. *)
Definition failure_message (failmsg page : string) : string :=
  match search ul_re page with
  | Some ul_match =>
      let ul := group0 page ul_match in
      String.append failmsg
        (String.append ": " (join ", " (map (group1 ul) (finditer li_re ul))))
  | None => failmsg
  end.

(** What discovery makes of the account page. *)
Definition discovered (a : AdminAccount) (page : string) : AdminAccount :=
  match search login_re page with
  | None => set_exists false a
  | Some m => set_login (VStr (group1 page m)) (set_exists true a)
  end.

(** Pages of the control panel for the examples. *)
Definition form_page : string :=
  String.append "<form><input type=hidden name="
    (String.append (quoted "password[_csrf_token]")
       (String.append " value=" (String.append (quoted "0f3a9c") "></form>"))).

Definition success_page : string :=
  String.append "<div class="
    (String.append (quoted "msgbox_success") ">Password set</div>").

Definition error_page : string :=
  String.append "<div class=msgbox_error><ul class="
    (String.append (quoted "error_list")
       "><li>Password too short</li><li> Passwords do not match </li></ul></div>").

Definition account_page : string :=
  String.append "<td class="
    (String.append (quoted "label_req")
       (String.append ">Login:</td><td class="
          (String.append (quoted "element") ">K1234567</td>"))).

Definition no_account_page : string := "<p>No admin login</p>".

(** A scraper that answers the form with [form_page], a submission or a
    deletion with [submit] and the account page with [account]. *)
Definition admin_scraper (submit account : response) (l : log)
    (r : web_request) : outcome response :=
  match wr_path r, wr_method r with
  | AdminPath _, Some _ => Ok (Response 200 form_page)
  | AdminPath _, None => Ok account
  | _, _ => Ok submit
  end.

Definition admin_env (submit account : response) : env :=
  example_env no_conn (admin_scraper submit account).

Definition missing_account : AdminAccount :=
  mkAdminAccount (VInt 321) false VNone VNone.

Definition present_account : AdminAccount :=
  mkAdminAccount (VInt 321) true (VStr "K1234567") VNone.


(** The canonical remote path of a resource object, keyed by its own
    identity field: the path that a refresh without a document asks
    for. *)
Definition IpAddress_path (o : IpAddress) : option path :=
  match o !! "subnet_ip" with
  | Some subnet_ip =>
      if is_None subnet_ip then IpPath <$> o !! "ip"
      else SubnetPath <$> o !! "_subnet_addr"
  | None => None
  end.

Definition Subnet_path (o : Subnet) : option path :=
  SubnetPath <$> o !! "net_ip".

Definition Server_path (o : Server) : option path :=
  match data_attr o "ip" with
  | Ok ip => Some (ServerPath ip)
  | Raise _ => None
  end.

(** Documents and a transport for the examples around one server. *)
Definition ip_entry (ip : string) : value :=
  VDict [("ip", VStr ip); ("server_ip", VStr "192.0.2.10");
         ("locked", VBool false); ("separate_mac", VNone);
         ("traffic_warnings", VBool false); ("traffic_hourly", VInt 50);
         ("traffic_daily", VInt 50); ("traffic_monthly", VInt 8)].

Definition ip_doc (ip : string) : value := VDict [("ip", ip_entry ip)].

Definition subnet_doc (net_ip : string) (mask : Z) (gateway : string) : value :=
  VDict [("subnet",
          VDict [("ip", VStr net_ip); ("mask", VInt mask);
                 ("gateway", VStr gateway);
                 ("server_ip", VStr "192.0.2.10"); ("failover", VBool false);
                 ("locked", VBool false); ("traffic_warnings", VBool false);
                 ("traffic_hourly", VInt 100); ("traffic_daily", VInt 500);
                 ("traffic_monthly", VInt 2)])].

Definition server_doc (server_ip server_ipv6_net : value) : value :=
  VDict [("server",
          VDict [("server_ip", server_ip);
                 ("server_ipv6_net", server_ipv6_net);
                 ("server_number", VInt 321);
                 ("server_name", VStr "server1");
                 ("product", VStr "EQ 8"); ("dc", VStr "FSN1-DC1");
                 ("traffic", VStr "5 TB"); ("status", VStr "ready");
                 ("subnet",
                  VList [VDict [("ip", VStr "10.0.0.0");
                                ("mask", VStr "24")]]);
                 ("cancelled", VBool false);
                 ("paid_until", VStr "2026-11-30");
                 ("linked_storagebox", VNone)])].

Definition server_conn (l : log) (r : request) : reply :=
  match r with
  | Get (ServerPath _) | Post (ServerPath _) _ =>
      Doc (server_doc (VStr "192.0.2.10") (VStr "2001:db8:0:1::"))
  | Get (IpPath _) => Doc (ip_doc "192.0.2.10")
  | Get (IpQuery _) => Doc (VList [ip_doc "192.0.2.10"; ip_doc "192.0.2.77"])
  | Get (SubnetPath _) => Doc (subnet_doc "10.0.0.0" 24 "10.0.0.1")
  | Get (SubnetQuery _) => Doc (VList [subnet_doc "10.0.0.0" 24 "10.0.0.1"])
  | _ => Fail (VInt 404)
  end.

Definition server_env : env :=
  example_env server_conn
    (admin_scraper (Response 200 success_page) (Response 200 account_page)).

(** The result of a run, for the examples. *)
Definition result_of {A S} (run : outcome A * S * log) : option A :=
  match run with
  | (Ok a, _, _) => Some a
  | (Raise _, _, _) => None
  end.

Definition the_ip : IpAddress :=
  Eval vm_compute in
    match result_of (IpAddress_init server_env (ip_doc "192.0.2.10") VNone tt [])
    with Some o => o | None => ∅ end.

Definition the_subnet : Subnet :=
  Eval vm_compute in
    match result_of (Subnet_init server_env
                       (subnet_doc "10.0.0.0" 24 "10.0.0.1") tt [])
    with Some o => o | None => ∅ end.

Definition the_server : Server :=
  Eval vm_compute in
    match result_of (Server_init server_env
                       (server_doc (VStr "192.0.2.10") (VStr "2001:db8:0:1::"))
                       tt [])
    with Some o => o | None => ∅ end.


(** The membership test that the docstring of [__contains__] and the
    spec describe: the address is parsed by [parse_ipaddr] of the module
    [hetzner.util.addr] and compared with the two ends of
    [numeric_range]. *)
Definition Subnet_contains_intended (E : env) (addr : value) : M Subnet bool :=
  let* is_ipv6 := getattr "is_ipv6" in
  let* numeric_addr := lift (parse_ipaddr E addr is_ipv6) in
  let* range := getattr "numeric_range" in
  let* low := lift (subscript_nat range 0) in
  let* above := lift (py_le low numeric_addr) in
  if above then
    let* range := getattr "numeric_range" in
    let* high := lift (subscript_nat range 1) in
    lift (py_le numeric_addr high)
  else ret false.

(** A transport whose every answer is a [RobotError] with the given
    status. *)
Definition failing_conn (status : Z) (l : log) (r : request) : reply :=
  Fail (VInt status).

Definition failing_env (status : Z) : env :=
  example_env (failing_conn status) no_scraper.

(** The two-branch precedence as the spec words it: [server_ip] when
    present, else the address derived from [server_ipv6_net] when that is
    present, else [None].  [present] is the reading of "present": a
    value that is true ([truthy]) or a value that is not [None]
    ([not_None]). *)
Definition spec_select_ip (present : value -> bool)
    (server_ip server_ipv6_net : value) : outcome value :=
  if present server_ip then Ok server_ip
  else if present server_ipv6_net then py_add server_ipv6_net (VStr "2")
  else Ok VNone.

Definition not_None (v : value) : bool := negb (is_None v).

Definition server_entry (server_ip server_ipv6_net : value) : value :=
  VDict [("server_ip", server_ip); ("server_ipv6_net", server_ipv6_net)].

(** An attribute value that is not a [SubnetManager]. *)
Definition not_subnet_manager (o : pyobj) : Prop :=
  match o with
  | PSubnetManager _ => False
  | _ => True
  end.


(** A body is silent when it sends nothing and does not look at the
    log: its outcome and the object it leaves depend on the object
    alone. *)
Definition silent {S A} (m : M S A) : Prop :=
  forall s, exists r s', forall l, m s l = (r, s', l).

(** What [IpAddress.update_info] leaves in the document it was given,
    in a subnet context: the entries [ip] and [separate_mac] of its
    [subnet] dictionary are overwritten in place. *)
Definition written_document (result member : value) : outcome value :=
  match subscript result "subnet" with
  | Ok data =>
      match setitem data "ip" member with
      | Ok data1 =>
          match setitem data1 "separate_mac" VNone with
          | Ok data2 => setitem result "subnet" data2
          | Raise e => Raise e
          end
      | Raise e => Raise e
      end
  | Raise e => Raise e
  end.

(** ** More collaborators for the examples *)

(** A transport that reports the rescue system as active and answers a
    [delete] with the inactive status. *)
Definition active_rescue_conn (l : log) (r : request) : reply :=
  match r with
  | Get (BootRescuePath _) =>
      Doc (rescue_doc (VBool true) (VStr "jEt0dvTlXzyp1"))
  | Request _ (BootRescuePath _) _ => Doc (rescue_doc (VBool false) VNone)
  | _ => Fail (VInt 404)
  end.

Definition active_rescue_env : env := example_env active_rescue_conn no_scraper.

(** A transport whose answer to a mutating request has no body
    ([None]), and whose status document reports the system inactive at
    first and active once something has been sent. *)
Definition bodyless_conn (l : log) (r : request) : reply :=
  match r with
  | Get (BootRescuePath _) =>
      match l with
      | [] => Doc (rescue_doc (VBool false) VNone)
      | _ => Doc (rescue_doc (VBool true) (VStr "jEt0dvTlXzyp1"))
      end
  | Request _ (BootRescuePath _) _ => Doc VNone
  | _ => Fail (VInt 404)
  end.

Definition bodyless_env : env := example_env bodyless_conn no_scraper.

(** A transport that reports the rescue system inactive and refuses
    every mutating request with status 500. *)
Definition refusing_conn (l : log) (r : request) : reply :=
  match r with
  | Get (BootRescuePath _) => Doc (rescue_doc (VBool false) VNone)
  | _ => Fail (VInt 500)
  end.

Definition refusing_env : env := example_env refusing_conn no_scraper.

(** The attributes that [IpAddress.update_info] assigns from the entry
    of the document, each under its own name. *)
Definition IpAddress_fields : list string :=
  ["ip"; "server_ip"; "locked"; "separate_mac"; "traffic_warnings";
   "traffic_hourly"; "traffic_daily"; "traffic_monthly"].

(** The member 10.0.0.5 of the subnet 10.0.0.0/24, as [Subnet.get_ip]
    would build it. *)
Definition the_member : IpAddress :=
  Eval vm_compute in
    match result_of (IpAddress_init server_env
                       (subnet_doc "10.0.0.0" 24 "10.0.0.1") (VStr "10.0.0.5")
                       tt [])
    with Some o => o | None => ∅ end.

(** The attributes that [Subnet.update_info] assigns from the [subnet]
    entry of the document, each with the key it is read from. *)
Definition Subnet_fields : list (string * string) :=
  [("net_ip", "ip"); ("mask", "mask"); ("gateway", "gateway");
   ("server_ip", "server_ip"); ("failover", "failover");
   ("locked", "locked"); ("traffic_warnings", "traffic_warnings");
   ("traffic_hourly", "traffic_hourly"); ("traffic_daily", "traffic_daily");
   ("traffic_monthly", "traffic_monthly")].

(** The numeric attributes of a subnet agree with its textual ones:
    they are what [parse_ipaddr] and the range function of the family
    give for the stored [net_ip], [gateway] and [mask]. *)
Definition Subnet_consistent (E : env) (o : Subnet) : Prop :=
  exists net_ip mask gateway parsed is_ipv6 n g range,
    o !! "net_ip" = Some net_ip /\
    o !! "mask" = Some mask /\
    o !! "gateway" = Some gateway /\
    parse_ipaddr E net_ip VNone = Ok parsed /\
    unpack2 parsed = Ok (is_ipv6, n) /\
    parse_ipaddr E gateway is_ipv6 = Ok g /\
    (if truthy is_ipv6 then get_ipv6_range E else get_ipv4_range E) n mask
    = Ok range /\
    o !! "is_ipv6" = Some is_ipv6 /\
    o !! "numeric_net_ip" = Some n /\
    o !! "numeric_gateway" = Some g /\
    o !! "numeric_range" = Some range.

(** The attributes that [Server.update_info] copies from the [server]
    entry of the document, each with the key it is read from ([ip] and
    [paid_until] are computed). *)
Definition Server_fields : list (string * string) :=
  [("number", "server_number"); ("name", "server_name");
   ("product", "product"); ("datacenter", "dc"); ("traffic", "traffic");
   ("status", "status"); ("subnets", "subnet"); ("cancelled", "cancelled");
   ("linked_storagebox", "linked_storagebox")].

(** Every attribute that [Server.update_info] assigns. *)
Definition Server_data_attrs : list string :=
  ["ip"; "number"; "name"; "product"; "datacenter"; "traffic"; "status";
   "subnets"; "cancelled"; "paid_until"; "linked_storagebox"].

(** The attributes of a [Server] that hold its components. *)
Definition Server_components : list string :=
  ["rescue"; "reset"; "ips"; "rdns"; "_admin_account"; "logger"].

(** Documents for the examples of partial refreshes. *)
Definition bad_subnet_doc : value := subnet_doc "10.0.0" 24 "10.0.0.1".

Definition server_doc_paid (paid : string) : value :=
  VDict [("server",
          VDict [("server_ip", VStr "192.0.2.99");
                 ("server_ipv6_net", VNone);
                 ("server_number", VInt 321);
                 ("server_name", VStr "renamed");
                 ("product", VStr "EQ 8"); ("dc", VStr "FSN1-DC1");
                 ("traffic", VStr "5 TB"); ("status", VStr "ready");
                 ("subnet", VNone); ("cancelled", VBool true);
                 ("paid_until", VStr paid);
                 ("linked_storagebox", VInt 7)])].

(** Every character of a text is in a class. *)
Fixpoint all_chars (cls : ascii -> bool) (s : string) : bool :=
  match s with
  | EmptyString => true
  | String c s' => cls c && all_chars cls s'
  end.

(** ** SSHAskPassHelper

    The helper talks to the operating system only: its calls are kept
    in a list of their own, and what the system answers to a call is a
    function of the calls made so far. *)

Module SSHAskPass.

Inductive open_flag : Type := O_WRONLY | O_CREAT | O_NOFOLLOW.

Inductive os_call : Type :=
| Mkdtemp
| OsOpen (path : string) (flags : list open_flag) (mode : Z)
| OsWrite (fd : Z) (data : string)
| OsClose (fd : Z)
| OsUnlink (path : string)
| OsRmdir (path : string).

Record os_env : Type := OsEnv {
  mkdtemp : list os_call -> outcome string;
  os_open : list os_call -> string -> list open_flag -> Z -> outcome Z;
  os_write : list os_call -> Z -> string -> outcome Z;
  os_close : list os_call -> Z -> outcome unit;
  os_unlink : list os_call -> string -> outcome unit;
  os_rmdir : list os_call -> string -> outcome unit
}.

Record helper : Type := mkHelper {
  passwd : value;
  tempdir : value;
  script : value
}.

(** The helper together with the calls made so far. *)
Record world : Type := mkWorld { this : helper; calls : list os_call }.

Definition set_tempdir (v : value) (w : world) : world :=
  mkWorld (mkHelper (passwd (this w)) v (script (this w))) (calls w).

Definition set_script (v : value) (w : world) : world :=
  mkWorld (mkHelper (passwd (this w)) (tempdir (this w)) v) (calls w).

(** A call is recorded whether it succeeds or not. *)
Definition os_do {A} (c : os_call) (answer : list os_call -> outcome A)
  : M world A :=
  fun w l => (answer (calls w), mkWorld (this w) (calls w ++ [c]), l).

(** [__init__] *)
Definition init (p : value) : helper := mkHelper p VNone VNone.

(** [s.endswith(c)] for one character. *)
Fixpoint ends_with (c : ascii) (s : string) : bool :=
  match s with
  | EmptyString => false
  | String a s' =>
      match s' with
      | EmptyString => Ascii.eqb a c
      | String _ _ => ends_with c s'
      end
  end.

(** [os.path.join(a, b)] of [posixpath]. *)
Definition path_join (a b : string) : string :=
  match strip_prefix "/" b with
  | Some _ => b
  | None =>
      if (String.length a =? 0)%nat || ends_with "/" a
      then String.append a b
      else String.append a (String.append "/" b)
  end.

(** [s.replace(old, new)] for a pattern [old] of one character. *)
Fixpoint replace_char (old : ascii) (new : string) (s : string) : string :=
  match s with
  | EmptyString => EmptyString
  | String c s' =>
      if Ascii.eqb c old
      then String.append new (replace_char old new s')
      else String c (replace_char old new s')
  end.

(** [v.replace("'", r"'\''")]: only a [str] has the method. *)
Definition escape (v : value) : outcome string :=
  match v with
  | VStr s => Ok (replace_char "'" "'\''" s)
  | _ => Raise (AttributeError "replace")
  end.

Definition is_ascii (c : ascii) : bool := (nat_of_ascii c <? 128)%nat.

(** [s.encode("ascii")] *)
Definition encode_ascii (s : string) : outcome string :=
  if all_chars is_ascii s then Ok s
  else Raise (External "UnicodeEncodeError").

Definition shebang : string := String.append "#!/bin/sh" (String "010" EmptyString).

(** The text of the script for an escaped password. *)
Definition askpass_text (esc_passwd : string) : string :=
  String.append shebang
    (String.append "echo -n '" (String.append esc_passwd "'")).

Definition askpass_flags : list open_flag := [O_WRONLY; O_CREAT; O_NOFOLLOW].

(** [__enter__] *)
Definition enter (O : os_env) : M world string :=
  let* d := os_do Mkdtemp (mkdtemp O) in
  do* modify (set_tempdir (VStr d)) in
  let script := path_join d "askpass" in
  let* fd := os_do (OsOpen script askpass_flags 448)
                   (fun t => os_open O t script askpass_flags 448) in
  do* modify (set_script (VStr script)) in
  let* w := self in
  let* esc_passwd := lift (escape (passwd (this w))) in
  let* askpass := lift (encode_ascii (askpass_text esc_passwd)) in
  do* os_do (OsWrite fd askpass) (fun t => os_write O t fd askpass) in
  do* os_do (OsClose fd) (fun t => os_close O t fd) in
  ret script.

(** [os.unlink(v)], [os.rmdir(v)]: a path has to be a [str]. *)
Definition remove (mk : string -> os_call)
    (answer : list os_call -> string -> outcome unit) (v : value)
  : M world unit :=
  match v with
  | VStr p => os_do (mk p) (fun t => answer t p)
  | _ => raise TypeError
  end.

(** [__exit__] *)
Definition exit (O : os_env) : M world unit :=
  let* w := self in
  do* (if negb (is_None (script (this w)))
       then remove OsUnlink (os_unlink O) (script (this w))
       else ret tt) in
  let* w := self in
  if negb (is_None (tempdir (this w)))
  then remove OsRmdir (os_rmdir O) (tempdir (this w))
  else ret tt.

(** [with SSHAskPassHelper(p) as askpass: body]: [__exit__] runs when
    the body is left, by its end or by an exception, and not when
    [__enter__] raises; as [__exit__] returns [None], an exception of
    the body is raised again after it. *)
Definition with_helper {A} (O : os_env) (p : value)
    (body : string -> M world A) : M world A :=
  do* modify (fun w => mkWorld (init p) (calls w)) in
  let* askpass := enter O in
  fun w l =>
    match body askpass w l with
    | (Ok a, w', l') => (do* exit O in ret a) w' l'
    | (Raise e, w', l') => (do* exit O in raise e) w' l'
    end.

(** The value of a word of the shell that is made of single-quoted
    parts and of characters escaped by a backslash: between single
    quotes every character stands for itself, outside them a backslash
    makes the next character stand for itself.  Other unquoted text is
    not read. *)
Fixpoint sh_word (inq : bool) (s : string) : option string :=
  match s with
  | EmptyString => if inq then None else Some EmptyString
  | String c s' =>
      if inq then
        if Ascii.eqb c "'" then sh_word false s'
        else option_map (String c) (sh_word true s')
      else if Ascii.eqb c "'" then sh_word true s'
      else if Ascii.eqb c "\" then
        match s' with
        | EmptyString => None
        | String c' s'' =>
            if Ascii.eqb c' "010" then None
            else option_map (String c') (sh_word false s'')
        end
      else None
  end.

(** A system in which every call succeeds. *)
Definition plain_os : os_env :=
  OsEnv (fun _ => Ok "/tmp/tmpk3v9x2ad")
        (fun _ _ _ _ => Ok 3)
        (fun _ _ data => Ok (Z.of_nat (String.length data)))
        (fun _ _ => Ok tt)
        (fun _ _ => Ok tt)
        (fun _ _ => Ok tt).

End SSHAskPass.

(** ** Error lists by their structure

    The loop of a repetition under its own name: [match_here] on a
    pattern that starts with [Rep] is [rep_loop] from no character
    taken, with the rest of the pattern as [k]. *)
Section RepLoop.
Variable k : string -> nat -> option (nat * (nat * nat)).
Variables (greedy : bool) (least : nat) (cls : ascii -> bool).

Fixpoint rep_loop (s : string) (pos taken : nat) {struct s}
  : option (nat * (nat * nat)) :=
  let stop := if (least <=? taken)%nat then k s pos else None in
  let more :=
    match s with
    | String c s' => if cls c then rep_loop s' (S pos) (S taken) else None
    | EmptyString => None
    end in
  if greedy
  then match more with Some r => Some r | None => stop end
  else match stop with Some r => Some r | None => more end.
End RepLoop.

(** The text starts with a character of the class. *)
Definition starts_in (cls : ascii -> bool) (s : string) : bool :=
  match s with
  | String c _ => cls c
  | EmptyString => false
  end.

(** No match of [p] starts inside [a] when [a] is followed by [rest]. *)
Fixpoint unmatched (p : list item) (a rest : string) : Prop :=
  match a with
  | EmptyString => True
  | String c a' =>
      (forall pos g, match_here p (String c (String.append a' rest)) pos g = None)
      /\ unmatched p a' rest
  end.

(** An [<li>] entry of plain text as it stands in a page: white space
    before the tag, and the reason with white space around it. *)
Record li_item : Type := LiItem {
  li_gap : string;
  li_lead : string;
  li_reason : string;
  li_trail : string
}.

Definition starts_with_space (s : string) : bool :=
  match s with
  | String c _ => is_space c
  | EmptyString => false
  end.

Fixpoint ends_with_space (s : string) : bool :=
  match s with
  | EmptyString => false
  | String c s' =>
      match s' with
      | EmptyString => is_space c
      | String _ _ => ends_with_space s'
      end
  end.

(** The reason holds no markup and is trimmed; everything around it is
    white space. *)
Definition plain_item (it : li_item) : bool :=
  all_chars is_space (li_gap it) && all_chars is_space (li_lead it)
  && all_chars is_space (li_trail it) && all_chars not_lt (li_reason it)
  && negb (starts_with_space (li_reason it))
  && negb (ends_with_space (li_reason it)).

(** The entry itself, and the entry with the gap before it. *)
Definition entry_html (it : li_item) : string :=
  String.append "<li>"
    (String.append (li_lead it)
       (String.append (li_reason it) (String.append (li_trail it) "</li>"))).

Definition item_html (it : li_item) : string :=
  String.append (li_gap it) (entry_html it).

Fixpoint items_html (items : list li_item) : string :=
  match items with
  | [] => EmptyString
  | it :: items' => String.append (item_html it) (items_html items')
  end.

(** [class="error_list">] *)
Definition error_list_class : string :=
  String.append "class=" (String.append (quoted "error_list") ">").

(** An error list: the opening tag with white space [sp] before the
    class, the entries, and white space before the closing tag. *)
Definition error_list_html (sp : string) (items : list li_item)
    (end_gap : string) : string :=
  String.append "<ul"
    (String.append sp
       (String.append error_list_class
          (String.append (items_html items)
             (String.append end_gap "</ul>")))).

(** An answer whose first entry holds markup. *)
Definition markup_error_page : string :=
  String.append "<div class=msgbox_error><ul class="
    (String.append (quoted "error_list")
       "><li><b>Password too short</b></li><li>Passwords do not match</li></ul></div>").

(** The entries of [error_page]. *)
Definition error_page_items : list li_item :=
  [ LiItem EmptyString EmptyString "Password too short" EmptyString;
    LiItem EmptyString " " "Passwords do not match" " " ].

(** * Theorems *)

(** ** The monad *)

(** Rewrite with a fact about one step and let the [match] on its
    outcome reduce. *)
Ltac rw H := rewrite H; cbv beta iota.

Lemma rescue_status_not_None d a p k :
  rescue_status d a p k -> is_None d = false.
Proof. intros (rs & H & _). destruct d; try reflexivity. discriminate. Qed.

(** ** RescueSystem *)

Section RescueSystemFacts.
Variable E : env.
Variable server : Server.
Variable number : value.
Hypothesis Hnumber : data_attr server "number" = Ok number.

Let rescue_path := BootRescuePath number.

(** Adopting a well-formed status document replaces the three cached
    fields and sends nothing. *)
Lemma update_status_adopts d a p k r l :
  rescue_status d a p k ->
  RescueSystem_update_status E server d r l
  = (Ok tt, mkRescueSystem a p k, l).
Proof.
  intros Hst. pose proof (rescue_status_not_None _ _ _ _ Hst) as Hd.
  destruct Hst as (rs & H1 & H2 & H3 & H4).
  unfold RescueSystem_update_status. rewrite Hd.
  unfold bind, ret, lift, modify. rw H1. rw H2. rw H3. rw H4. reflexivity.
Qed.

(** Without a document the status is fetched once. *)
Lemma update_status_fetches d a p k r l :
  conn E l (Get rescue_path) = Doc d ->
  rescue_status d a p k ->
  RescueSystem_update_status E server VNone r l
  = (Ok tt, mkRescueSystem a p k, l ++ [Api (Get rescue_path)]).
Proof.
  intros Hc Hst. destruct Hst as (rs & H1 & H2 & H3 & H4).
  unfold RescueSystem_update_status. simpl is_None. cbv iota.
  unfold bind, ret, lift, modify, conn_get. rewrite Hnumber.
  fold rescue_path. rewrite Hc. simpl of_reply. cbv beta iota.
  rw H1. rw H2. rw H3. rw H4. reflexivity.
Qed.

(** Whatever the transport answers, a fetch is exactly one [Get]. *)
Lemma update_status_one_get r l :
  exists res r',
    RescueSystem_update_status E server VNone r l
    = (res, r', l ++ [Api (Get rescue_path)]).
Proof.
  unfold RescueSystem_update_status. simpl is_None. cbv iota.
  unfold bind, ret, lift, modify, conn_get. rewrite Hnumber.
  fold rescue_path.
  destruct (of_reply (conn E l (Get rescue_path))) as [d|e]; [|eauto].
  destruct (subscript d "rescue") as [rs|e]; [|eauto].
  destruct (subscript rs "active") as [a|e]; [|eauto].
  destruct (subscript rs "password") as [p|e]; [|eauto].
  destruct (subscript rs "authorized_key") as [k|e]; eauto.
Qed.

Lemma cached_property_hit field r l :
  is_None (field r) = false ->
  cached_property E server field r l = (Ok (field r), r, l).
Proof.
  intros H. unfold cached_property, bind, self. rewrite H. reflexivity.
Qed.

Lemma cached_property_miss field d a p k r l :
  is_None (field r) = true ->
  conn E l (Get rescue_path) = Doc d ->
  rescue_status d a p k ->
  cached_property E server field r l
  = (Ok (field (mkRescueSystem a p k)), mkRescueSystem a p k,
     l ++ [Api (Get rescue_path)]).
Proof.
  intros H Hc Hst. unfold cached_property, bind, self.
  rewrite H. cbn [negb]. cbv beta iota.
  rewrite (update_status_fetches _ _ _ _ _ _ Hc Hst). reflexivity.
Qed.

Lemma cached_property_miss_one_get field r l :
  is_None (field r) = true ->
  exists res r',
    cached_property E server field r l
    = (res, r', l ++ [Api (Get rescue_path)]).
Proof.
  intros H. unfold cached_property, bind, self.
  rewrite H. cbn [negb]. cbv beta iota.
  destruct (update_status_one_get r l) as (res & r' & ->).
  destruct res; eauto.
Qed.
End RescueSystemFacts.

(** C10: each of the properties [active], [password] and
    [authorized_keys] of a [RescueSystem] returns its cached field
    without any request when that field is not [None], and otherwise
    sends exactly one status [Get]; when the answer is a status document,
    all three cached fields are replaced by its values.  So a value that
    is [None] on the server side stays [None] in the cache, and the next
    read of that property fetches again. *)
Theorem C10_rescue_properties_fetch_on_None :
  forall (E : env) (server : Server) (number : value)
         (prop : M RescueSystem value) (field : RescueSystem -> value)
         (r : RescueSystem) (l : log),
    In (prop, field)
       [ (RescueSystem_active E server, _active);
         (RescueSystem_password E server, _password);
         (RescueSystem_authorized_keys E server, _authorized_keys) ] ->
    data_attr server "number" = Ok number ->
    let fetch := Api (Get (BootRescuePath number)) in
    (is_None (field r) = false -> prop r l = (Ok (field r), r, l)) /\
    (is_None (field r) = true ->
       (exists res r', prop r l = (res, r', l ++ [fetch])) /\
       (forall d a p k,
           conn E l (Get (BootRescuePath number)) = Doc d ->
           rescue_status d a p k ->
           let r' := mkRescueSystem a p k in
           prop r l = (Ok (field r'), r', l ++ [fetch]) /\
           (field r' = VNone ->
              exists res r'', prop r' (l ++ [fetch])
                              = (res, r'', (l ++ [fetch]) ++ [fetch])))).
Proof.
  intros E server number prop field r l Hin Hnum fetch.
  assert (Hp : prop = cached_property E server field).
  { simpl in Hin. destruct Hin as [H|[H|[H|[]]]]; inversion H; reflexivity. }
  subst prop. split.
  - intros H. now apply cached_property_hit.
  - intros H. split.
    + now apply cached_property_miss_one_get.
    + intros d a p k Hc Hst r'. split.
      * exact (cached_property_miss E server number Hnum field d a p k r l
                 H Hc Hst).
      * intros Hnone. apply cached_property_miss_one_get; [assumption|].
        fold r'. now rewrite Hnone.
Qed.

Lemma C10_witness :
  RescueSystem_password rescue_env numbered_server RescueSystem_init []
  = (Ok VNone, mkRescueSystem (VBool false) VNone (VList []),
     [Api (Get (BootRescuePath (VInt 321)))]).
Proof.
  pose proof (C10_rescue_properties_fetch_on_None rescue_env numbered_server
                (VInt 321) (RescueSystem_password rescue_env numbered_server)
                _password RescueSystem_init []) as H.
  simpl in H. destruct H as [_ H]; [auto | reflexivity |].
  destruct (H eq_refl) as [_ H'].
  destruct (H' (rescue_doc (VBool false) VNone) (VBool false) VNone (VList []))
    as [Hread _].
  - reflexivity.
  - eexists. repeat split; reflexivity.
  - exact Hread.
Defined.

Lemma mutations_app l1 l2 : mutations (l1 ++ l2) = mutations l1 ++ mutations l2.
Proof. unfold mutations. apply List.filter_app. Qed.

Lemma mutations_get l p : mutations (l ++ [Api (Get p)]) = mutations l.
Proof. rewrite mutations_app. simpl. apply app_nil_r. Qed.

(** Reading a property never sends a mutating request. *)
Lemma cached_property_reads_only E server number field r l res r1 l1 :
  data_attr server "number" = Ok number ->
  cached_property E server field r l = (res, r1, l1) ->
  mutations l1 = mutations l.
Proof.
  intros Hnum Hrun. destruct (is_None (field r)) eqn:Hf.
  - destruct (cached_property_miss_one_get E server number Hnum field r l Hf)
      as (res' & r' & Heq).
    rewrite Heq in Hrun. inversion Hrun; subst. apply mutations_get.
  - rewrite (cached_property_hit E server field r l Hf) in Hrun.
    now inversion Hrun.
Qed.

Lemma rescue_action_adopts E server number method opts reply a p k r l :
  data_attr server "number" = Ok number ->
  conn E l (Request method (BootRescuePath number) opts) = Doc reply ->
  rescue_status reply a p k ->
  RescueSystem_rescue_action E server method opts r l
  = (Ok tt, mkRescueSystem a p k,
     l ++ [Api (Request method (BootRescuePath number) opts)]).
Proof.
  intros Hnum Hc Hst. unfold RescueSystem_rescue_action, bind, lift.
  rw Hnum. unfold conn_request. rw Hc. simpl of_reply. cbv beta iota.
  now apply update_status_adopts.
Qed.

Lemma activate_when_active E server bits os keys a r l r1 l1 :
  RescueSystem_active E server r l = (Ok a, r1, l1) ->
  truthy a = true ->
  RescueSystem_activate E server bits os keys r l = (Ok tt, r1, l1).
Proof.
  intros Hact Ht. unfold RescueSystem_activate, bind.
  rw Hact. rewrite Ht. reflexivity.
Qed.

Lemma activate_when_inactive E server number bits os keys a r l r1 l1
      opts reply act pw ak :
  data_attr server "number" = Ok number ->
  RescueSystem_active E server r l = (Ok a, r1, l1) ->
  truthy a = false ->
  activation_opts bits os keys = Ok opts ->
  conn E l1 (Request "post" (BootRescuePath number) opts) = Doc reply ->
  rescue_status reply act pw ak ->
  RescueSystem_activate E server bits os keys r l
  = (Ok tt, mkRescueSystem act pw ak,
     l1 ++ [Api (Request "post" (BootRescuePath number) opts)]).
Proof.
  intros Hnum Hact Ht Hopts Hc Hst. unfold RescueSystem_activate.
  unfold bind at 1. rw Hact. rewrite Ht. cbn [negb]. cbv beta iota.
  unfold activation_opts in Hopts. unfold bind at 1.
  destruct (is_None keys); cbn [negb]; cbv beta iota.
  - inversion Hopts; subst opts. unfold ret.
    exact (rescue_action_adopts E server number _ _ reply act pw ak r1 l1
             Hnum Hc Hst).
  - unfold bind, lift, ret. destruct (py_iter keys) as [ks|e]; [|discriminate].
    inversion Hopts; subst opts. cbv beta iota.
    exact (rescue_action_adopts E server number _ _ reply act pw ak r1 l1
             Hnum Hc Hst).
Qed.

(** C6: [RescueSystem.activate] goes by the status of the rescue
    system: the cached [_active] when it is not [None], and otherwise
    the [active] of the status document that one [Get] of the rescue
    path fetches (which also replaces the three cached fields).  Reading
    the status never sends a mutating request.  If the status is true,
    [activate] sends nothing more and returns: on a system whose fetched
    status has [active = True] the log grows by the one [Get] only.  If
    it is false, [activate] sends one [post] to the rescue path with the
    activation options and replaces the three cached fields together by
    those of the reply; when the reply reports the system active, a
    second [activate] right after it sends nothing, so the two calls
    together perform exactly one mutation. *)
Theorem C6_activate_idempotent :
  forall (E : env) (server : Server) (number bits os keys : value)
         (r : RescueSystem) (l : log) (a : value) (r1 : RescueSystem)
         (l1 : log),
    data_attr server "number" = Ok number ->
    (is_None (_active r) = false /\ a = _active r /\ r1 = r /\ l1 = l) \/
    (is_None (_active r) = true /\
     exists d p k,
       conn E l (Get (BootRescuePath number)) = Doc d /\
       rescue_status d a p k /\
       r1 = mkRescueSystem a p k /\
       l1 = l ++ [Api (Get (BootRescuePath number))]) ->
    mutations l1 = mutations l /\
    (truthy a = true ->
       RescueSystem_activate E server bits os keys r l = (Ok tt, r1, l1)) /\
    (truthy a = false ->
       forall opts reply act pw ak,
         activation_opts bits os keys = Ok opts ->
         let post := Api (Request "post" (BootRescuePath number) opts) in
         conn E l1 (Request "post" (BootRescuePath number) opts) = Doc reply ->
         rescue_status reply act pw ak ->
         let r2 := mkRescueSystem act pw ak in
         RescueSystem_activate E server bits os keys r l
         = (Ok tt, r2, l1 ++ [post]) /\
         mutations (l1 ++ [post]) = mutations l ++ [post] /\
         (truthy act = true ->
            RescueSystem_activate E server bits os keys r2 (l1 ++ [post])
            = (Ok tt, r2, l1 ++ [post]))).
Proof.
  intros E server number bits os keys r l a r1 l1 Hnum Hstatus.
  assert (Hact : RescueSystem_active E server r l = (Ok a, r1, l1)).
  { destruct Hstatus as [(Hc & -> & -> & ->)|(Hc & d & p & k & Hget & Hd & -> & ->)].
    - exact (cached_property_hit E server _active r l Hc).
    - exact (cached_property_miss E server number Hnum _active d a p k r l
               Hc Hget Hd). }
  assert (Hread : mutations l1 = mutations l)
    by exact (cached_property_reads_only E server number _ r l _ r1 l1 Hnum Hact).
  split; [exact Hread|]. split.
  - intros Ht.
    exact (activate_when_active E server bits os keys a r l r1 l1 Hact Ht).
  - intros Ht opts reply act pw ak Hopts post Hc Hst r2. split; [|split].
    + exact (activate_when_inactive E server number bits os keys a r l r1 l1
               opts reply act pw ak Hnum Hact Ht Hopts Hc Hst).
    + rewrite mutations_app, Hread. reflexivity.
    + intros Hon.
      apply (activate_when_active E server bits os keys act).
      * apply cached_property_hit. simpl. destruct act; try reflexivity.
        discriminate.
      * exact Hon.
Qed.

Lemma C6_witness :
  RescueSystem_activate active_rescue_env numbered_server (VInt 64)
    (VStr "linux") VNone RescueSystem_init []
  = (Ok tt, mkRescueSystem (VBool true) (VStr "jEt0dvTlXzyp1") (VList []),
     [] ++ [Api (Get (BootRescuePath (VInt 321)))]) /\
  RescueSystem_activate rescue_env numbered_server (VInt 64) (VStr "linux")
    VNone RescueSystem_init []
  = (Ok tt, mkRescueSystem (VBool true) (VStr "jEt0dvTlXzyp1") (VList []),
     [Api (Get (BootRescuePath (VInt 321)));
      Api (Request "post" (BootRescuePath (VInt 321))
             (VDict [("os", VStr "linux"); ("arch", VInt 64)]))]).
Proof.
  split.
  - destruct (C6_activate_idempotent active_rescue_env numbered_server
                (VInt 321) (VInt 64) (VStr "linux") VNone RescueSystem_init []
                (VBool true)
                (mkRescueSystem (VBool true) (VStr "jEt0dvTlXzyp1") (VList []))
                ([] ++ [Api (Get (BootRescuePath (VInt 321)))]) eq_refl)
      as (_ & H & _).
    + right. split; [reflexivity|].
      exists (rescue_doc (VBool true) (VStr "jEt0dvTlXzyp1")),
             (VStr "jEt0dvTlXzyp1"), (VList []).
      split; [reflexivity|]. split; [|split; reflexivity].
      eexists. repeat split; reflexivity.
    + exact (H eq_refl).
  - destruct (C6_activate_idempotent rescue_env numbered_server (VInt 321)
                (VInt 64) (VStr "linux") VNone RescueSystem_init []
                (VBool false) (mkRescueSystem (VBool false) VNone (VList []))
                ([] ++ [Api (Get (BootRescuePath (VInt 321)))]) eq_refl)
      as (_ & _ & H).
    + right. split; [reflexivity|].
      exists (rescue_doc (VBool false) VNone), VNone, (VList []).
      split; [reflexivity|]. split; [|split; reflexivity].
      eexists. repeat split; reflexivity.
    + destruct (H eq_refl (VDict [("os", VStr "linux"); ("arch", VInt 64)])
                  (rescue_doc (VBool true) (VStr "jEt0dvTlXzyp1"))
                  (VBool true) (VStr "jEt0dvTlXzyp1") (VList []) eq_refl eq_refl)
        as (Hrun & _).
      * eexists. repeat split; reflexivity.
      * exact Hrun.
Defined.

(** ** AdminAccount *)

(** Discovery: a login, one request for the account page, which must
    come with status 200; [exists] and [login] follow from the page. *)
Lemma update_info_discovers E a l page :
  scraper_login E l = None ->
  let req := WebRequest (AdminPath (_serverid a)) None None in
  scraper_request E (l ++ [WebLogin]) req = Ok page ->
  status page = 200 ->
  AdminAccount_update_info E a l
  = (Ok tt, discovered a (text page), (l ++ [WebLogin]) ++ [Web req]).
Proof.
  intros Hl req Hr Hs. unfold AdminAccount_update_info, bind, self.
  unfold scraper_do_login. rw Hl. unfold scraper_do_request. fold req.
  rw Hr. rewrite Hs. simpl (200 =? 200). unfold assert, ret. cbv beta iota.
  unfold discovered. destruct (search login_re (text page)); reflexivity.
Qed.

(** C7: [AdminAccount.delete] on an account with [exists = False]
    returns at once: nothing is sent and the account is unchanged.  With
    [exists = True] it sends one request to the delete path; if the
    answer contains [msgbox_success] it goes on with discovery
    ([update_info]), otherwise the assertion fails. *)
Theorem C7_delete_noop_when_missing :
  forall (E : env) (a : AdminAccount) (l : log),
    (exists_ a = false -> AdminAccount_delete E a l = (Ok tt, a, l)) /\
    (exists_ a = true ->
       let req := WebRequest (AdminDeletePath (_serverid a)) None None in
       AdminAccount_delete E a l
       = match scraper_request E l req with
         | Ok page =>
             if contains "msgbox_success" (text page)
             then AdminAccount_update_info E a (l ++ [Web req])
             else (Raise AssertionError, a, l ++ [Web req])
         | Raise e => (Raise e, a, l ++ [Web req])
         end).
Proof.
  intros E a l. split; intros H.
  - unfold AdminAccount_delete, bind, self. rewrite H. reflexivity.
  - intros req. unfold AdminAccount_delete, bind, self. rewrite H.
    cbn [negb]. cbv beta iota. unfold scraper_do_request. fold req.
    destruct (scraper_request E l req) as [page|e]; [|reflexivity].
    destruct (contains "msgbox_success" (text page)); reflexivity.
Qed.

Lemma C7_witness :
  AdminAccount_delete (admin_env (Response 200 success_page)
                                 (Response 200 no_account_page))
    missing_account []
  = (Ok tt, missing_account, []) /\
  AdminAccount_delete (admin_env (Response 200 success_page)
                                 (Response 200 no_account_page))
    present_account []
  = (Ok tt, mkAdminAccount (VInt 321) false (VStr "K1234567") VNone,
     [Web (WebRequest (AdminDeletePath (VInt 321)) None None); WebLogin;
      Web (WebRequest (AdminPath (VInt 321)) None None)]).
Proof.
  split.
  - apply (C7_delete_noop_when_missing
             (admin_env (Response 200 success_page)
                        (Response 200 no_account_page))
             missing_account []).
    reflexivity.
  - destruct (C7_delete_noop_when_missing
                (admin_env (Response 200 success_page)
                           (Response 200 no_account_page))
                present_account []) as [_ H].
    rewrite (H eq_refl). vm_compute. reflexivity.
Defined.

(** ** Text and the patterns: how a match is built and taken apart *)

Lemma append_cons a (s t : string) :
  String.append (String a s) t = String a (String.append s t).
Proof. reflexivity. Qed.

Lemma append_nil (t : string) : String.append EmptyString t = t.
Proof. reflexivity. Qed.

Lemma strip_prefix_app t s s' :
  strip_prefix t s = Some s' -> s = String.append t s'.
Proof.
  revert s. induction t as [|a t IH]; intros s H; simpl in H.
  - now inversion H.
  - destruct s as [|b s]; [discriminate|].
    destruct (Ascii.eqb a b) eqn:Hab; [|discriminate].
    apply Ascii.eqb_eq in Hab. subst b. rewrite append_cons. f_equal.
    now apply IH.
Qed.

Lemma match_lit_inv t p s pos g r :
  match_here (Lit t :: p) s pos g = Some r ->
  exists s', s = String.append t s' /\
             match_here p s' (pos + String.length t)%nat g = Some r.
Proof.
  simpl. destruct (strip_prefix t s) as [s'|] eqn:Hs; [|discriminate].
  intros H. exists s'. split; [now apply strip_prefix_app|exact H].
Qed.

Lemma match_gopen p s pos g :
  match_here (GOpen :: p) s pos g = match_here p s pos (pos, snd g).
Proof. reflexivity. Qed.

Lemma match_gclose p s pos g :
  match_here (GClose :: p) s pos g = match_here p s pos (fst g, pos).
Proof. reflexivity. Qed.

Lemma match_rep_inv greedy least cls p s pos g r :
  match_here (Rep greedy least cls :: p) s pos g = Some r ->
  exists a s', s = String.append a s' /\
               all_chars cls a = true /\
               (least <= String.length a)%nat /\
               match_here p s' (pos + String.length a)%nat g = Some r.
Proof.
  cbn [match_here].
  assert (Hloop : forall s pos taken,
             (fix rep (s : string) (pos taken : nat) {struct s} :=
                let stop :=
                  if (least <=? taken)%nat then match_here p s pos g else None in
                let more :=
                  match s with
                  | String c s' =>
                      if cls c then rep s' (S pos) (S taken) else None
                  | EmptyString => None
                  end in
                if greedy
                then match more with Some r => Some r | None => stop end
                else match stop with Some r => Some r | None => more end)
               s pos taken = Some r ->
             exists a s', s = String.append a s' /\
                          all_chars cls a = true /\
                          (least <= taken + String.length a)%nat /\
                          match_here p s' (pos + String.length a)%nat g = Some r).
  { clear s pos. intros s. induction s as [|c s IH]; intros pos taken H.
    - assert (Hstop : (if (least <=? taken)%nat
                       then match_here p EmptyString pos g else None) = Some r).
      { cbn beta iota zeta in H. destruct greedy; [exact H|].
        destruct (if (least <=? taken)%nat then _ else None); [exact H|discriminate]. }
      destruct (least <=? taken)%nat eqn:Hle; [|discriminate].
      apply Nat.leb_le in Hle.
      exists EmptyString, EmptyString. simpl.
      rewrite !Nat.add_0_r. repeat split; [lia|exact Hstop].
    - assert (Hcases :
                (if (least <=? taken)%nat
                 then match_here p (String c s) pos g else None) = Some r \/
                (cls c = true /\
                 (fix rep (s : string) (pos taken : nat) {struct s} :=
                    let stop :=
                      if (least <=? taken)%nat
                      then match_here p s pos g else None in
                    let more :=
                      match s with
                      | String c s' =>
                          if cls c then rep s' (S pos) (S taken) else None
                      | EmptyString => None
                      end in
                    if greedy
                    then match more with Some r => Some r | None => stop end
                    else match stop with Some r => Some r | None => more end)
                   s (S pos) (S taken) = Some r)).
      { cbn beta iota zeta in H.
        destruct greedy.
        - destruct (cls c) eqn:Hc.
          + match type of H with
            | match ?x with _ => _ end = _ => destruct x eqn:Hm
            end.
            * right. split; [reflexivity|]. exact H.
            * left. exact H.
          + left. exact H.
        - match type of H with
          | match ?x with _ => _ end = _ => destruct x eqn:Hm
          end.
          + left. rewrite <- H. reflexivity.
          + destruct (cls c) eqn:Hc; [|discriminate].
            right. split; [reflexivity|exact H]. }
      destruct Hcases as [Hstop|[Hc Hmore]].
      + destruct (least <=? taken)%nat eqn:Hle; [|discriminate].
        apply Nat.leb_le in Hle.
        exists EmptyString, (String c s). simpl.
        rewrite !Nat.add_0_r. repeat split; [lia|exact Hstop].
      + destruct (IH _ _ Hmore) as (a & s' & Hs & Hall & Hlen & Hrest).
        exists (String c a), s'. simpl. rewrite Hc, Hall.
        repeat split.
        * now rewrite Hs.
        * lia.
        * replace (pos + S (String.length a))%nat
            with (S pos + String.length a)%nat by lia.
          exact Hrest. }
  intros H. destruct (Hloop s pos 0%nat H) as (a & s' & H1 & H2 & H3 & H4).
  exists a, s'. repeat split; auto.
Qed.

Lemma search_from_inv p s pos m :
  search_from p s pos = Some m ->
  exists a s', s = String.append a s' /\
               m_start m = (pos + String.length a)%nat /\
               match_here p s' (m_start m) (m_start m, m_start m)
               = Some (m_end m, (g_start m, g_end m)).
Proof.
  revert pos. induction s as [|c s IH]; intros pos H; simpl in H.
  - destruct (match_here p EmptyString pos (pos, pos)) as [[e [gs ge]]|] eqn:Hm;
      [|discriminate].
    inversion H; subst m. exists EmptyString, EmptyString. simpl.
    rewrite !Nat.add_0_r. auto.
  - destruct (match_here p (String c s) pos (pos, pos)) as [[e [gs ge]]|] eqn:Hm.
    + inversion H; subst m. exists EmptyString, (String c s). simpl.
      rewrite !Nat.add_0_r. auto.
    + destruct (IH _ H) as (a & s' & Hs & Hstart & Hmatch).
      exists (String c a), s'. simpl. rewrite Hs. repeat split; auto.
      rewrite Hstart. lia.
Qed.

Lemma substring_prefix (b c : string) :
  String.substring 0 (String.length b) (String.append b c) = b.
Proof.
  induction b as [|y b IH].
  - rewrite append_nil. simpl. now destruct c.
  - rewrite append_cons. simpl. now rewrite IH.
Qed.

Lemma substring_app_middle a b c :
  String.substring (String.length a) (String.length b)
    (String.append a (String.append b c)) = b.
Proof.
  induction a as [|x a IH].
  - rewrite append_nil. apply substring_prefix.
  - rewrite append_cons. simpl. exact IH.
Qed.

Lemma append_assoc (a b c : string) :
  String.append (String.append a b) c = String.append a (String.append b c).
Proof.
  induction a as [|x a IH]; [reflexivity|].
  rewrite !append_cons. now rewrite IH.
Qed.

Lemma length_append (a b : string) :
  String.length (String.append a b) = (String.length a + String.length b)%nat.
Proof.
  induction a as [|x a IH]; [reflexivity|].
  rewrite append_cons. simpl. now rewrite IH.
Qed.

Lemma finditer_from_inv p s : forall pos skip m,
  In m (finditer_from p s pos skip) ->
  exists a s', s = String.append a s' /\
               m_start m = (pos + String.length a)%nat /\
               match_here p s' (m_start m) (m_start m, m_start m)
               = Some (m_end m, (g_start m, g_end m)).
Proof.
  induction s as [|c s IH]; intros pos skip m Hin.
  - destruct skip as [|k]; simpl in Hin; [|contradiction].
    destruct (match_here p EmptyString pos (pos, pos)) as [[e [gs ge]]|] eqn:Hm;
      [|contradiction].
    destruct Hin as [<-|[]]. exists EmptyString, EmptyString.
    cbn [m_start m_end g_start g_end]. rewrite append_nil. simpl.
    rewrite Nat.add_0_r. auto.
  - assert (Hnext : forall pos' skip',
               In m (finditer_from p s pos' skip') -> pos' = S pos ->
               exists a s', String c s = String.append a s' /\
                            m_start m = (pos + String.length a)%nat /\
                            match_here p s' (m_start m) (m_start m, m_start m)
                            = Some (m_end m, (g_start m, g_end m))).
    { intros pos' skip' Hin' ->.
      destruct (IH _ _ _ Hin') as (a & s' & Hs & Hstart & Hmatch).
      exists (String c a), s'. rewrite append_cons, <- Hs.
      repeat split; auto. rewrite Hstart. simpl. lia. }
    destruct skip as [|k]; simpl in Hin.
    + destruct (match_here p (String c s) pos (pos, pos))
        as [[e [gs ge]]|] eqn:Hm.
      * destruct Hin as [<-|Hin].
        -- exists EmptyString, (String c s).
           cbn [m_start m_end g_start g_end]. rewrite append_nil. simpl.
           rewrite Nat.add_0_r. auto.
        -- eapply Hnext; [exact Hin|reflexivity].
      * eapply Hnext; [exact Hin|reflexivity].
    + eapply Hnext; [exact Hin|reflexivity].
Qed.

Lemma match_nil_inv s pos g r :
  match_here [] s pos g = Some r -> r = (pos, g).
Proof. simpl. now intros [= <-]. Qed.

(** What [li_re] captures holds no ["<"]. *)
Lemma li_re_captures text m :
  In m (finditer li_re text) ->
  all_chars not_lt (group1 text m) = true.
Proof.
  unfold finditer. intros H.
  destruct (finditer_from_inv _ _ _ _ _ H) as (a0 & s0 & Htext & Hstart & Hm).
  unfold li_re in Hm.
  apply match_lit_inv in Hm. destruct Hm as (s1 & Hs0 & Hm).
  apply match_rep_inv in Hm. destruct Hm as (a1 & s2 & Hs1 & _ & _ & Hm).
  rewrite match_gopen in Hm.
  apply match_rep_inv in Hm. destruct Hm as (grp & s3 & Hs2 & Hall & _ & Hm).
  rewrite match_gclose in Hm.
  apply match_rep_inv in Hm. destruct Hm as (a2 & s4 & Hs3 & _ & _ & Hm).
  apply match_lit_inv in Hm. destruct Hm as (s5 & Hs4 & Hm).
  apply match_nil_inv in Hm. cbn [fst snd] in Hm.
  set (pre := String.append a0 (String.append "<li>" a1)).
  assert (Hpos : (m_start m + String.length "<li>" + String.length a1)%nat
                 = String.length pre).
  { unfold pre. rewrite !length_append. rewrite Hstart. lia. }
  rewrite Hpos in Hm.
  assert (Hgs : g_start m = String.length pre) by congruence.
  assert (Hge : g_end m = (String.length pre + String.length grp)%nat)
    by congruence.
  assert (Hwhole : text = String.append pre (String.append grp s3)).
  { rewrite Htext, Hs0, Hs1, Hs2. unfold pre. now rewrite !append_assoc. }
  unfold group1. rewrite Hgs, Hge.
  replace (String.length pre + String.length grp - String.length pre)%nat
    with (String.length grp) by lia.
  rewrite Hwhole, substring_app_middle. exact Hall.
Qed.

Lemma all_chars_app cls (a b : string) :
  all_chars cls (String.append a b) = all_chars cls a && all_chars cls b.
Proof.
  induction a as [|c a IH].
  - reflexivity.
  - rewrite append_cons. cbn [all_chars]. rewrite IH. now rewrite andb_assoc.
Qed.

Lemma append_empty (s : string) : String.append s EmptyString = s.
Proof. induction s as [|c s IH]; [reflexivity|]. now rewrite append_cons, IH. Qed.

Lemma match_rep_loop greedy least cls p s pos g :
  match_here (Rep greedy least cls :: p) s pos g
  = rep_loop (fun s pos => match_here p s pos g) greedy least cls s pos 0.
Proof. reflexivity. Qed.

Lemma rep_loop_nil k greedy least cls pos taken :
  rep_loop k greedy least cls EmptyString pos taken
  = if (least <=? taken)%nat then k EmptyString pos else None.
Proof.
  cbn [rep_loop]. destruct greedy; [reflexivity|].
  now destruct (if (least <=? taken)%nat then k EmptyString pos else None).
Qed.

Lemma rep_loop_cons k greedy least cls c s pos taken :
  rep_loop k greedy least cls (String c s) pos taken
  = let stop := if (least <=? taken)%nat then k (String c s) pos else None in
    let more := if cls c then rep_loop k greedy least cls s (S pos) (S taken)
                else None in
    if greedy
    then match more with Some r => Some r | None => stop end
    else match stop with Some r => Some r | None => more end.
Proof. reflexivity. Qed.

(** A greedy repetition takes a whole run when the rest of the pattern
    matches after it. *)
Lemma rep_greedy_run k least cls a : forall s' pos taken r,
  all_chars cls a = true ->
  starts_in cls s' = false ->
  (least <= taken + String.length a)%nat ->
  k s' (pos + String.length a)%nat = Some r ->
  rep_loop k true least cls (String.append a s') pos taken = Some r.
Proof.
  induction a as [|c a IH]; intros s' pos taken r Hall Hnext Hleast Hk.
  - rewrite append_nil. simpl in Hleast, Hk. rewrite Nat.add_0_r in *.
    assert (Hle : (least <=? taken)%nat = true) by (apply Nat.leb_le; lia).
    destruct s' as [|c s'].
    + rewrite rep_loop_nil, Hle. exact Hk.
    + rewrite rep_loop_cons. cbv zeta. simpl in Hnext. rewrite Hnext, Hle.
      exact Hk.
  - rewrite append_cons, rep_loop_cons. cbv zeta.
    cbn [all_chars] in Hall. apply andb_true_iff in Hall.
    destruct Hall as [Hc Hall]. rewrite Hc.
    rewrite (IH s' (S pos) (S taken) r Hall Hnext); [reflexivity| |].
    + simpl in Hleast. lia.
    + simpl in Hk. now replace (S pos + String.length a)%nat
        with (pos + S (String.length a))%nat by lia.
Qed.

(** A lazy repetition stops at the first place where the rest of the
    pattern matches. *)
Lemma rep_lazy_run k least cls a : forall s' pos taken r,
  all_chars cls a = true ->
  (forall b1 b2, a = String.append b1 b2 -> b2 <> EmptyString ->
                 k (String.append b2 s') (pos + String.length b1)%nat = None) ->
  (least <= taken + String.length a)%nat ->
  k s' (pos + String.length a)%nat = Some r ->
  rep_loop k false least cls (String.append a s') pos taken = Some r.
Proof.
  induction a as [|c a IH]; intros s' pos taken r Hall Hno Hleast Hk.
  - rewrite append_nil. simpl in Hleast, Hk. rewrite Nat.add_0_r in *.
    assert (Hle : (least <=? taken)%nat = true) by (apply Nat.leb_le; lia).
    destruct s' as [|c s'].
    + rewrite rep_loop_nil, Hle. exact Hk.
    + rewrite rep_loop_cons. cbv zeta. rewrite Hle, Hk. reflexivity.
  - rewrite append_cons, rep_loop_cons. cbv zeta.
    cbn [all_chars] in Hall. apply andb_true_iff in Hall.
    destruct Hall as [Hc Hall]. rewrite Hc.
    assert (Hstop : k (String c (String.append a s')) pos = None).
    { specialize (Hno EmptyString (String c a) eq_refl).
      simpl in Hno. rewrite Nat.add_0_r in Hno. apply Hno. discriminate. }
    rewrite Hstop.
    assert (Hrec : rep_loop k false least cls (String.append a s') (S pos)
                     (S taken) = Some r).
    { apply IH; auto.
      - intros b1 b2 Ha Hb2.
        specialize (Hno (String c b1) b2). rewrite append_cons, <- Ha in Hno.
        specialize (Hno eq_refl Hb2). simpl in Hno.
        now replace (S pos + String.length b1)%nat
          with (pos + S (String.length b1))%nat by lia.
      - simpl in Hleast. lia.
      - simpl in Hk. now replace (S pos + String.length a)%nat
          with (pos + S (String.length a))%nat by lia. }
    rewrite Hrec. now destruct (least <=? taken)%nat.
Qed.

Lemma unmatched_suffix p b1 : forall a b2 s',
  unmatched p a s' -> a = String.append b1 b2 -> b2 <> EmptyString ->
  forall pos g, match_here p (String.append b2 s') pos g = None.
Proof.
  induction b1 as [|c b1 IH]; intros a b2 s' Hu Ha Hb2 pos g.
  - rewrite append_nil in Ha. subst a. destruct b2 as [|c b2]; [congruence|].
    rewrite append_cons. apply Hu.
  - rewrite append_cons in Ha. subst a. destruct Hu as [_ Hu].
    now apply (IH _ _ _ Hu eq_refl).
Qed.

Lemma unmatched_of_suffixes p a : forall s',
  (forall b1 b2, a = String.append b1 b2 -> b2 <> EmptyString ->
                 forall pos g, match_here p (String.append b2 s') pos g = None) ->
  unmatched p a s'.
Proof.
  induction a as [|c a IH]; intros s' H; [exact I|]. split.
  - intros pos g. rewrite <- append_cons.
    apply (H EmptyString (String c a) eq_refl). discriminate.
  - apply IH. intros b1 b2 Ha Hb2. apply (H (String c b1) b2); [|exact Hb2].
    now rewrite append_cons, Ha.
Qed.

Lemma unmatched_app p a b s' :
  unmatched p a (String.append b s') -> unmatched p b s' ->
  unmatched p (String.append a b) s'.
Proof.
  induction a as [|c a IH]; intros Ha Hb.
  - now rewrite append_nil.
  - rewrite append_cons. destruct Ha as [Hc Ha]. split.
    + intros pos g. rewrite append_assoc. apply Hc.
    + now apply IH.
Qed.

Lemma not_lt_eqb c : not_lt c = true -> Ascii.eqb "<" c = false.
Proof.
  unfold not_lt. intros H. destruct (Ascii.eqb_spec "<" c) as [<-|]; [|reflexivity].
  discriminate H.
Qed.

Lemma space_not_lt c : is_space c = true -> not_lt c = true.
Proof.
  unfold not_lt. destruct (Ascii.eqb_spec c "<") as [->|]; [|reflexivity].
  intros H. vm_compute in H. discriminate H.
Qed.

Lemma all_space_not_lt a : all_chars is_space a = true -> all_chars not_lt a = true.
Proof.
  induction a as [|c a IH]; [reflexivity|]. cbn [all_chars].
  intros H. apply andb_true_iff in H. destruct H as [Hc H].
  now rewrite (space_not_lt _ Hc), IH.
Qed.

(** A pattern that starts with a literal (possibly after the end of a
    group) whose first character is ["<"] matches nowhere inside a text
    without ["<"]. *)
Lemma unmatched_plain t p a s' :
  all_chars not_lt a = true ->
  unmatched (Lit (String "<" t) :: p) a s'
  /\ unmatched (GClose :: Lit (String "<" t) :: p) a s'.
Proof.
  induction a as [|c a IH]; intros Hall; [split; exact I|].
  cbn [all_chars] in Hall. apply andb_true_iff in Hall.
  destruct Hall as [Hc Hall]. destruct (IH Hall) as [H1 H2].
  split; (split; [|assumption]); intros pos g;
    cbn [match_here strip_prefix]; now rewrite (not_lt_eqb _ Hc).
Qed.

Lemma search_from_skip p a : forall s' pos,
  unmatched p a s' ->
  search_from p (String.append a s') pos
  = search_from p s' (pos + String.length a)%nat.
Proof.
  induction a as [|c a IH]; intros s' pos Hu.
  - rewrite append_nil. simpl. now rewrite Nat.add_0_r.
  - rewrite append_cons. destruct Hu as [Hc Hu]. cbn [search_from].
    rewrite Hc, (IH _ _ Hu). f_equal. simpl. lia.
Qed.

Lemma finditer_from_skip p a : forall s' pos,
  unmatched p a s' ->
  finditer_from p (String.append a s') pos 0
  = finditer_from p s' (pos + String.length a)%nat 0.
Proof.
  induction a as [|c a IH]; intros s' pos Hu.
  - rewrite append_nil. simpl. now rewrite Nat.add_0_r.
  - rewrite append_cons. destruct Hu as [Hc Hu]. cbn [finditer_from].
    rewrite Hc, (IH _ _ Hu). f_equal. simpl. lia.
Qed.

Lemma finditer_from_pass p a : forall s' pos,
  finditer_from p (String.append a s') pos (String.length a)
  = finditer_from p s' (pos + String.length a)%nat 0.
Proof.
  induction a as [|c a IH]; intros s' pos.
  - rewrite append_nil. simpl. now rewrite Nat.add_0_r.
  - rewrite append_cons. cbn [finditer_from String.length].
    rewrite IH. f_equal. lia.
Qed.

Lemma finditer_from_hit p m s' pos gs ge :
  m <> EmptyString ->
  match_here p (String.append m s') pos (pos, pos)
  = Some ((pos + String.length m)%nat, (gs, ge)) ->
  finditer_from p (String.append m s') pos 0
  = Span pos (pos + String.length m) gs ge
      :: finditer_from p s' (pos + String.length m)%nat 0.
Proof.
  intros Hm H. destruct m as [|c m]; [congruence|].
  rewrite append_cons in *. cbn [finditer_from]. rewrite H. f_equal.
  cbn [String.length].
  replace (pos + S (String.length m) - pos - 1)%nat with (String.length m)
    by lia.
  rewrite finditer_from_pass. f_equal. lia.
Qed.

Lemma strip_prefix_append t s : strip_prefix t (String.append t s) = Some s.
Proof.
  induction t as [|c t IH]; [reflexivity|].
  rewrite append_cons. cbn [strip_prefix]. now rewrite Ascii.eqb_refl.
Qed.

Lemma match_lit_append t p s pos g :
  match_here (Lit t :: p) (String.append t s) pos g
  = match_here p s (pos + String.length t)%nat g.
Proof. cbn [match_here]. now rewrite strip_prefix_append. Qed.

Lemma ends_with_space_cons c b :
  b <> EmptyString -> ends_with_space (String c b) = ends_with_space b.
Proof. destruct b; [congruence|reflexivity]. Qed.

Lemma ends_with_space_app b1 b2 :
  b2 <> EmptyString ->
  ends_with_space (String.append b1 b2) = ends_with_space b2.
Proof.
  intros Hb2. induction b1 as [|c b1 IH]; [reflexivity|].
  rewrite append_cons, ends_with_space_cons; [exact IH|].
  destruct b1; [now rewrite append_nil|rewrite append_cons; discriminate].
Qed.

(** White space and then [</li>] cannot follow in the middle of a
    trimmed text without ["<"]. *)
Lemma space_run_no_close g b : forall T pos taken,
  b <> EmptyString ->
  all_chars not_lt b = true ->
  ends_with_space b = false ->
  rep_loop (fun s pos => match_here [Lit "</li>"] s pos g) true 0 is_space
    (String.append b T) pos taken = None.
Proof.
  induction b as [|c b IH]; intros T pos taken Hne Hall Hend; [congruence|].
  rewrite append_cons, rep_loop_cons. cbv zeta.
  cbn [all_chars] in Hall. apply andb_true_iff in Hall.
  destruct Hall as [Hc Hall].
  assert (Hstop : match_here [Lit "</li>"]
                    (String c (String.append b T)) pos g = None).
  { cbn [match_here strip_prefix]. now rewrite (not_lt_eqb _ Hc). }
  change (0 <=? taken)%nat with true. cbv iota. rewrite Hstop.
  destruct (is_space c) eqn:Hsp; [|reflexivity].
  destruct b as [|c' b'].
  - simpl in Hend. congruence.
  - rewrite IH; [reflexivity|discriminate|exact Hall|].
    now rewrite ends_with_space_cons in Hend by discriminate.
Qed.

Lemma substring_zero n : forall s, String.substring n 0 s = EmptyString.
Proof.
  induction n as [|n IH]; intros s; destruct s; simpl; auto.
Qed.

(** [li_re] matches a plain entry where it starts, to its end, and
    captures the reason. *)
Lemma li_re_matches_entry it s' pos :
  plain_item it = true ->
  exists gs ge,
    match_here li_re (String.append (entry_html it) s') pos (pos, pos)
    = Some ((pos + String.length (entry_html it))%nat, (gs, ge)) /\
    forall before,
      String.length before = pos ->
      String.substring gs (ge - gs)
        (String.append before (String.append (entry_html it) s'))
      = li_reason it.
Proof.
  destruct it as [gap lead reason trail]. unfold plain_item, entry_html.
  cbn [li_gap li_lead li_reason li_trail].
  rewrite !andb_true_iff, !negb_true_iff.
  intros (((((_ & Hlead) & Htrail) & Hplain) & Hstart) & Hend).
  set (close := [Rep true 0 is_space; Lit "</li>"]).
  assert (Hclose : forall sp pos g,
             all_chars is_space sp = true ->
             match_here close (String.append sp (String.append "</li>" s')) pos g
             = Some ((pos + String.length sp + 5)%nat, g)).
  { intros sp p g Hsp. unfold close. rewrite match_rep_loop.
    apply rep_greedy_run; [exact Hsp|reflexivity|lia|].
    rewrite match_lit_append. reflexivity. }
  destruct reason as [|c reason].
  - (* no text: the first run of white space takes both *)
    exists (pos + 4 + String.length (String.append lead trail))%nat,
           (pos + 4 + String.length (String.append lead trail))%nat.
    split.
    + rewrite append_nil. rewrite !append_assoc. unfold li_re.
      rewrite match_lit_append.
      rewrite <- (append_assoc lead trail). rewrite match_rep_loop.
      apply rep_greedy_run.
      * now rewrite all_chars_app, Hlead, Htrail.
      * reflexivity.
      * lia.
      * rewrite match_gopen, match_rep_loop.
        change (String.append "</li>" s')
          with (String.append EmptyString (String.append "</li>" s')).
        apply rep_lazy_run; [reflexivity| |lia|].
        -- intros b1 b2 Hb Hb2. destruct b1; [|discriminate Hb].
           rewrite append_nil in Hb. congruence.
        -- rewrite match_gclose. cbn [fst snd String.length].
           rewrite !Nat.add_0_r. fold close.
           rewrite (Hclose EmptyString); [|reflexivity].
           cbn [String.length]. rewrite !length_append.
           cbn [String.length]. f_equal. f_equal. lia.
    + intros before Hlen. rewrite Nat.sub_diag. apply substring_zero.
  - set (reason' := String c reason) in *.
    exists (pos + 4 + String.length lead)%nat,
           (pos + 4 + String.length lead + String.length reason')%nat.
    split.
    + rewrite !append_assoc. unfold li_re. rewrite match_lit_append.
      rewrite match_rep_loop. apply rep_greedy_run.
      * exact Hlead.
      * exact Hstart.
      * lia.
      * rewrite match_gopen, match_rep_loop.
        apply rep_lazy_run; [exact Hplain| |lia|].
        -- intros b1 b2 Hb Hb2. rewrite match_gclose, match_rep_loop.
           apply space_run_no_close; [exact Hb2| |].
           ++ rewrite Hb, all_chars_app in Hplain.
              apply andb_true_iff in Hplain. tauto.
           ++ rewrite Hb, ends_with_space_app in Hend by exact Hb2.
              exact Hend.
        -- rewrite match_gclose. cbn [fst snd]. fold close.
           rewrite (Hclose trail) by exact Htrail.
           rewrite !length_append. cbn [String.length]. f_equal. f_equal; lia.
    + intros before Hlen.
      replace (pos + 4 + String.length lead + String.length reason'
               - (pos + 4 + String.length lead))%nat
        with (String.length reason') by lia.
      set (X := String.append (String.append before "<li>") lead).
      replace (pos + 4 + String.length lead)%nat with (String.length X)
        by (unfold X; rewrite !length_append; cbn [String.length]; lia).
      match goal with
      | |- String.substring _ _ ?w = _ =>
          replace w with (String.append X
                            (String.append reason'
                               (String.append trail (String.append "</li>" s'))))
            by (unfold X; now rewrite !append_assoc)
      end.
      apply substring_app_middle.
Qed.

Lemma entry_html_nonempty it : entry_html it <> EmptyString.
Proof. unfold entry_html. discriminate. Qed.

Lemma forallb_cons {A} (f : A -> bool) x xs :
  forallb f (x :: xs) = true -> f x = true /\ forallb f xs = true.
Proof. simpl. apply andb_true_iff. Qed.

Lemma plain_item_gap it :
  plain_item it = true -> all_chars is_space (li_gap it) = true.
Proof.
  unfold plain_item. rewrite !andb_true_iff. tauto.
Qed.

(** Over a run of plain entries [finditer] finds each entry once, in
    order, and the captured texts are the reasons. *)
Lemma finditer_items U items : forall before tail,
  forallb plain_item items = true ->
  U = String.append before (String.append (items_html items) tail) ->
  map (group1 U)
      (finditer_from li_re (String.append (items_html items) tail)
         (String.length before) 0)
  = map li_reason items
    ++ map (group1 U)
         (finditer_from li_re tail
            (String.length before + String.length (items_html items))%nat 0).
Proof.
  induction items as [|it items IH]; intros before tail Hplain HU.
  - cbn [items_html map app String.length]. rewrite append_nil.
    now rewrite Nat.add_0_r.
  - apply forallb_cons in Hplain. destruct Hplain as [Hit Hplain].
    cbn [items_html]. unfold item_html. rewrite !append_assoc.
    set (rest := String.append (items_html items) tail).
    rewrite finditer_from_skip.
    2:{ apply (unmatched_plain "li>"). apply all_space_not_lt.
        now apply plain_item_gap. }
    destruct (li_re_matches_entry it rest
                (String.length before + String.length (li_gap it))%nat Hit)
      as (gs & ge & Hm & Hgrp).
    rewrite (finditer_from_hit _ _ _ _ gs ge (entry_html_nonempty it) Hm).
    cbn [map app]. f_equal.
    + unfold group1. cbn [g_start g_end].
      rewrite <- (Hgrp (String.append before (li_gap it))).
      * f_equal. rewrite HU. cbn [items_html]. unfold item_html, rest.
        now rewrite !append_assoc.
      * apply length_append.
    + specialize (IH (String.append (String.append before (li_gap it))
                        (entry_html it)) tail Hplain).
      rewrite !length_append in IH. rewrite !length_append.
      fold rest in IH.
      replace (String.length before
               + (String.length (li_gap it)
                  + (String.length (entry_html it)
                     + String.length (items_html items))))%nat
        with (String.length before + String.length (li_gap it)
              + String.length (entry_html it)
              + String.length (items_html items))%nat by lia.
      apply IH. rewrite HU. cbn [items_html]. unfold item_html, rest.
      now rewrite !append_assoc.
Qed.

Lemma error_list_class_plain : all_chars not_lt error_list_class = true.
Proof. reflexivity. Qed.

(** [finditer] of [li_re] over a whole error list of plain entries
    captures the reasons of all entries, in order. *)
Lemma finditer_error_list sp items end_gap :
  all_chars is_space sp = true ->
  forallb plain_item items = true ->
  all_chars is_space end_gap = true ->
  let ul := error_list_html sp items end_gap in
  map (group1 ul) (finditer li_re ul) = map li_reason items.
Proof.
  intros Hsp Hplain Hgap ul. unfold finditer.
  set (head := String.append "<ul" (String.append sp error_list_class)).
  set (tail := String.append end_gap "</ul>").
  assert (Hul : ul = String.append head (String.append (items_html items) tail)).
  { unfold ul, error_list_html, head, tail. now rewrite !append_assoc. }
  rewrite Hul at 2.
  rewrite finditer_from_skip.
  2:{ unfold head. change "<ul" with (String "<" "ul").
      rewrite append_cons. split.
      - intros pos g. reflexivity.
      - apply (unmatched_plain "li>"). rewrite !all_chars_app.
        rewrite (all_space_not_lt _ Hsp), error_list_class_plain. reflexivity. }
  cbn [Nat.add].
  rewrite (finditer_items ul items head tail Hplain Hul).
  rewrite <- (app_nil_r (map li_reason items)) at 2. f_equal.
  unfold tail. rewrite <- (append_empty (String.append end_gap "</ul>")).
  rewrite append_assoc. rewrite finditer_from_skip.
  2:{ apply (unmatched_plain "li>"). now apply all_space_not_lt. }
  reflexivity.
Qed.

Lemma all_chars_any a : all_chars any_char a = true.
Proof. induction a as [|c a IH]; [reflexivity|exact IH]. Qed.

Lemma search_from_hit p s pos e gs ge :
  match_here p s pos (pos, pos) = Some (e, (gs, ge)) ->
  search_from p s pos = Some (Span pos e gs ge).
Proof. intros H. destruct s; cbn [search_from]; now rewrite H. Qed.

Lemma contains_unfold needle hay :
  contains needle hay
  = match strip_prefix needle hay with
    | Some _ => true
    | None => match hay with
              | EmptyString => false
              | String _ hay' => contains needle hay'
              end
    end.
Proof. destruct hay; reflexivity. Qed.

Lemma contains_append needle a : forall b,
  contains needle (String.append a (String.append needle b)) = true.
Proof.
  induction a as [|c a IH]; intros b.
  - rewrite append_nil, contains_unfold, strip_prefix_append. reflexivity.
  - rewrite append_cons, contains_unfold.
    destruct (strip_prefix needle _); [reflexivity|apply IH].
Qed.

Lemma append_eq_split (a : string) : forall b c d,
  String.append a b = String.append c d ->
  (exists z, c = String.append a z /\ b = String.append z d) \/
  (exists z, a = String.append c z /\ d = String.append z b).
Proof.
  induction a as [|x a IH]; intros b c d H.
  - left. exists c. now rewrite !append_nil in *.
  - destruct c as [|y c].
    + right. exists (String x a). now rewrite !append_nil in *.
    + rewrite !append_cons in H. inversion H; subst y.
      destruct (IH _ _ _ H2) as [(z & -> & ->)|(z & -> & ->)].
      * left. exists z. now rewrite append_cons.
      * right. exists z. now rewrite append_cons.
Qed.

(** The opening tag of an error list, as [ul_re] reads it: if the
    pattern matches at the start of [s], then [s] starts with [<ul],
    white space and the class. *)
Lemma ul_re_open_inv s pos g r :
  match_here ul_re s pos g = Some r ->
  exists ws rest,
    all_chars is_space ws = true /\
    s = String.append "<ul"
          (String.append ws (String.append error_list_class rest)).
Proof.
  unfold ul_re. intros H.
  apply match_lit_inv in H. destruct H as (s1 & -> & H).
  apply match_rep_inv in H. destruct H as (ws & s2 & -> & Hws & _ & H).
  apply match_lit_inv in H. destruct H as (s3 & -> & _).
  exists ws, s3. split; [exact Hws|reflexivity].
Qed.

(** A page without the class of the error list has no error list. *)
Lemma search_ul_re_none page :
  contains error_list_class page = false -> search ul_re page = None.
Proof.
  intros Hno. destruct (search ul_re page) as [m|] eqn:Hs; [|reflexivity].
  unfold search in Hs.
  destruct (search_from_inv _ _ _ _ Hs) as (a & s' & -> & _ & Hm).
  destruct (ul_re_open_inv _ _ _ _ Hm) as (ws & rest & _ & ->).
  rewrite <- !append_assoc in Hno.
  rewrite (append_assoc _ error_list_class rest) in Hno.
  now rewrite contains_append in Hno.
Qed.

(** Before the first error list no match of [ul_re] starts. *)
Lemma unmatched_before_error_list pre rest :
  contains error_list_class pre = false ->
  unmatched ul_re pre (String "<" rest).
Proof.
  intros Hno. apply unmatched_of_suffixes. intros b1 b2 -> Hb2 pos g.
  destruct (match_here ul_re _ pos g) as [r|] eqn:Hm; [|reflexivity].
  exfalso.
  destruct (ul_re_open_inv _ _ _ _ Hm) as (ws & s3 & Hws & Heq).
  set (open := String.append "<ul" (String.append ws error_list_class)).
  assert (Heq' : String.append b2 (String "<" rest) = String.append open s3).
  { rewrite Heq. unfold open. now rewrite !append_assoc. }
  assert (Hfound : forall z, b2 = String.append open z -> False).
  { intros z ->. unfold open in Hno.
    rewrite <- !append_assoc in Hno.
    rewrite (append_assoc _ error_list_class z) in Hno.
    now rewrite contains_append in Hno. }
  destruct (append_eq_split _ _ _ _ Heq') as [(z & Hopen & Hrest)|(z & Hb & _)].
  - destruct z as [|c z].
    + apply (Hfound EmptyString). now rewrite append_empty in *.
    + rewrite append_cons in Hrest. inversion Hrest; subst c.
      destruct b2 as [|c2 b2]; [congruence|].
      unfold open in Hopen. change "<ul" with (String "<" "ul") in Hopen.
      rewrite !append_cons in Hopen. inversion Hopen as [[Hc Htail]].
      match type of Htail with
      | ?lhs = _ => assert (Hplain : all_chars not_lt lhs = true)
      end.
      { rewrite append_nil. cbn [all_chars].
        rewrite all_chars_app, (all_space_not_lt _ Hws). reflexivity. }
      rewrite Htail, all_chars_app in Hplain.
      apply andb_true_iff in Hplain. destruct Hplain as [_ Hplain].
      discriminate Hplain.
  - exact (Hfound z Hb).
Qed.

Lemma plain_item_parts it :
  plain_item it = true ->
  all_chars not_lt (li_gap it) = true /\
  all_chars not_lt (li_lead it) = true /\
  all_chars not_lt (li_reason it) = true /\
  all_chars not_lt (li_trail it) = true.
Proof.
  unfold plain_item. rewrite !andb_true_iff.
  intros (((((H1 & H2) & H3) & H4) & _) & _).
  auto using all_space_not_lt.
Qed.

(** Inside a list of plain entries the closing tag [</ul>] does not
    start. *)
Lemma unmatched_close_in_items p items : forall tail rest,
  forallb plain_item items = true ->
  unmatched (GClose :: Lit "</ul>" :: p) tail rest ->
  unmatched (GClose :: Lit "</ul>" :: p)
    (String.append (items_html items) tail) rest.
Proof.
  induction items as [|it items IH]; intros tail rest Hplain Htail.
  - cbn [items_html]. now rewrite append_nil.
  - apply forallb_cons in Hplain. destruct Hplain as [Hit Hplain].
    destruct (plain_item_parts it Hit) as (Hgap & Hlead & Hreason & Htrail).
    cbn [items_html]. unfold item_html, entry_html.
    rewrite !append_assoc.
    apply unmatched_app; [now apply (unmatched_plain "/ul>")|].
    apply unmatched_app; [repeat split; intros; reflexivity|].
    apply unmatched_app; [now apply (unmatched_plain "/ul>")|].
    apply unmatched_app; [now apply (unmatched_plain "/ul>")|].
    apply unmatched_app; [now apply (unmatched_plain "/ul>")|].
    apply unmatched_app; [repeat split; intros; reflexivity|].
    now apply IH.
Qed.

(** [ul_re] matches an error list of plain entries where it starts, up
    to its closing tag. *)
Lemma ul_re_matches sp items end_gap post pos :
  sp <> EmptyString ->
  all_chars is_space sp = true ->
  forallb plain_item items = true ->
  all_chars is_space end_gap = true ->
  exists gs ge,
    match_here ul_re
      (String.append (error_list_html sp items end_gap) post) pos (pos, pos)
    = Some ((pos + String.length (error_list_html sp items end_gap))%nat,
            (gs, ge)).
Proof.
  intros Hne Hsp Hplain Hgap. unfold error_list_html.
  set (body := String.append (items_html items) end_gap).
  eexists _, _. rewrite !append_assoc. unfold ul_re.
  rewrite match_lit_append, match_rep_loop.
  apply rep_greedy_run; [exact Hsp|reflexivity| |].
  { destruct sp; [congruence|simpl; lia]. }
  rewrite match_lit_append, match_gopen, match_rep_loop.
  rewrite <- (append_assoc (items_html items) end_gap). fold body.
  apply rep_lazy_run; [apply all_chars_any| |lia|].
  - intros b1 b2 Hb Hb2.
    assert (Hbody : unmatched [GClose; Lit "</ul>"] body
                      (String.append "</ul>" post)).
    { unfold body. apply unmatched_close_in_items; [exact Hplain|].
      apply (unmatched_plain "/ul>"). now apply all_space_not_lt. }
    exact (unmatched_suffix _ b1 body b2 _ Hbody Hb Hb2 _ _).
  - rewrite match_gclose, match_lit_append. cbn [match_here fst snd].
    f_equal. f_equal.
    unfold body. rewrite !length_append. cbn [String.length]. lia.
Qed.

(** On a page whose first error list is a list of plain entries, the
    message lists the reasons of all entries, in order. *)
Lemma failure_message_error_list failmsg pre sp items end_gap post :
  contains error_list_class pre = false ->
  sp <> EmptyString ->
  all_chars is_space sp = true ->
  forallb plain_item items = true ->
  all_chars is_space end_gap = true ->
  failure_message failmsg
    (String.append pre (String.append (error_list_html sp items end_gap) post))
  = String.append failmsg
      (String.append ": " (join ", " (map li_reason items))).
Proof.
  intros Hpre Hne Hsp Hplain Hgap.
  set (ul := error_list_html sp items end_gap).
  destruct (ul_re_matches sp items end_gap post (String.length pre)
              Hne Hsp Hplain Hgap) as (gs & ge & Hm).
  fold ul in Hm.
  assert (Hsearch : search ul_re (String.append pre (String.append ul post))
                    = Some (Span (String.length pre)
                              (String.length pre + String.length ul) gs ge)).
  { unfold search. rewrite search_from_skip.
    - now apply search_from_hit.
    - unfold ul, error_list_html. change "<ul" with (String "<" "ul").
      rewrite !append_cons. now apply unmatched_before_error_list. }
  unfold failure_message. rewrite Hsearch. cbv zeta.
  assert (Hul : group0 (String.append pre (String.append ul post))
                  (Span (String.length pre)
                     (String.length pre + String.length ul) gs ge) = ul).
  { unfold group0. cbn [m_start m_end].
    replace (String.length pre + String.length ul - String.length pre)%nat
      with (String.length ul) by lia.
    apply substring_app_middle. }
  rewrite Hul. unfold ul.
  now rewrite (finditer_error_list sp items end_gap Hsp Hplain Hgap).
Qed.

(** Without the class of the error list anywhere, the message is the
    failure message alone. *)
Lemma failure_message_no_list failmsg page :
  contains error_list_class page = false ->
  failure_message failmsg page = failmsg.
Proof.
  intros H. unfold failure_message. now rewrite search_ul_re_none.
Qed.

Lemma Forall_map_in {A B} (P : B -> Prop) (f : A -> B) (xs : list A) :
  (forall x, In x xs -> P (f x)) -> Forall P (map f xs).
Proof.
  induction xs as [|x xs IH]; intros H; simpl; constructor.
  - apply H. now left.
  - apply IH. intros y Hy. apply H. now right.
Qed.

(** Whatever the page, the texts listed in a failure message hold no
    ["<"]. *)
Lemma failure_message_reasons failmsg page :
  exists reasons,
    Forall (fun t => all_chars not_lt t = true) reasons /\
    (failure_message failmsg page = failmsg \/
     failure_message failmsg page
     = String.append failmsg (String.append ": " (join ", " reasons))).
Proof.
  unfold failure_message. destruct (search ul_re page) as [m|].
  - exists (map (group1 (group0 page m)) (finditer li_re (group0 page m))).
    split; [|right; reflexivity].
    apply Forall_map_in. intros sp Hsp. now apply li_re_captures.
  - exists []. split; [constructor|left; reflexivity].
Qed.

(** C5, as the code has it: once the form has given a token and the
    submission has been answered, whatever its status, [create] goes by
    the marker [msgbox_success] in the answer.  With the marker it runs
    discovery, stores the submitted password and returns the pair
    (login, password); [exists] and [login] are what discovery finds on
    the account page, and a failing discovery fails [create].  Without
    the marker it raises [WebRobotError] with the message that the two
    patterns of the source give ([failure_message]), and that message is
    tied to the page as follows.  When the class of the error list
    occurs nowhere in the answer, it is the failure message of the
    operation alone.  When the first error list of the answer is a list
    of plain [<li>] entries (no ["<"] inside; white space may surround
    the text and separate the entries), it is the failure message
    followed by [": "] and the trimmed texts of all entries, in order,
    joined by [", "].  In every case it is the failure message alone or
    followed by [": "] and joined texts none of which holds ["<"], so an
    entry with markup inside is not listed. *)
Theorem C5_create_by_marker :
  forall (E : env) (passwd_arg : value) (a : AdminAccount) (l : log)
         (form submitted : response),
    let pw := if is_None passwd_arg then genpasswd E l else passwd_arg in
    let form_req := WebRequest (AdminPath (_serverid a)) None (Some "POST") in
    let token := csrf_token E "password[_csrf_token]" (text form) in
    let failmsg := fst (create_submission a pw token) in
    let submit := snd (create_submission a pw token) in
    let l2 := (l ++ [Web form_req]) ++ [Web submit] in
    let discover := WebRequest (AdminPath (_serverid a)) None None in
    scraper_request E l form_req = Ok form ->
    is_None token = false ->
    scraper_request E (l ++ [Web form_req]) submit = Ok submitted ->
    (contains "msgbox_success" (text submitted) = false ->
       AdminAccount_create E passwd_arg a l
       = (Raise (WebRobotError (failure_message failmsg (text submitted))),
          a, l2)) /\
    (contains "msgbox_success" (text submitted) = true ->
       AdminAccount_create E passwd_arg a l
       = match AdminAccount_update_info E a l2 with
         | (Ok _, a', l3) => (Ok (VTuple [login a'; pw]), set_passwd pw a', l3)
         | (Raise e, a', l3) => (Raise e, a', l3)
         end) /\
    (contains "msgbox_success" (text submitted) = true ->
       forall page,
         scraper_login E l2 = None ->
         scraper_request E (l2 ++ [WebLogin]) discover = Ok page ->
         status page = 200 ->
         let a' := set_passwd pw (discovered a (text page)) in
         AdminAccount_create E passwd_arg a l
         = (Ok (VTuple [login a'; pw]), a', (l2 ++ [WebLogin]) ++ [Web discover])) /\
    (contains "msgbox_success" (text submitted) = false ->
       contains error_list_class (text submitted) = false ->
       AdminAccount_create E passwd_arg a l
       = (Raise (WebRobotError failmsg), a, l2)) /\
    (contains "msgbox_success" (text submitted) = false ->
       forall (pre sp : string) (items : list li_item) (end_gap post : string),
         text submitted
         = String.append pre
             (String.append (error_list_html sp items end_gap) post) ->
         contains error_list_class pre = false ->
         sp <> EmptyString ->
         all_chars is_space sp = true ->
         forallb plain_item items = true ->
         all_chars is_space end_gap = true ->
         AdminAccount_create E passwd_arg a l
         = (Raise (WebRobotError
                     (String.append failmsg
                        (String.append ": " (join ", " (map li_reason items))))),
            a, l2)) /\
    (contains "msgbox_success" (text submitted) = false ->
       exists reasons,
         Forall (fun t => all_chars not_lt t = true) reasons /\
         (AdminAccount_create E passwd_arg a l
          = (Raise (WebRobotError failmsg), a, l2) \/
          AdminAccount_create E passwd_arg a l
          = (Raise (WebRobotError
                      (String.append failmsg
                         (String.append ": " (join ", " reasons)))),
             a, l2))).
Proof.
  intros E passwd_arg a l form submitted pw form_req token failmsg submit l2
         discover Hform Htoken Hsubmit.
  assert (Hrun : AdminAccount_create E passwd_arg a l
                 = if negb (contains "msgbox_success" (text submitted))
                   then (Raise (WebRobotError
                                  (failure_message failmsg (text submitted))),
                         a, l2)
                   else match AdminAccount_update_info E a l2 with
                        | (Ok _, a', l3) =>
                            (Ok (VTuple [login a'; pw]), set_passwd pw a', l3)
                        | (Raise e, a', l3) => (Raise e, a', l3)
                        end).
  { unfold AdminAccount_create. unfold bind at 1.
    assert (Hpw : (if is_None passwd_arg
                   then AdminAccount_genpasswd E else ret passwd_arg) a l
                  = (Ok pw, a, l)).
    { unfold pw. destruct (is_None passwd_arg); reflexivity. }
    rw Hpw. unfold bind at 1. unfold self at 1. cbv beta iota.
    unfold bind at 1. unfold scraper_do_request at 1. fold form_req.
    rw Hform. fold token. unfold bind at 1. rewrite Htoken. cbn [negb].
    unfold assert at 1. unfold ret at 1. cbv beta iota.
    unfold bind at 1. unfold self at 1. cbv beta iota.
    unfold failmsg, submit, l2 in *. unfold create_submission in *.
    destruct (exists_ a); cbn [negb fst snd app dict_set String.eqb Ascii.eqb
                                 Bool.eqb andb] in *; cbv beta iota;
      unfold bind at 1; unfold scraper_do_request at 1; rw Hsubmit;
      (destruct (contains "msgbox_success" (text submitted)); cbn [negb];
       cbv beta iota;
       [ unfold bind;
         destruct (AdminAccount_update_info E a _) as [[[u|e] a'] l3];
         reflexivity
       | unfold failure_message;
         destruct (search ul_re (text submitted)); reflexivity ]). }
  split; [|split; [|split; [|split; [|split]]]].
  - intros Hm. rewrite Hrun, Hm. reflexivity.
  - intros Hm. rewrite Hrun, Hm. reflexivity.
  - intros Hm page Hlogin Hpage Hstatus a'. rewrite Hrun, Hm. cbn [negb].
    rewrite (update_info_discovers E a l2 page Hlogin Hpage Hstatus).
    reflexivity.
  - intros Hm Hno. rewrite Hrun, Hm. cbn [negb].
    now rewrite failure_message_no_list.
  - intros Hm pre sp items end_gap post Hpage Hpre Hne Hsp Hplain Hgap.
    rewrite Hrun, Hm. cbn [negb]. rewrite Hpage.
    now rewrite failure_message_error_list.
  - intros Hm. rewrite Hrun, Hm. cbn [negb].
    destruct (failure_message_reasons failmsg (text submitted))
      as (reasons & Hfree & [Heq|Heq]); exists reasons;
      (split; [exact Hfree|]); rewrite Heq; auto.
Qed.

Lemma C5_witness :
  AdminAccount_create (admin_env (Response 200 error_page)
                                 (Response 200 no_account_page))
    (VStr "s3cret/Passw0rd") missing_account []
  = (Raise (WebRobotError
       "Unable to create admin account: Password too short, Passwords do not match"),
     missing_account,
     [Web (WebRequest (AdminPath (VInt 321)) None (Some "POST"));
      Web (WebRequest (AdminCreatePath (VInt 321))
             (Some (VDict [("password[new_password]", VStr "s3cret/Passw0rd");
                           ("password[new_password_repeat]", VStr "s3cret/Passw0rd");
                           ("password[_csrf_token]", VStr "0f3a9c")])) None)]).
Proof.
  destruct (C5_create_by_marker
              (admin_env (Response 200 error_page)
                         (Response 200 no_account_page))
              (VStr "s3cret/Passw0rd") missing_account []
              (Response 200 form_page) (Response 200 error_page)
              eq_refl eq_refl eq_refl) as (_ & _ & _ & _ & H & _).
  rewrite (H eq_refl "<div class=msgbox_error>" " " error_page_items
             EmptyString "</div>" eq_refl eq_refl).
  - reflexivity.
  - discriminate.
  - reflexivity.
  - reflexivity.
  - reflexivity.
Defined.

(** The claim C5 as stated fails on the code in three ways.  A
    submission answered with the marker, followed by an account page
    that shows no login, lets [create] return while [exists] is [False];
    when the account page then comes with status 500, [create] fails
    although the answer carried the marker; and of an error list whose
    first entry holds markup, [<li><b>Password too short</b></li>], the
    message names only the second entry. *)
Lemma C5_counterexample :
  AdminAccount_create (admin_env (Response 200 success_page)
                                 (Response 200 no_account_page))
    (VStr "s3cret/Passw0rd") missing_account []
  = (Ok (VTuple [VNone; VStr "s3cret/Passw0rd"]),
     mkAdminAccount (VInt 321) false VNone (VStr "s3cret/Passw0rd"),
     [Web (WebRequest (AdminPath (VInt 321)) None (Some "POST"));
      Web (WebRequest (AdminCreatePath (VInt 321))
             (Some (VDict [("password[new_password]", VStr "s3cret/Passw0rd");
                           ("password[new_password_repeat]", VStr "s3cret/Passw0rd");
                           ("password[_csrf_token]", VStr "0f3a9c")])) None);
      WebLogin;
      Web (WebRequest (AdminPath (VInt 321)) None None)]) /\
  contains "msgbox_success" success_page = true /\
  fst (fst (AdminAccount_create
              (admin_env (Response 200 success_page)
                         (Response 500 account_page))
              (VStr "s3cret/Passw0rd") missing_account []))
  = Raise AssertionError /\
  fst (fst (AdminAccount_create
              (admin_env (Response 200 markup_error_page)
                         (Response 200 no_account_page))
              (VStr "s3cret/Passw0rd") missing_account []))
  = Raise (WebRobotError "Unable to create admin account: Passwords do not match").
Proof. vm_compute. repeat split; reflexivity. Qed.

(** With the marker and an account page that shows the login, the
    account exists afterwards and the pair (login, password) comes
    back; a generated password is returned as generated. *)
Example create_success :
  AdminAccount_create (admin_env (Response 200 success_page)
                                 (Response 200 account_page))
    VNone missing_account []
  = (Ok (VTuple [VStr "K1234567"; VStr "q7Rk/2mZ(x)-Lw=8+Tb_4,nY"]),
     mkAdminAccount (VInt 321) true (VStr "K1234567")
       (VStr "q7Rk/2mZ(x)-Lw=8+Tb_4,nY"),
     [Web (WebRequest (AdminPath (VInt 321)) None (Some "POST"));
      Web (WebRequest (AdminCreatePath (VInt 321))
             (Some (VDict [("password[new_password]",
                            VStr "q7Rk/2mZ(x)-Lw=8+Tb_4,nY");
                           ("password[new_password_repeat]",
                            VStr "q7Rk/2mZ(x)-Lw=8+Tb_4,nY");
                           ("password[_csrf_token]", VStr "0f3a9c")])) None);
      WebLogin;
      Web (WebRequest (AdminPath (VInt 321)) None None)]).
Proof. vm_compute. reflexivity. Qed.

(** ** Reasoning about method bodies *)

Lemma bind_ok_inv {S A B} (m : M S A) (k : A -> M S B) s l b s2 l2 :
  bind m k s l = (Ok b, s2, l2) ->
  exists a s1 l1, m s l = (Ok a, s1, l1) /\ k a s1 l1 = (Ok b, s2, l2).
Proof.
  unfold bind. destruct (m s l) as [[[a|e] s1] l1]; intros H.
  - eauto.
  - discriminate.
Qed.

Lemma lift_ok_inv {S A} (o : outcome A) (s : S) l a s' l' :
  lift o s l = (Ok a, s', l') -> o = Ok a /\ s' = s /\ l' = l.
Proof. unfold lift. intros H. inversion H. auto. Qed.

Lemma ret_ok_inv {S A} (x : A) (s : S) l a s' l' :
  ret x s l = (Ok a, s', l') -> a = x /\ s' = s /\ l' = l.
Proof. unfold ret. intros H. inversion H. auto. Qed.

Lemma self_ok_inv {S} (s : S) l a s' l' :
  self s l = (Ok a, s', l') -> a = s /\ s' = s /\ l' = l.
Proof. unfold self. intros H. inversion H. auto. Qed.

Lemma getattr_ok_inv {V} name (s : gmap string V) l v s' l' :
  getattr name s l = (Ok v, s', l') -> s !! name = Some v /\ s' = s /\ l' = l.
Proof.
  unfold getattr. destruct (s !! name); intros H; inversion H. auto.
Qed.

Lemma setattr_ok_inv {V} name (v : V) (s : gmap string V) l u s' l' :
  setattr name v s l = (Ok u, s', l') -> s' = <[name := v]> s /\ l' = l.
Proof. unfold setattr, modify. intros H. inversion H. auto. Qed.

Lemma copy_field_ok_inv {V} (inj : value -> V) data name key
      (s : gmap string V) l u s' l' :
  copy_field inj data name key s l = (Ok u, s', l') ->
  exists v, subscript data key = Ok v /\ s' = <[name := inj v]> s /\ l' = l.
Proof.
  unfold copy_field. intros H.
  apply bind_ok_inv in H. destruct H as (v & s1 & l1 & H1 & H2).
  apply lift_ok_inv in H1. destruct H1 as (H1 & -> & ->).
  apply setattr_ok_inv in H2. destruct H2 as (-> & ->). eauto.
Qed.

(** Take a successful run apart, one step at a time. *)
Ltac inv_run H :=
  let H1 := fresh "Hstep" in
  lazymatch type of H with
  | bind _ _ _ _ = (Ok _, _, _) =>
      apply bind_ok_inv in H; destruct H as (? & ? & ? & H1 & H);
      inv_run H1; inv_run H
  | lift _ _ _ = (Ok _, _, _) =>
      apply lift_ok_inv in H; destruct H as (H & ? & ?); subst
  | ret _ _ _ = (Ok _, _, _) =>
      apply ret_ok_inv in H; destruct H as (? & ? & ?); subst
  | self _ _ = (Ok _, _, _) =>
      apply self_ok_inv in H; destruct H as (? & ? & ?); subst
  | getattr _ _ _ = (Ok _, _, _) =>
      apply getattr_ok_inv in H; destruct H as (H & ? & ?); subst
  | setattr _ _ _ _ = (Ok _, _, _) =>
      apply setattr_ok_inv in H; destruct H as (? & ?); subst
  | copy_field _ _ _ _ _ _ = (Ok _, _, _) =>
      apply copy_field_ok_inv in H; destruct H as (? & H & ? & ?); subst
  | _ => idtac
  end.

Lemma silent_ret {S A} (a : A) : silent (@ret S A a).
Proof. intros s. exists (Ok a), s. reflexivity. Qed.

Lemma silent_raise {S A} e : silent (@raise S A e).
Proof. intros s. exists (Raise e), s. reflexivity. Qed.

Lemma silent_lift {S A} (o : outcome A) : silent (@lift S A o).
Proof. intros s. exists o, s. reflexivity. Qed.

Lemma silent_self {S} : silent (@self S).
Proof. intros s. exists (Ok s), s. reflexivity. Qed.

Lemma silent_modify {S} (f : S -> S) : silent (modify f).
Proof. intros s. exists (Ok tt), (f s). reflexivity. Qed.

Lemma silent_getattr {V} name : silent (@getattr V name).
Proof.
  intros s. unfold getattr. destruct (s !! name) as [v|].
  - exists (Ok v), s. reflexivity.
  - exists (Raise (AttributeError name)), s. reflexivity.
Qed.

Lemma silent_setattr {V} name (v : V) : silent (setattr name v).
Proof. apply silent_modify. Qed.

Lemma silent_bind {S A B} (m : M S A) (k : A -> M S B) :
  silent m -> (forall a, silent (k a)) -> silent (bind m k).
Proof.
  intros Hm Hk s. destruct (Hm s) as (r & s1 & Hrun). destruct r as [a|e].
  - destruct (Hk a s1) as (r2 & s2 & Hrun2). exists r2, s2. intros l.
    unfold bind. rewrite Hrun. apply Hrun2.
  - exists (Raise e), s1. intros l. unfold bind. now rewrite Hrun.
Qed.

Lemma silent_copy_field {V} (inj : value -> V) data name key :
  silent (copy_field inj data name key).
Proof.
  unfold copy_field. apply silent_bind; [apply silent_lift|].
  intros v. apply silent_setattr.
Qed.

Create HintDb silent.
#[export] Hint Resolve silent_ret silent_raise silent_lift silent_self
  silent_modify silent_getattr silent_setattr silent_copy_field : silent.

Ltac silent_steps :=
  repeat first
    [ apply silent_bind; [ | intros ? ]
    | progress auto with silent
    | match goal with
      | |- silent (let '(_, _) := ?p in _) => destruct p
      | |- silent (if ?b then _ else _) => destruct b
      end ].

(** ** The refresh pattern of IpAddress, Subnet and Server *)

Lemma IpAddress_update_info_silent E doc :
  is_None doc = false -> silent (IpAddress_update_info E doc).
Proof.
  intros H. destruct doc; try discriminate;
    unfold IpAddress_update_info; cbn [is_None]; silent_steps.
Qed.

Lemma Subnet_update_info_silent E doc :
  is_None doc = false -> silent (Subnet_update_info E doc).
Proof.
  intros H. destruct doc; try discriminate;
    unfold Subnet_update_info; cbn [is_None]; silent_steps.
Qed.

Lemma Server_update_info_silent E doc :
  is_None doc = false -> silent (Server_update_info E doc).
Proof.
  intros H. destruct doc; try discriminate;
    unfold Server_update_info; cbn [is_None]; silent_steps.
Qed.

Lemma IpAddress_update_info_fetch E (o : IpAddress) l p doc :
  IpAddress_path o = Some p ->
  conn E l (Get p) = Doc doc ->
  is_None doc = false ->
  IpAddress_update_info E VNone o l
  = IpAddress_update_info E doc o (l ++ [Api (Get p)]).
Proof.
  unfold IpAddress_path. intros Hp Hc Hd.
  destruct (o !! "subnet_ip") as [sip|] eqn:Hsip; [|discriminate].
  unfold IpAddress_update_info. rewrite Hd. cbn [is_None].
  unfold bind, getattr, ret, conn_get. rewrite Hsip.
  destruct (is_None sip); cbn [negb] in *; cbv beta iota.
  - destruct (o !! "ip") as [ip|] eqn:Hip; [|discriminate].
    inversion Hp; subst p. rw Hc. reflexivity.
  - destruct (o !! "_subnet_addr") as [a|] eqn:Ha; [|discriminate].
    inversion Hp; subst p. rw Hc. reflexivity.
Qed.

Lemma Subnet_update_info_fetch E (o : Subnet) l p doc :
  Subnet_path o = Some p ->
  conn E l (Get p) = Doc doc ->
  is_None doc = false ->
  Subnet_update_info E VNone o l
  = Subnet_update_info E doc o (l ++ [Api (Get p)]).
Proof.
  unfold Subnet_path. intros Hp Hc Hd.
  destruct (o !! "net_ip") as [n|] eqn:Hn; [|discriminate].
  inversion Hp; subst p.
  unfold Subnet_update_info. rewrite Hd. cbn [is_None].
  unfold bind at 1. unfold bind at 1. unfold getattr at 1. rw Hn.
  unfold conn_get at 1. rw Hc. cbn [of_reply]. cbv beta iota.
  reflexivity.
Qed.

Lemma Server_update_info_fetch E (o : Server) l p doc :
  Server_path o = Some p ->
  conn E l (Get p) = Doc doc ->
  is_None doc = false ->
  Server_update_info E VNone o l
  = Server_update_info E doc o (l ++ [Api (Get p)]).
Proof.
  unfold Server_path. intros Hp Hc Hd.
  destruct (data_attr o "ip") as [ip|] eqn:Hip; [|discriminate].
  inversion Hp; subst p.
  unfold Server_update_info. rewrite Hd. cbn [is_None].
  unfold bind at 1. unfold bind at 1. unfold self at 1. cbv beta iota.
  unfold bind at 1. unfold lift at 1. rw Hip.
  unfold conn_get at 1. rw Hc. cbn [of_reply]. cbv beta iota.
  reflexivity.
Qed.

(** The shape shared by the three classes. *)
Lemma round_trip {S} (update_info : value -> M S unit) (o : S) l p doc :
  silent (update_info doc) ->
  update_info VNone o l = update_info doc o (l ++ [Api (Get p)]) ->
  exists r o',
    (forall l0, update_info doc o l0 = (r, o', l0)) /\
    update_info VNone o l = (r, o', l ++ [Api (Get p)]).
Proof.
  intros Hsilent Hfetch. destruct (Hsilent o) as (r & o' & Hrun).
  exists r, o'. split; [exact Hrun|]. rewrite Hfetch. apply Hrun.
Qed.

(** C8: for [IpAddress], [Subnet] and [Server], let [p] be the canonical
    path of the object and [doc] the document that the transport answers
    for it.  Then [update_info(doc)] and [update_info()] end with the same
    outcome and the same attribute values; the call with the document
    leaves any log as it is, the call without it adds exactly the one
    [Get p]. *)
Theorem C8_update_info_round_trip :
  forall (E : env) (l : log) (doc : value) (p : path),
    is_None doc = false ->
    conn E l (Get p) = Doc doc ->
    (forall o : IpAddress,
        IpAddress_path o = Some p ->
        exists r o',
          (forall l0, IpAddress_update_info E doc o l0 = (r, o', l0)) /\
          IpAddress_update_info E VNone o l = (r, o', l ++ [Api (Get p)])) /\
    (forall o : Subnet,
        Subnet_path o = Some p ->
        exists r o',
          (forall l0, Subnet_update_info E doc o l0 = (r, o', l0)) /\
          Subnet_update_info E VNone o l = (r, o', l ++ [Api (Get p)])) /\
    (forall o : Server,
        Server_path o = Some p ->
        exists r o',
          (forall l0, Server_update_info E doc o l0 = (r, o', l0)) /\
          Server_update_info E VNone o l = (r, o', l ++ [Api (Get p)])).
Proof.
  intros E l doc p Hd Hc. split; [|split]; intros o Hp; apply round_trip.
  - now apply IpAddress_update_info_silent.
  - now apply IpAddress_update_info_fetch.
  - now apply Subnet_update_info_silent.
  - now apply Subnet_update_info_fetch.
  - now apply Server_update_info_silent.
  - now apply Server_update_info_fetch.
Qed.

Lemma C8_witness :
  (exists r o',
      (forall l0, IpAddress_update_info server_env (ip_doc "192.0.2.10")
                    the_ip l0
                  = (r, o', l0)) /\
      IpAddress_update_info server_env VNone the_ip []
      = (r, o', [] ++ [Api (Get (IpPath (VStr "192.0.2.10")))])) /\
  (exists r o',
      (forall l0, Subnet_update_info server_env
                    (subnet_doc "10.0.0.0" 24 "10.0.0.1") the_subnet l0
                  = (r, o', l0)) /\
      Subnet_update_info server_env VNone the_subnet []
      = (r, o', [] ++ [Api (Get (SubnetPath (VStr "10.0.0.0")))])) /\
  (exists r o',
      (forall l0, Server_update_info server_env
                    (server_doc (VStr "192.0.2.10") (VStr "2001:db8:0:1::"))
                    the_server l0
                  = (r, o', l0)) /\
      Server_update_info server_env VNone the_server []
      = (r, o', [] ++ [Api (Get (ServerPath (VStr "192.0.2.10")))])).
Proof.
  split; [|split].
  - apply (C8_update_info_round_trip server_env []
             (ip_doc "192.0.2.10")
             (IpPath (VStr "192.0.2.10")) eq_refl eq_refl).
    reflexivity.
  - apply (C8_update_info_round_trip server_env []
             (subnet_doc "10.0.0.0" 24 "10.0.0.1")
             (SubnetPath (VStr "10.0.0.0")) eq_refl eq_refl).
    reflexivity.
  - apply (C8_update_info_round_trip server_env []
             (server_doc (VStr "192.0.2.10") (VStr "2001:db8:0:1::"))
             (ServerPath (VStr "192.0.2.10")) eq_refl eq_refl).
    reflexivity.
Defined.

(** ** IpAddress in a subnet context *)

Lemma dict_get_set_eq d k v : dict_get (dict_set d k v) k = Some v.
Proof.
  induction d as [|[k' v'] d IH]; simpl.
  - now rewrite String.eqb_refl.
  - destruct (String.eqb k' k) eqn:Hk; simpl.
    + now rewrite String.eqb_refl.
    + now rewrite Hk.
Qed.

Lemma dict_get_set_ne d k k' v :
  k <> k' -> dict_get (dict_set d k v) k' = dict_get d k'.
Proof.
  intros Hne. induction d as [|[k0 v0] d IH]; simpl.
  - apply String.eqb_neq in Hne. now rewrite Hne.
  - destruct (String.eqb k0 k) eqn:Hk; simpl.
    + apply String.eqb_eq in Hk. subst k0.
      apply String.eqb_neq in Hne. now rewrite Hne.
    + destruct (String.eqb k0 k'); [reflexivity | exact IH].
Qed.

Lemma setitem_ok data k x data' :
  setitem data k x = Ok data' ->
  subscript data' k = Ok x /\
  forall k', k <> k' -> subscript data' k' = subscript data k'.
Proof.
  destruct data; try discriminate. simpl. intros H. inversion H; subst.
  simpl. split.
  - now rewrite dict_get_set_eq.
  - intros k' Hne. now rewrite dict_get_set_ne.
Qed.

(** What a successful [update_info] leaves in an object that stands for
    a member of a subnet. *)
Lemma IpAddress_update_info_member E result (o : IpAddress) l o' l' member :
  o !! "subnet_ip" = Some member ->
  is_None member = false ->
  IpAddress_update_info E result o l = (Ok tt, o', l') ->
  o' !! "subnet_ip" = Some member /\
  o' !! "ip" = Some member /\
  o' !! "separate_mac" = Some VNone /\
  exists net,
    o' !! "_subnet_addr" = Some net /\
    (is_None result = false ->
     exists data, subscript result "subnet" = Ok data /\
                  subscript data "ip" = Ok net).
Proof.
  intros Hsip Hmember Hrun. unfold IpAddress_update_info in Hrun.
  apply bind_ok_inv in Hrun. destruct Hrun as (sip & o1 & l1 & Hget & Hrun).
  apply getattr_ok_inv in Hget. destruct Hget as (Hget & -> & ->).
  rewrite Hsip in Hget. inversion Hget; subst sip. clear Hget.
  rewrite Hmember in Hrun. cbn [negb] in Hrun.
  apply bind_ok_inv in Hrun. destruct Hrun as (data & o1 & l1 & Hdata & Hrun).
  apply bind_ok_inv in Hdata.
  destruct Hdata as (res & o0 & l0 & Hres & Hdata).
  assert (Ho0 : o0 = o /\ (is_None result = false -> res = result)).
  { destruct (is_None result).
    - apply bind_ok_inv in Hres. destruct Hres as (a & ? & ? & Ha & Hres).
      apply getattr_ok_inv in Ha. destruct Ha as (_ & -> & ->).
      unfold conn_get in Hres. inversion Hres. split; [reflexivity|discriminate].
    - apply ret_ok_inv in Hres. destruct Hres as (-> & -> & ->). auto. }
  destruct Ho0 as [-> Hres']. clear Hres.
  inv_run Hdata. inv_run Hrun.
  match goal with
  | H1 : setitem _ "ip" member = Ok ?d1,
    H2 : setitem ?d1 "separate_mac" VNone = Ok _ |- _ =>
      apply setitem_ok in H1; destruct H1 as [Hip _];
      apply setitem_ok in H2; destruct H2 as [Hmac Hother];
      rewrite Hother in * by discriminate
  end.
  repeat match goal with
         | H1 : ?x = Ok ?a, H2 : ?x = Ok ?b |- _ =>
             rewrite H1 in H2; inversion H2; subst; clear H2
         end.
  split; [|split; [|split]].
  - now simplify_map_eq.
  - now simplify_map_eq.
  - now simplify_map_eq.
  - eexists. split; [now simplify_map_eq|].
    intros Hr. rewrite (Hres' Hr) in *. eauto.
Qed.

(** A refresh without a document asks for the subnet by the stored
    network address, once, whatever the transport answers. *)
Lemma IpAddress_refresh_by_network E (o : IpAddress) l member net :
  o !! "subnet_ip" = Some member ->
  is_None member = false ->
  o !! "_subnet_addr" = Some net ->
  exists r o2,
    IpAddress_update_info E VNone o l
    = (r, o2, l ++ [Api (Get (SubnetPath net))]).
Proof.
  intros Hsip Hmember Ha.
  assert (Hp : IpAddress_path o = Some (SubnetPath net)).
  { unfold IpAddress_path. now rewrite Hsip, Hmember, Ha. }
  destruct (conn E l (Get (SubnetPath net))) as [d|st|n] eqn:Hc.
  - destruct (is_None d) eqn:Hd.
    + destruct d; try discriminate.
      unfold IpAddress_update_info, bind, getattr, conn_get, ret, lift.
      rw Hsip. rewrite Hmember. cbn [negb is_None]. cbv beta iota.
      rw Ha. rw Hc. cbn [of_reply subscript]. eauto.
    + rewrite (IpAddress_update_info_fetch E o l _ d Hp Hc Hd).
      destruct (IpAddress_update_info_silent E d Hd o) as (r & o2 & Hrun).
      exists r, o2. apply Hrun.
  - unfold IpAddress_update_info, bind, getattr, conn_get, ret, lift.
    rw Hsip. rewrite Hmember. cbn [negb is_None]. cbv beta iota.
    rw Ha. rw Hc. cbn [of_reply]. eauto.
  - unfold IpAddress_update_info, bind, getattr, conn_get, ret, lift.
    rw Hsip. rewrite Hmember. cbn [negb is_None]. cbv beta iota.
    rw Ha. rw Hc. cbn [of_reply]. eauto.
Qed.

(** C9: an [IpAddress] built with a member address [member] as
    [subnet_ip] (the call that [Subnet.get_ip] makes) keeps the network
    address of the document in [_subnet_addr], apart from the member
    address: its [ip] is [member], its [separate_mac] is [None], and a
    refresh without a document sends one [Get] for the subnet of the
    stored network address; after a successful refresh [ip] is still
    [member] and [separate_mac] still [None]. *)
Theorem C9_member_address_kept_apart :
  forall (E : env) (S : Type) (st st' : S) (result member : value)
         (l l' : log) (o : IpAddress),
    is_None member = false ->
    IpAddress_init E result member st l = (Ok o, st', l') ->
    exists net,
      o !! "subnet_ip" = Some member /\
      o !! "ip" = Some member /\
      o !! "separate_mac" = Some VNone /\
      o !! "_subnet_addr" = Some net /\
      (exists data, subscript result "subnet" = Ok data /\
                    subscript data "ip" = Ok net) /\
      forall l2,
        exists r o2,
          IpAddress_update_info E VNone o l2
          = (r, o2, l2 ++ [Api (Get (SubnetPath net))]) /\
          (r = Ok tt ->
           o2 !! "subnet_ip" = Some member /\
           o2 !! "ip" = Some member /\
           o2 !! "separate_mac" = Some VNone).
Proof.
  intros E S st st' result member l l' o Hmember Hinit.
  unfold IpAddress_init, construct in Hinit.
  destruct (bind _ _ _ _) as [[[u|e] o0] l0] eqn:Hbody in Hinit;
    [|discriminate].
  inversion Hinit; subst o0 st' l0. clear Hinit.
  apply bind_ok_inv in Hbody. destruct Hbody as (? & o1 & l1 & Hset & Hbody).
  apply setattr_ok_inv in Hset. destruct Hset as (-> & ->).
  apply bind_ok_inv in Hbody. destruct Hbody as ([] & o2 & l2 & Hupd & Hrdns).
  apply setattr_ok_inv in Hrdns. destruct Hrdns as (-> & ->).
  assert (Hnotnone : is_None result = false).
  { destruct (is_None result) eqn:Hr; [|reflexivity]. exfalso.
    destruct result; try discriminate.
    unfold IpAddress_update_info, bind, getattr in Hupd.
    rewrite lookup_insert_eq in Hupd. rewrite Hmember in Hupd.
    cbn [negb is_None] in Hupd. rewrite lookup_insert_ne in Hupd by done.
    rewrite lookup_empty in Hupd. discriminate. }
  destruct (IpAddress_update_info_member E result _ _ o2 _ member
              (lookup_insert_eq _ _ _) Hmember Hupd)
    as (Hsip & Hip & Hmac & net & Hnet & Hdoc).
  exists net.
  assert (Hsip' : (<["_rdns" := VNone]> o2 : IpAddress) !! "subnet_ip"
                  = Some member) by now rewrite lookup_insert_ne.
  assert (Hnet' : (<["_rdns" := VNone]> o2 : IpAddress) !! "_subnet_addr"
                  = Some net) by now rewrite lookup_insert_ne.
  repeat split.
  - exact Hsip'.
  - now rewrite lookup_insert_ne.
  - now rewrite lookup_insert_ne.
  - exact Hnet'.
  - exact (Hdoc Hnotnone).
  - intros l3.
    destruct (IpAddress_refresh_by_network E _ l3 member net Hsip' Hmember Hnet')
      as (r & o3 & Hrun).
    exists r, o3. split; [exact Hrun|]. intros ->.
    destruct (IpAddress_update_info_member E VNone _ l3 o3 _ member
                Hsip' Hmember Hrun) as (H1 & H2 & H3 & _).
    auto.
Qed.

Lemma C9_witness :
  exists o : IpAddress,
    IpAddress_init server_env (subnet_doc "10.0.0.0" 24 "10.0.0.1")
      (VStr "10.0.0.5") tt []
    = (Ok o, tt, []) /\
    o !! "ip" = Some (VStr "10.0.0.5") /\
    o !! "_subnet_addr" = Some (VStr "10.0.0.0") /\
    exists r o2,
      IpAddress_update_info server_env VNone o []
      = (r, o2, [] ++ [Api (Get (SubnetPath (VStr "10.0.0.0")))]).
Proof.
  destruct (IpAddress_init server_env (subnet_doc "10.0.0.0" 24 "10.0.0.1")
              (VStr "10.0.0.5") tt []) as [[[o|e] st] l0] eqn:Hinit;
    [|vm_compute in Hinit; discriminate].
  assert (Hst : st = tt /\ l0 = [])
    by (vm_compute in Hinit; inversion Hinit; auto).
  destruct Hst as [-> ->].
  destruct (C9_member_address_kept_apart server_env unit tt tt
              (subnet_doc "10.0.0.0" 24 "10.0.0.1") (VStr "10.0.0.5")
              [] [] o eq_refl Hinit)
    as (net & _ & Hip & _ & Hnet & (data & Hd1 & Hd2) & Hrefresh).
  vm_compute in Hd1. inversion Hd1; subst data.
  vm_compute in Hd2. inversion Hd2; subst net.
  exists o. repeat split; try assumption.
  destruct (Hrefresh []) as (r & o2 & Hrun & _). eauto.
Defined.

(** The document handed to [update_info] comes back with the member
    address written into it; handing that same document in again stores
    the member address as the network address. *)
Example update_info_with_written_document :
  match written_document (subnet_doc "10.0.0.0" 24 "10.0.0.1") (VStr "10.0.0.5"),
        result_of (IpAddress_init server_env
                     (subnet_doc "10.0.0.0" 24 "10.0.0.1") (VStr "10.0.0.5")
                     tt [])
  with
  | Ok written, Some o =>
      match IpAddress_update_info server_env written o [] with
      | (r, o', l) => (r, o' !! "_subnet_addr", l)
      end
  | _, _ => (Raise TypeError, None, [])
  end
  = (Ok tt, Some (VStr "10.0.0.5"), []).
Proof. vm_compute. reflexivity. Qed.

(** ** Subnet membership *)

(** Whatever data value is tested, the lookup of [parse_ipaddr] on it
    fails before anything is parsed or compared. *)
Lemma Subnet_contains_raises addr (s : Subnet) l :
  Subnet_contains addr s l = (Raise (AttributeError "parse_ipaddr"), s, l).
Proof. destruct addr; reflexivity. Qed.

Lemma Subnet_get_ip_raises E addr (s : Subnet) l :
  Subnet_get_ip E addr s l = (Raise (AttributeError "parse_ipaddr"), s, l).
Proof.
  unfold Subnet_get_ip, bind. now rewrite Subnet_contains_raises.
Qed.

(** C4: on the subnet 10.0.0.0/24, whose numeric range is
    [167772160, 167772415], the membership test of the source raises
    [AttributeError] for 10.0.0.5, for 10.0.0.255 and for 10.0.1.0 (as it
    does for every address), where the test that the docstring describes
    answers true, true and false. *)
Theorem C4_membership_raises :
  Subnet_init server_env (subnet_doc "10.0.0.0" 24 "10.0.0.1") tt []
  = (Ok the_subnet, tt, []) /\
  the_subnet !! "numeric_range"
  = Some (VTuple [VInt 167772160; VInt 167772415]) /\
  map (fun a => fst (fst (Subnet_contains (VStr a) the_subnet [])))
      ["10.0.0.5"; "10.0.0.255"; "10.0.1.0"]
  = [Raise (AttributeError "parse_ipaddr");
     Raise (AttributeError "parse_ipaddr");
     Raise (AttributeError "parse_ipaddr")] /\
  map (fun a => fst (fst (Subnet_contains_intended server_env (VStr a)
                            the_subnet [])))
      ["10.0.0.5"; "10.0.0.255"; "10.0.1.0"]
  = [Ok true; Ok true; Ok false] /\
  (forall addr (s : Subnet) l,
      Subnet_contains addr s l
      = (Raise (AttributeError "parse_ipaddr"), s, l)).
Proof.
  split; [vm_compute; reflexivity|].
  split; [vm_compute; reflexivity|].
  split; [vm_compute; reflexivity|].
  split; [vm_compute; reflexivity|].
  apply Subnet_contains_raises.
Qed.

(** ** Iteration over the managers *)

Lemma IpManager_iter_empty E main_ip {S} (s : S) l :
  (conn E l (Get (IpQuery main_ip)) = Doc (VList []) \/
   exists st, conn E l (Get (IpQuery main_ip)) = Fail st) ->
  IpManager_iter E (mkIpManager main_ip) s l
  = (Ok [], s, l ++ [Api (Get (IpQuery main_ip))]).
Proof.
  intros [H|[st H]]; unfold IpManager_iter, bind; rw H; reflexivity.
Qed.

Lemma SubnetManager_iter_empty E main_ip {S} (s : S) l :
  (conn E l (Get (SubnetQuery main_ip)) = Doc (VList []) \/
   exists st, conn E l (Get (SubnetQuery main_ip)) = Fail st /\
              eq_int st 404 = true) ->
  SubnetManager_iter E (mkSubnetManager main_ip) s l
  = (Ok [], s, l ++ [Api (Get (SubnetQuery main_ip))]).
Proof.
  intros [H|[st [H H404]]]; unfold SubnetManager_iter, bind; rw H;
    [|rewrite H404]; reflexivity.
Qed.

(** C1, as the code has it: iteration over an [IpManager] yields the
    empty sequence when the collection endpoint answers with an empty
    list and when it fails with a [RobotError] of any status;
    iteration over a [SubnetManager] yields the empty sequence when the
    endpoint answers with an empty list and when it fails with a
    [RobotError] of status 404.  Either way exactly the one collection
    request is sent. *)
Theorem C1_iteration_normalises_emptiness :
  forall (E : env) (main_ip : value) (S : Type) (s : S) (l : log),
    ((conn E l (Get (IpQuery main_ip)) = Doc (VList []) \/
      exists st, conn E l (Get (IpQuery main_ip)) = Fail st) ->
     IpManager_iter E (mkIpManager main_ip) s l
     = (Ok [], s, l ++ [Api (Get (IpQuery main_ip))])) /\
    ((conn E l (Get (SubnetQuery main_ip)) = Doc (VList []) \/
      exists st, conn E l (Get (SubnetQuery main_ip)) = Fail st /\
                 eq_int st 404 = true) ->
     SubnetManager_iter E (mkSubnetManager main_ip) s l
     = (Ok [], s, l ++ [Api (Get (SubnetQuery main_ip))])).
Proof.
  intros E main_ip S s l. split.
  - apply IpManager_iter_empty.
  - apply SubnetManager_iter_empty.
Qed.

Lemma C1_witness :
  IpManager_iter (failing_env 404) (mkIpManager (VStr "192.0.2.10")) tt []
  = (Ok [], tt, [] ++ [Api (Get (IpQuery (VStr "192.0.2.10")))]) /\
  SubnetManager_iter (failing_env 404) (mkSubnetManager (VStr "192.0.2.10"))
    tt []
  = (Ok [], tt, [] ++ [Api (Get (SubnetQuery (VStr "192.0.2.10")))]).
Proof.
  destruct (C1_iteration_normalises_emptiness (failing_env 404)
              (VStr "192.0.2.10") unit tt []) as [Hip Hsub].
  split.
  - apply Hip. right. exists (VInt 404). reflexivity.
  - apply Hsub. right. exists (VInt 404). split; reflexivity.
Defined.

(** The claim C1 as stated fails on the code: when the transport
    fails with status 500, iteration over an [IpManager] yields the empty
    sequence, and iteration over a [SubnetManager] ends in
    [UnboundLocalError]; neither hands the [RobotError] on. *)
Lemma C1_counterexample :
  conn (failing_env 500) [] (Get (IpQuery (VStr "192.0.2.10")))
  = Fail (VInt 500) /\
  IpManager_iter (failing_env 500) (mkIpManager (VStr "192.0.2.10")) tt []
  = (Ok [], tt, [Api (Get (IpQuery (VStr "192.0.2.10")))]) /\
  fst (fst (IpManager_iter (failing_env 500)
              (mkIpManager (VStr "192.0.2.10")) tt []))
  <> Raise (RobotError (VInt 500)) /\
  SubnetManager_iter (failing_env 500) (mkSubnetManager (VStr "192.0.2.10"))
    tt []
  = (Raise (UnboundLocalError "result"), tt,
     [Api (Get (SubnetQuery (VStr "192.0.2.10")))]).
Proof.
  split; [reflexivity|]. split; [reflexivity|].
  split; [vm_compute; discriminate|reflexivity].
Qed.

(** With entries in the collection, each is wrapped as a resource
    object. *)
Example IpManager_iter_two :
  option_map (map (fun o : IpAddress => o !! "ip"))
    (result_of (IpManager_iter server_env (mkIpManager (VStr "192.0.2.10"))
                  tt []))
  = Some [Some (VStr "192.0.2.10"); Some (VStr "192.0.2.77")].
Proof. vm_compute. reflexivity. Qed.

(** ** Server *)

Lemma truthy_not_None v : truthy v = true -> is_None v = false.
Proof. destruct v; simpl; congruence. Qed.

Lemma select_ip_two_branches data a :
  subscript data "server_ip" = Ok a ->
  select_ip data
  = if negb (is_None a) then Ok a
    else match subscript data "server_ipv6_net" with
         | Ok b => if truthy b then py_add b (VStr "2") else Ok VNone
         | Raise e => Raise e
         end.
Proof.
  intros Ha. unfold select_ip. rewrite Ha.
  destruct (truthy a) eqn:Ht.
  - now rewrite (truthy_not_None a Ht).
  - destruct (is_None a); cbn [negb]; [|reflexivity].
    destruct (subscript data "server_ipv6_net") as [b|e]; [|reflexivity].
    destruct (truthy b) eqn:Hb; [|reflexivity].
    now rewrite (truthy_not_None b Hb).
Qed.

(** A successful [update_info] has stored the selected address. *)
Lemma Server_update_info_selects E result (s : Server) l s' l' :
  Server_update_info E result s l = (Ok tt, s', l') ->
  exists doc data ip,
    (if is_None result
     then exists old, data_attr s "ip" = Ok old /\
                      conn E l (Get (ServerPath old)) = Doc doc
     else doc = result) /\
    subscript doc "server" = Ok data /\
    select_ip data = Ok ip /\
    s' !! "ip" = Some (PData ip).
Proof.
  intros Hrun. unfold Server_update_info in Hrun.
  apply bind_ok_inv in Hrun. destruct Hrun as (doc & s0 & l0 & Hdoc & Hrun).
  assert (Hs0 : s0 = s /\
                if is_None result
                then exists old, data_attr s "ip" = Ok old /\
                                 conn E l (Get (ServerPath old)) = Doc doc
                else doc = result).
  { destruct (is_None result).
    - inv_run Hdoc. unfold conn_get in Hdoc. inversion Hdoc; subst.
      split; [reflexivity|]. eexists. split; [eassumption|].
      destruct (conn E l _); simpl in *; congruence.
    - apply ret_ok_inv in Hdoc. destruct Hdoc as (-> & -> & ->). auto. }
  destruct Hs0 as [-> Hsrc]. inv_run Hrun.
  eexists doc, _, _. repeat split; try eassumption.
  now simplify_map_eq.
Qed.

(** C2, as the code has it: [Server.update_info] selects one [ip] from
    the server entry of the document it was given or has fetched.  When
    [server_ip] is not [None] it is taken as it is, also when it is an
    empty text or another false value (the second branch of the source);
    when it is [None] and [server_ipv6_net] is a true value, [ip] is
    [server_ipv6_net + "2"]; otherwise [ip] is [None]. *)
Theorem C2_ip_selection :
  (forall data a,
      subscript data "server_ip" = Ok a ->
      select_ip data
      = if negb (is_None a) then Ok a
        else match subscript data "server_ipv6_net" with
             | Ok b => if truthy b then py_add b (VStr "2") else Ok VNone
             | Raise e => Raise e
             end) /\
  (forall E result (s : Server) l s' l',
      Server_update_info E result s l = (Ok tt, s', l') ->
      exists doc data ip,
        (if is_None result
         then exists old, data_attr s "ip" = Ok old /\
                          conn E l (Get (ServerPath old)) = Doc doc
         else doc = result) /\
        subscript doc "server" = Ok data /\
        select_ip data = Ok ip /\
        s' !! "ip" = Some (PData ip)).
Proof.
  split.
  - apply select_ip_two_branches.
  - apply Server_update_info_selects.
Qed.

Lemma C2_witness :
  select_ip (server_entry VNone (VStr "2001:db8:0:1::"))
  = Ok (VStr "2001:db8:0:1::2") /\
  exists doc data ip,
    doc = server_doc (VStr "192.0.2.10") (VStr "2001:db8:0:1::") /\
    subscript doc "server" = Ok data /\
    select_ip data = Ok ip /\
    the_server !! "ip" = Some (PData ip).
Proof.
  destruct C2_ip_selection as [Hsel Hupd]. split.
  - rewrite (Hsel (server_entry VNone (VStr "2001:db8:0:1::")) VNone eq_refl).
    reflexivity.
  - destruct (Hupd server_env
                (server_doc (VStr "192.0.2.10") (VStr "2001:db8:0:1::"))
                the_server [] the_server []) as (doc & data & ip & Hdoc & H1 & H2 & H3).
    + vm_compute. reflexivity.
    + simpl in Hdoc. exists doc, data, ip. repeat split; assumption.
Defined.

(** The claim C2 as stated fails on the code under either reading of
    "present".  If present means true: with an empty [server_ip] the
    second branch of the source runs and [ip] is the empty text, not the
    address derived from [server_ipv6_net].  If present means not [None]:
    with [server_ip] [None] and an empty [server_ipv6_net] the code gives
    [None], not a derived address. *)
Lemma C2_counterexample :
  select_ip (server_entry (VStr EmptyString) (VStr "2001:db8:0:1::"))
  = Ok (VStr EmptyString) /\
  spec_select_ip truthy (VStr EmptyString) (VStr "2001:db8:0:1::")
  = Ok (VStr "2001:db8:0:1::2") /\
  select_ip (server_entry VNone (VStr EmptyString)) = Ok VNone /\
  spec_select_ip not_None VNone (VStr EmptyString) = Ok (VStr "2").
Proof. repeat split; reflexivity. Qed.

(** No single reading of "present" makes the two-branch rule of the
    spec agree with the code on every server entry. *)
Lemma select_ip_not_uniform (present : value -> bool) :
  exists a b, select_ip (server_entry a b) <> spec_select_ip present a b.
Proof.
  destruct (present VNone) eqn:HN.
  - exists VNone, (VStr "2001:db8:0:1::"). unfold spec_select_ip.
    rewrite HN. vm_compute. discriminate.
  - destruct (present (VStr EmptyString)) eqn:HE.
    + exists VNone, (VStr EmptyString). unfold spec_select_ip.
      rewrite HN, HE. vm_compute. discriminate.
    + exists (VStr EmptyString), (VStr "2001:db8:0:1::").
      unfold spec_select_ip. rewrite HE.
      destruct (present (VStr "2001:db8:0:1::")); vm_compute; discriminate.
Qed.

Lemma data_attr_insert_ne (s : Server) k o name :
  k <> name -> data_attr (<[k := o]> s) name = data_attr s name.
Proof. intros H. unfold data_attr. now rewrite lookup_insert_ne. Qed.

(** What [Server(conn, result)] builds, when it succeeds. *)
Lemma Server_init_ok E {S} (st st' : S) result l l' (s : Server) :
  Server_init E result st l = (Ok s, st', l') ->
  exists s1 ip number,
    Server_update_info E result ∅ l = (Ok tt, s1, l') /\
    data_attr s1 "ip" = Ok ip /\
    data_attr s1 "number" = Ok number /\
    st' = st /\
    s = <["logger" := PLogger number]>
          (<["_admin_account" := PData VNone]>
             (<["rdns" := PReverseDNSManager ip]>
                (<["ips" := PIpManager (mkIpManager ip)]>
                   (<["reset" := PReset]>
                      (<["rescue" := PRescueSystem RescueSystem_init]> s1))))).
Proof.
  unfold Server_init, construct. intros Hinit.
  destruct (bind _ _ _ _) as [[[u|e] s0] l0] eqn:Hbody in Hinit;
    [|discriminate].
  inversion Hinit; subst s0 st' l0. clear Hinit.
  apply bind_ok_inv in Hbody. destruct Hbody as ([] & s1 & l1 & Hupd & Hbody).
  inv_run Hbody.
  repeat match goal with
         | H : data_attr (<[_ := _]> _) _ = _ |- _ =>
             rewrite data_attr_insert_ne in H by done
         end.
  repeat match goal with
         | H1 : ?x = Ok ?a, H2 : ?x = Ok ?b |- _ =>
             rewrite H1 in H2; inversion H2; subst; clear H2
         end.
  eexists s1, _, _. repeat split; try eassumption.
Qed.

(** After [update_info] on a fresh object every attribute holds data. *)
Lemma Server_update_info_data E result l s1 l1 :
  Server_update_info E result ∅ l = (Ok tt, s1, l1) ->
  map_Forall (fun _ o => not_subnet_manager o) s1 /\
  exists data raw,
    subscript result "server" = Ok data /\
    subscript data "subnet" = Ok raw /\
    s1 !! "subnets" = Some (PData raw).
Proof.
  intros Hrun. unfold Server_update_info in Hrun.
  apply bind_ok_inv in Hrun. destruct Hrun as (doc & s0 & l0 & Hdoc & Hrun).
  assert (Hs0 : s0 = ∅ /\ doc = result).
  { destruct (is_None result).
    - apply bind_ok_inv in Hdoc. destruct Hdoc as (? & ? & ? & Hself & Hdoc).
      apply self_ok_inv in Hself. destruct Hself as (-> & -> & ->).
      apply bind_ok_inv in Hdoc. destruct Hdoc as (? & ? & ? & Hip & _).
      apply lift_ok_inv in Hip. destruct Hip as (Hip & _).
      unfold data_attr in Hip. rewrite lookup_empty in Hip. discriminate.
    - apply ret_ok_inv in Hdoc. destruct Hdoc as (-> & -> & ->). auto. }
  destruct Hs0 as [-> ->]. inv_run Hrun. split.
  - repeat (apply map_Forall_insert_2; [exact I|]). apply map_Forall_empty.
  - eexists _, _. repeat split; try eassumption; try (now simplify_map_eq).
Qed.

(** Building an [AdminAccount] leaves the object of the caller alone. *)
Lemma AdminAccount_init_state E {S} (server : Server) (s : S) l r s' l' :
  AdminAccount_init E server s l = (r, s', l') -> s' = s.
Proof.
  unfold AdminAccount_init, bind, lift, construct.
  destruct (data_attr server "number") as [n|e].
  - destruct (AdminAccount_update_info E _ l) as [[[u|e] a] l0];
      intros H; now inversion H.
  - intros H. now inversion H.
Qed.

(** C3, as the code has it: a [Server] built from a response document
    holds one [RescueSystem] (nothing cached yet) in [rescue] and one
    [IpManager] for its own [ip] in [ips]; its [subnets] attribute is the
    raw [subnet] entry of the document and none of its attributes is a
    [SubnetManager]; [_admin_account] is [None] until the property
    [admin] is read, which builds one [AdminAccount], stores it and from
    then on hands out the stored one without sending anything. *)
Theorem C3_server_components :
  forall (E : env) (S : Type) (st st' : S) (result : value) (l l' : log)
         (s : Server),
    Server_init E result st l = (Ok s, st', l') ->
    s !! "rescue" = Some (PRescueSystem (mkRescueSystem VNone VNone VNone)) /\
    (exists ip, s !! "ip" = Some (PData ip) /\
                s !! "ips" = Some (PIpManager (mkIpManager ip))) /\
    (exists data raw, subscript result "server" = Ok data /\
                      subscript data "subnet" = Ok raw /\
                      s !! "subnets" = Some (PData raw)) /\
    (forall k m, s !! k <> Some (PSubnetManager m)) /\
    s !! "_admin_account" = Some (PData VNone) /\
    (forall l1,
        Server_admin E s l1
        = match AdminAccount_init E s s l1 with
          | (Ok a, _, l2) =>
              (Ok (PAdminAccount a), <["_admin_account" := PAdminAccount a]> s, l2)
          | (Raise e, _, l2) => (Raise e, s, l2)
          end) /\
    (forall a l2,
        Server_admin E (<["_admin_account" := PAdminAccount a]> s) l2
        = (Ok (PAdminAccount a), <["_admin_account" := PAdminAccount a]> s, l2)).
Proof.
  intros E S st st' result l l' s Hinit.
  destruct (Server_init_ok E st st' result l l' s Hinit)
    as (s1 & ip & number & Hupd & Hip & Hnum & _ & ->).
  destruct (Server_update_info_data E result l s1 l' Hupd)
    as (Hall & data & raw & Hd1 & Hd2 & Hraw).
  assert (Hip' : s1 !! "ip" = Some (PData ip)).
  { unfold data_attr in Hip. destruct (s1 !! "ip") as [[]|]; congruence. }
  split; [now simplify_map_eq|].
  split; [exists ip; split; now simplify_map_eq|].
  split; [exists data, raw; repeat split; try assumption; now simplify_map_eq|].
  split.
  { intros k m Hk.
    assert (Hfinal : map_Forall (fun _ o => not_subnet_manager o)
              (<["logger" := PLogger number]>
                 (<["_admin_account" := PData VNone]>
                    (<["rdns" := PReverseDNSManager ip]>
                       (<["ips" := PIpManager (mkIpManager ip)]>
                          (<["reset" := PReset]>
                             (<["rescue" := PRescueSystem RescueSystem_init]>
                                s1))))))).
    { repeat (apply map_Forall_insert_2; [exact I|]). exact Hall. }
    exact (Hfinal k _ Hk). }
  split; [now simplify_map_eq|].
  split.
  - intros l1. unfold Server_admin. unfold bind at 1. unfold getattr at 1.
    rewrite lookup_insert_ne by done. rewrite lookup_insert_eq.
    cbv beta iota. unfold bind at 1. unfold self at 1. cbv beta iota.
    unfold bind at 1.
    destruct (AdminAccount_init E _ _ l1) as [[[a|e] s2] l2] eqn:Hacc;
      apply AdminAccount_init_state in Hacc; subst s2.
    + unfold bind, setattr, modify, getattr. now rewrite lookup_insert_eq.
    + reflexivity.
  - intros a l2. unfold Server_admin, bind, getattr.
    now rewrite lookup_insert_eq.
Qed.

Lemma C3_witness :
  Server_init server_env
    (server_doc (VStr "192.0.2.10") (VStr "2001:db8:0:1::")) tt []
  = (Ok the_server, tt, []) /\
  the_server !! "rescue"
  = Some (PRescueSystem (mkRescueSystem VNone VNone VNone)) /\
  the_server !! "_admin_account" = Some (PData VNone) /\
  Server_admin server_env the_server []
  = (Ok (PAdminAccount
           (mkAdminAccount (VInt 321) true (VStr "K1234567") VNone)),
     <["_admin_account" :=
         PAdminAccount (mkAdminAccount (VInt 321) true (VStr "K1234567") VNone)]>
       the_server,
     [WebLogin; Web (WebRequest (AdminPath (VInt 321)) None None)]).
Proof.
  assert (Hinit : Server_init server_env
                    (server_doc (VStr "192.0.2.10") (VStr "2001:db8:0:1::"))
                    tt []
                  = (Ok the_server, tt, [])) by (vm_compute; reflexivity).
  destruct (C3_server_components server_env unit tt tt _ [] [] the_server Hinit)
    as (Hrescue & _ & _ & _ & Hadmin & Hfirst & _).
  split; [exact Hinit|]. split; [exact Hrescue|]. split; [exact Hadmin|].
  rewrite Hfirst. vm_compute. reflexivity.
Defined.

(** The claim C3 as stated fails on the code: the [subnets] attribute
    of a constructed [Server] is the raw [subnet] list of the document,
    and no attribute holds a [SubnetManager]. *)
Lemma C3_counterexample :
  Server_init server_env
    (server_doc (VStr "192.0.2.10") (VStr "2001:db8:0:1::")) tt []
  = (Ok the_server, tt, []) /\
  the_server !! "subnets"
  = Some (PData (VList [VDict [("ip", VStr "10.0.0.0"); ("mask", VStr "24")]])) /\
  forall m, the_server !! "subnets" <> Some (PSubnetManager m).
Proof.
  split; [vm_compute; reflexivity|].
  split; [vm_compute; reflexivity|].
  intros m. vm_compute. discriminate.
Qed.

(** * Further properties of the module *)

(** A run whose outcome and log are known, with the object it leaves. *)
Lemma run_ok {A S} (run : outcome A * S * log) (a : A) (l : log) :
  fst (fst run) = Ok a -> snd run = l -> run = (Ok a, snd (fst run), l).
Proof. destruct run as [[r s] l0]. simpl. now intros -> ->. Qed.

(** ** RescueSystem *)

(** [RescueSystem.deactivate] mirrors [activate]: after reading
    [active] it sends nothing more when the value is false; when it is
    true it sends one [delete] to the rescue path, without options, and
    replaces the three cached fields by those of the reply.  When the
    reply reports [active] as [False], a second [deactivate] right after
    it sends nothing, so the two calls perform exactly one mutation. *)
Theorem deactivate_idempotent :
  forall (E : env) (server : Server) (number : value) (r : RescueSystem)
         (l : log) (a : value) (r1 : RescueSystem) (l1 : log),
    data_attr server "number" = Ok number ->
    RescueSystem_active E server r l = (Ok a, r1, l1) ->
    (truthy a = false ->
       RescueSystem_deactivate E server r l = (Ok tt, r1, l1)) /\
    (truthy a = true ->
       forall reply act pw ak,
         let del := Api (Request "delete" (BootRescuePath number) VNone) in
         conn E l1 (Request "delete" (BootRescuePath number) VNone) = Doc reply ->
         rescue_status reply act pw ak ->
         let r2 := mkRescueSystem act pw ak in
         RescueSystem_deactivate E server r l = (Ok tt, r2, l1 ++ [del]) /\
         mutations (l1 ++ [del]) = mutations l ++ [del] /\
         (act = VBool false ->
            RescueSystem_deactivate E server r2 (l1 ++ [del])
            = (Ok tt, r2, l1 ++ [del]))).
Proof.
  intros E server number r l a r1 l1 Hnum Hact.
  assert (Hread : mutations l1 = mutations l)
    by exact (cached_property_reads_only E server number _ r l _ r1 l1 Hnum Hact).
  split.
  - intros Ht. unfold RescueSystem_deactivate, bind. rw Hact. now rewrite Ht.
  - intros Ht reply act pw ak del Hc Hst r2. split; [|split].
    + unfold RescueSystem_deactivate, bind. rw Hact. rewrite Ht.
      exact (rescue_action_adopts E server number _ _ reply act pw ak r1 l1
               Hnum Hc Hst).
    + rewrite mutations_app, Hread. reflexivity.
    + intros ->. unfold RescueSystem_deactivate, bind.
      unfold RescueSystem_active. rewrite cached_property_hit by reflexivity.
      reflexivity.
Qed.

Lemma deactivate_idempotent_witness :
  RescueSystem_deactivate active_rescue_env numbered_server RescueSystem_init []
  = (Ok tt, mkRescueSystem (VBool false) VNone (VList []),
     [Api (Get (BootRescuePath (VInt 321)))]
       ++ [Api (Request "delete" (BootRescuePath (VInt 321)) VNone)]).
Proof.
  destruct (deactivate_idempotent active_rescue_env numbered_server (VInt 321)
              RescueSystem_init [] (VBool true)
              (mkRescueSystem (VBool true) (VStr "jEt0dvTlXzyp1") (VList []))
              [Api (Get (BootRescuePath (VInt 321)))] eq_refl eq_refl)
    as [_ H].
  destruct (H eq_refl (rescue_doc (VBool false) VNone) (VBool false) VNone
              (VList []) eq_refl) as [Hrun _].
  - eexists. repeat split; reflexivity.
  - exact Hrun.
Defined.

(** [_update_status] assigns the three fields one after the other: a
    status document that has [active] but lacks [password] raises
    [KeyError] with [_active] already replaced and the other two fields
    as they were; one that lacks only [authorized_key] raises with
    [_active] and [_password] replaced. *)
Theorem update_status_partial :
  forall (E : env) (server : Server) (d rs a : value) (r : RescueSystem)
         (l : log),
    is_None d = false ->
    subscript d "rescue" = Ok rs ->
    subscript rs "active" = Ok a ->
    (subscript rs "password" = Raise (KeyError (VStr "password")) ->
     RescueSystem_update_status E server d r l
     = (Raise (KeyError (VStr "password")),
        mkRescueSystem a (_password r) (_authorized_keys r), l)) /\
    (forall p,
        subscript rs "password" = Ok p ->
        subscript rs "authorized_key" = Raise (KeyError (VStr "authorized_key")) ->
        RescueSystem_update_status E server d r l
        = (Raise (KeyError (VStr "authorized_key")),
           mkRescueSystem a p (_authorized_keys r), l)).
Proof.
  intros E server d rs a r l Hd Hrs Ha. split.
  - intros Hp. unfold RescueSystem_update_status. rewrite Hd.
    unfold bind, ret, lift, modify. rw Hrs. rw Ha. rw Hp. reflexivity.
  - intros p Hp Hk. unfold RescueSystem_update_status. rewrite Hd.
    unfold bind, ret, lift, modify. rw Hrs. rw Ha. rw Hp. rw Hk. reflexivity.
Qed.

Lemma update_status_partial_witness :
  RescueSystem_update_status rescue_env numbered_server
    (VDict [("rescue", VDict [("active", VBool true)])])
    (mkRescueSystem (VBool false) (VStr "old") (VList [])) []
  = (Raise (KeyError (VStr "password")),
     mkRescueSystem (VBool true) (VStr "old") (VList []), []).
Proof.
  destruct (update_status_partial rescue_env numbered_server
              (VDict [("rescue", VDict [("active", VBool true)])])
              (VDict [("active", VBool true)]) (VBool true)
              (mkRescueSystem (VBool false) (VStr "old") (VList [])) []
              eq_refl eq_refl eq_refl) as [H _].
  exact (H eq_refl).
Defined.

(** When the transport answers a mutating request without a body
    ([None]), [_rescue_action] hands [None] to [_update_status], which
    then fetches the status itself: the request is followed by one [Get]
    of the rescue path and the cached fields are those of the fetched
    document. *)
Theorem rescue_action_refetches_without_body :
  forall (E : env) (server : Server) (number : value) (method : string)
         (opts d a p k : value) (r : RescueSystem) (l : log),
    data_attr server "number" = Ok number ->
    let req := Request method (BootRescuePath number) opts in
    conn E l req = Doc VNone ->
    conn E (l ++ [Api req]) (Get (BootRescuePath number)) = Doc d ->
    rescue_status d a p k ->
    RescueSystem_rescue_action E server method opts r l
    = (Ok tt, mkRescueSystem a p k,
       (l ++ [Api req]) ++ [Api (Get (BootRescuePath number))]).
Proof.
  intros E server number method opts d a p k r l Hnum req Hc Hget Hst.
  unfold RescueSystem_rescue_action, bind, lift. rw Hnum.
  unfold conn_request. fold req. rw Hc. cbn [of_reply]. cbv beta iota.
  exact (update_status_fetches E server number Hnum d a p k r _ Hget Hst).
Qed.

Lemma rescue_action_refetches_without_body_witness :
  RescueSystem_rescue_action bodyless_env numbered_server "post"
    (VDict [("os", VStr "linux"); ("arch", VInt 64)])
    (mkRescueSystem (VBool false) VNone (VList []))
    [Api (Get (BootRescuePath (VInt 321)))]
  = (Ok tt, mkRescueSystem (VBool true) (VStr "jEt0dvTlXzyp1") (VList []),
     ([Api (Get (BootRescuePath (VInt 321)))]
        ++ [Api (Request "post" (BootRescuePath (VInt 321))
                   (VDict [("os", VStr "linux"); ("arch", VInt 64)]))])
       ++ [Api (Get (BootRescuePath (VInt 321)))]).
Proof.
  apply (rescue_action_refetches_without_body bodyless_env numbered_server
           (VInt 321) "post" _
           (rescue_doc (VBool true) (VStr "jEt0dvTlXzyp1"))).
  - reflexivity.
  - reflexivity.
  - reflexivity.
  - eexists. repeat split; reflexivity.
Defined.

Lemma rescue_action_fails E server number method opts st r l :
  data_attr server "number" = Ok number ->
  conn E l (Request method (BootRescuePath number) opts) = Fail st ->
  RescueSystem_rescue_action E server method opts r l
  = (Raise (RobotError st), r,
     l ++ [Api (Request method (BootRescuePath number) opts)]).
Proof.
  intros Hnum Hc. unfold RescueSystem_rescue_action, bind, lift. rw Hnum.
  unfold conn_request. rw Hc. reflexivity.
Qed.

(** A refused activation surfaces as the transport's error: when the
    system is inactive and the [post] fails with a [RobotError] of some
    status, [activate] raises that error after the one request, and the
    cached fields stay as the status read left them. *)
Theorem activate_failure_propagates :
  forall (E : env) (server : Server) (number bits os keys : value)
         (r : RescueSystem) (l : log) (a : value) (r1 : RescueSystem)
         (l1 : log) (opts st : value),
    data_attr server "number" = Ok number ->
    RescueSystem_active E server r l = (Ok a, r1, l1) ->
    truthy a = false ->
    activation_opts bits os keys = Ok opts ->
    conn E l1 (Request "post" (BootRescuePath number) opts) = Fail st ->
    RescueSystem_activate E server bits os keys r l
    = (Raise (RobotError st), r1,
       l1 ++ [Api (Request "post" (BootRescuePath number) opts)]).
Proof.
  intros E server number bits os keys r l a r1 l1 opts st Hnum Hact Ht Hopts Hc.
  unfold RescueSystem_activate. unfold bind at 1. rw Hact. rewrite Ht.
  cbn [negb]. cbv beta iota. unfold activation_opts in Hopts.
  unfold bind at 1.
  destruct (is_None keys); cbn [negb]; cbv beta iota.
  - inversion Hopts; subst opts. unfold ret.
    exact (rescue_action_fails E server number _ _ st r1 l1 Hnum Hc).
  - unfold bind, lift, ret. destruct (py_iter keys) as [ks|e]; [|discriminate].
    inversion Hopts; subst opts. cbv beta iota.
    exact (rescue_action_fails E server number _ _ st r1 l1 Hnum Hc).
Qed.

Lemma activate_failure_propagates_witness :
  RescueSystem_activate refusing_env numbered_server (VInt 64) (VStr "linux")
    (VList [VStr "a3:14:62:38:d1:45:35:6c:de:ad:ec:12:be:93:24:ef"])
    RescueSystem_init []
  = (Raise (RobotError (VInt 500)),
     mkRescueSystem (VBool false) VNone (VList []),
     [Api (Get (BootRescuePath (VInt 321)))]
       ++ [Api (Request "post" (BootRescuePath (VInt 321))
                  (VDict [("os", VStr "linux"); ("arch", VInt 64);
                          ("authorized_key",
                           VList [VStr "a3:14:62:38:d1:45:35:6c:de:ad:ec:12:be:93:24:ef"])]))]).
Proof.
  apply (activate_failure_propagates refusing_env numbered_server (VInt 321)
           (VInt 64) (VStr "linux") _ RescueSystem_init [] (VBool false));
    reflexivity.
Defined.

(** ** AdminAccount *)

(** Whatever discovery answers, it leaves [_serverid] and [passwd]
    alone and sends a login followed by at most one request. *)
Lemma update_info_frame E a l r a' l' :
  AdminAccount_update_info E a l = (r, a', l') ->
  _serverid a' = _serverid a /\ passwd a' = passwd a /\
  (forall e, r = Raise e -> a' = a) /\
  (r = Ok tt -> exists_ a' = false -> login a' = login a).
Proof.
  unfold AdminAccount_update_info, bind, self, scraper_do_login,
    scraper_do_request, assert, ret, raise, modify.
  destruct (scraper_login E l) as [e0|].
  - intros H. inversion H; subst. repeat split; auto; discriminate.
  - destruct (scraper_request E _ _) as [page|e0].
    + destruct (status page =? 200).
      * destruct (search login_re (text page)) as [m|];
          intros H; inversion H; subst; cbn; repeat split; auto;
          try discriminate.
      * intros H. inversion H; subst. repeat split; auto; discriminate.
    + intros H. inversion H; subst. repeat split; auto; discriminate.
Qed.

(** The three operations of [AdminAccount] change the object only when
    they succeed: if [update_info], [create] or [delete] raises, at
    whatever step, [exists], [login] and [passwd] are as before; in
    particular a failed [create] never adopts the password. *)
Theorem admin_account_unchanged_on_failure :
  forall (E : env) (a : AdminAccount) (l : log) (e : exn)
         (a' : AdminAccount) (l' : log),
    (AdminAccount_update_info E a l = (Raise e, a', l') -> a' = a) /\
    (forall passwd_arg,
        AdminAccount_create E passwd_arg a l = (Raise e, a', l') -> a' = a) /\
    (AdminAccount_delete E a l = (Raise e, a', l') -> a' = a).
Proof.
  intros E a l e a' l'. split; [|split].
  - intros H. destruct (update_info_frame E a l _ a' l' H) as (_ & _ & Hf & _).
    now apply (Hf e).
  - intros passwd_arg. unfold AdminAccount_create. unfold bind at 1.
    assert (Hpw : exists pw,
               (if is_None passwd_arg
                then AdminAccount_genpasswd E else ret passwd_arg) a l
               = (Ok pw, a, l)).
    { destruct (is_None passwd_arg); eexists; reflexivity. }
    destruct Hpw as [pw Hpw]. rw Hpw.
    unfold bind at 1. unfold self at 1. cbv beta iota.
    unfold bind at 1. unfold scraper_do_request at 1.
    destruct (scraper_request E l _) as [form|e0];
      [|intros H; now inversion H].
    unfold bind at 1.
    destruct (is_None (csrf_token E _ (text form))); cbn [negb];
      unfold assert at 1; [unfold raise; intros H; now inversion H|].
    unfold ret at 1. cbv beta iota.
    unfold bind at 1. unfold self at 1. cbv beta iota.
    destruct (exists_ a); cbn [negb]; cbv beta iota;
      unfold bind at 1; unfold scraper_do_request at 1;
      (destruct (scraper_request E _ _) as [page|e0];
       [|intros H; now inversion H]);
      (destruct (contains "msgbox_success" (text page)); cbn [negb];
       cbv beta iota;
       [ unfold bind at 1;
         destruct (AdminAccount_update_info E a _) as [[[u|e1] a1] l1] eqn:Hd;
         [ unfold bind, modify, self, ret; intros H; inversion H
         | intros H; inversion H; subst;
           destruct (update_info_frame E a _ _ _ _ Hd) as (_ & _ & Hf & _);
           now apply (Hf e) ]
       | destruct (search ul_re (text page)); unfold raise; intros H;
         now inversion H ]).
  - unfold AdminAccount_delete, bind, self.
    destruct (exists_ a); cbn [negb]; cbv beta iota;
      [|unfold ret; intros H; inversion H].
    unfold scraper_do_request.
    destruct (scraper_request E l _) as [page|e0];
      [|intros H; now inversion H].
    destruct (contains "msgbox_success" (text page)); unfold assert.
    + unfold ret. cbv beta iota. intros H.
      destruct (update_info_frame E a _ _ a' l' H) as (_ & _ & Hf & _).
      now apply (Hf e).
    + unfold raise. intros H. now inversion H.
Qed.

Lemma admin_account_unchanged_on_failure_witness :
  AdminAccount_create (admin_env (Response 200 success_page)
                                 (Response 500 account_page))
    (VStr "s3cret/Passw0rd") missing_account []
  = (Raise AssertionError, missing_account,
     [Web (WebRequest (AdminPath (VInt 321)) None (Some "POST"));
      Web (WebRequest (AdminCreatePath (VInt 321))
             (Some (VDict [("password[new_password]", VStr "s3cret/Passw0rd");
                           ("password[new_password_repeat]", VStr "s3cret/Passw0rd");
                           ("password[_csrf_token]", VStr "0f3a9c")])) None);
      WebLogin;
      Web (WebRequest (AdminPath (VInt 321)) None None)]).
Proof.
  destruct (AdminAccount_create
              (admin_env (Response 200 success_page) (Response 500 account_page))
              (VStr "s3cret/Passw0rd") missing_account [])
    as [[r a'] l'] eqn:Hrun.
  assert (Hr : r = Raise AssertionError /\ l' =
     [Web (WebRequest (AdminPath (VInt 321)) None (Some "POST"));
      Web (WebRequest (AdminCreatePath (VInt 321))
             (Some (VDict [("password[new_password]", VStr "s3cret/Passw0rd");
                           ("password[new_password_repeat]", VStr "s3cret/Passw0rd");
                           ("password[_csrf_token]", VStr "0f3a9c")])) None);
      WebLogin;
      Web (WebRequest (AdminPath (VInt 321)) None None)])
    by (vm_compute in Hrun; inversion Hrun; auto).
  destruct Hr as [-> ->].
  pose proof (fun l' =>
                proj1 (proj2 (admin_account_unchanged_on_failure
                                (admin_env (Response 200 success_page)
                                           (Response 500 account_page))
                                missing_account [] AssertionError a' l')))
    as Hcreate.
  rewrite (Hcreate _ _ Hrun). reflexivity.
Defined.

(** Discovery that finds no login sets [exists] to [False] but leaves
    [login] as it was: after a successful [delete] whose discovery shows
    no account, the object still carries the login of the deleted
    account; [passwd] and the server id never change in [delete]. *)
Theorem delete_keeps_stale_login :
  forall (E : env) (a a' : AdminAccount) (l l' : log),
    AdminAccount_delete E a l = (Ok tt, a', l') ->
    _serverid a' = _serverid a /\ passwd a' = passwd a /\
    (exists_ a' = false -> login a' = login a).
Proof.
  intros E a a' l l'. unfold AdminAccount_delete, bind, self.
  destruct (exists_ a) eqn:Hex; cbn [negb]; cbv beta iota.
  - unfold scraper_do_request.
    destruct (scraper_request E l _) as [page|e0]; [|discriminate].
    destruct (contains "msgbox_success" (text page)); unfold assert;
      [|discriminate].
    unfold ret. cbv beta iota. intros H.
    destruct (update_info_frame E a _ _ a' l' H) as (H1 & H2 & _ & H3).
    auto.
  - unfold ret. intros H. inversion H; subst. auto.
Qed.

Lemma delete_keeps_stale_login_witness :
  exists a' l',
    AdminAccount_delete (admin_env (Response 200 success_page)
                                   (Response 200 no_account_page))
      present_account [] = (Ok tt, a', l') /\
    exists_ a' = false /\ login a' = VStr "K1234567".
Proof.
  destruct (AdminAccount_delete
              (admin_env (Response 200 success_page)
                         (Response 200 no_account_page))
              present_account []) as [[r a'] l'] eqn:Hrun.
  assert (Hr : r = Ok tt /\ exists_ a' = false)
    by (vm_compute in Hrun; inversion Hrun; auto).
  destruct Hr as [-> Hex]. exists a', l'. split; [reflexivity|].
  split; [exact Hex|].
  destruct (delete_keeps_stale_login _ _ _ _ _ Hrun) as (_ & _ & Hlogin).
  now rewrite (Hlogin Hex).
Defined.

(** When the account form carries no token, [create] stops at the
    assertion: exactly the one form request has been sent, nothing is
    submitted and the account is unchanged. *)
Theorem create_without_token :
  forall (E : env) (passwd_arg : value) (a : AdminAccount) (l : log)
         (form : response),
    let form_req := WebRequest (AdminPath (_serverid a)) None (Some "POST") in
    scraper_request E l form_req = Ok form ->
    csrf_token E "password[_csrf_token]" (text form) = VNone ->
    AdminAccount_create E passwd_arg a l
    = (Raise AssertionError, a, l ++ [Web form_req]).
Proof.
  intros E passwd_arg a l form form_req Hform Htoken.
  unfold AdminAccount_create. unfold bind at 1.
  assert (Hpw : exists pw,
             (if is_None passwd_arg
              then AdminAccount_genpasswd E else ret passwd_arg) a l
             = (Ok pw, a, l)).
  { destruct (is_None passwd_arg); eexists; reflexivity. }
  destruct Hpw as [pw Hpw]. rw Hpw.
  unfold bind at 1. unfold self at 1. cbv beta iota.
  unfold bind at 1. unfold scraper_do_request at 1. fold form_req.
  rw Hform. unfold bind at 1. rewrite Htoken. reflexivity.
Qed.

Lemma create_without_token_witness :
  AdminAccount_create
    (example_env no_conn
       (fun _ _ => Ok (Response 200 no_account_page)))
    VNone missing_account []
  = (Raise AssertionError, missing_account,
     [] ++ [Web (WebRequest (AdminPath (VInt 321)) None (Some "POST"))]).
Proof.
  apply (create_without_token
           (example_env no_conn (fun _ _ => Ok (Response 200 no_account_page)))
           VNone missing_account [] (Response 200 no_account_page));
    reflexivity.
Defined.

(** ** IpAddress *)

Ltac other_attr Hk :=
  repeat (rewrite lookup_insert_ne;
          [|let Heq := fresh in
            intros Heq; apply Hk; rewrite <- Heq; simpl; tauto]).

(** A refresh of an address that is owned directly (no [subnet_ip])
    with a document reads the entry [ip] of the document and nothing
    else: the eight attributes are the values of the entry under the same
    names, every other attribute ([subnet_ip], [_rdns], ...) is as
    before, and nothing is sent. *)
Theorem IpAddress_update_info_mirrors :
  forall (E : env) (doc : value) (o o' : IpAddress) (l l' : log),
    o !! "subnet_ip" = Some VNone ->
    is_None doc = false ->
    IpAddress_update_info E doc o l = (Ok tt, o', l') ->
    exists data,
      subscript doc "ip" = Ok data /\
      (forall k, In k IpAddress_fields ->
                 exists v, subscript data k = Ok v /\ o' !! k = Some v) /\
      (forall k, ~ In k IpAddress_fields -> o' !! k = o !! k) /\
      l' = l.
Proof.
  intros E doc o o' l l' Hsip Hdoc Hrun. unfold IpAddress_update_info in Hrun.
  apply bind_ok_inv in Hrun. destruct Hrun as (sip & o1 & l1 & Hget & Hrun).
  apply getattr_ok_inv in Hget. destruct Hget as (Hget & -> & ->).
  rewrite Hsip in Hget. inversion Hget; subst sip. clear Hget.
  rewrite Hdoc in Hrun. cbn [is_None negb] in Hrun.
  inv_run Hrun.
  eexists. split; [eassumption|]. split; [|split; [|reflexivity]].
  - intros k Hk. unfold IpAddress_fields in Hk. simpl in Hk.
    repeat (destruct Hk as [<-|Hk];
            [eexists; split; [eassumption|now simplify_map_eq]|]).
    contradiction.
  - intros k Hk. unfold IpAddress_fields in Hk. other_attr Hk. reflexivity.
Qed.

Lemma IpAddress_update_info_mirrors_witness :
  let run :=
    IpAddress_update_info server_env (ip_doc "192.0.2.77") the_ip [] in
  run = (Ok tt, snd (fst run), []) /\
  snd (fst run) !! "ip" = Some (VStr "192.0.2.77") /\
  snd (fst run) !! "_rdns" = Some VNone.
Proof.
  intros run.
  assert (Hrun : run = (Ok tt, snd (fst run), []))
    by (apply run_ok; vm_compute; reflexivity).
  split; [exact Hrun|].
  destruct (IpAddress_update_info_mirrors server_env (ip_doc "192.0.2.77")
              the_ip (snd (fst run)) [] [] eq_refl eq_refl Hrun)
    as (data & Hdata & Hfields & Hframe & _).
  inversion Hdata; subst data. split.
  - destruct (Hfields "ip") as (v & Hv & Hip); [simpl; tauto|].
    inversion Hv; subst v. exact Hip.
  - rewrite Hframe; [reflexivity|].
    unfold IpAddress_fields. simpl. intros H.
    repeat (destruct H as [H|H]; [discriminate|]). exact H.
Defined.

(** An object that stands for a member of a subnet shows the values of
    the subnet for everything but its address: after a successful
    [update_info] the attributes [server_ip], [locked] and the four
    traffic fields are those of the [subnet] entry of the document. *)
Theorem member_shows_subnet_fields :
  forall (E : env) (doc member : value) (o o' : IpAddress) (l l' : log),
    o !! "subnet_ip" = Some member ->
    is_None member = false ->
    is_None doc = false ->
    IpAddress_update_info E doc o l = (Ok tt, o', l') ->
    exists data,
      subscript doc "subnet" = Ok data /\
      forall k, In k ["server_ip"; "locked"; "traffic_warnings";
                      "traffic_hourly"; "traffic_daily"; "traffic_monthly"] ->
                exists v, subscript data k = Ok v /\ o' !! k = Some v.
Proof.
  intros E doc member o o' l l' Hsip Hmember Hdoc Hrun.
  unfold IpAddress_update_info in Hrun.
  apply bind_ok_inv in Hrun. destruct Hrun as (sip & o1 & l1 & Hget & Hrun).
  apply getattr_ok_inv in Hget. destruct Hget as (Hget & -> & ->).
  rewrite Hsip in Hget. inversion Hget; subst sip. clear Hget.
  rewrite Hmember, Hdoc in Hrun. cbn [is_None negb] in Hrun.
  inv_run Hrun.
  match goal with
  | H1 : setitem _ "ip" member = Ok ?d1,
    H2 : setitem ?d1 "separate_mac" VNone = Ok _ |- _ =>
      apply setitem_ok in H1; destruct H1 as [_ Hother1];
      apply setitem_ok in H2; destruct H2 as [_ Hother2]
  end.
  eexists. split; [eassumption|].
  intros k Hk. simpl in Hk.
  repeat (destruct Hk as [<-|Hk];
          [eexists; split;
           [rewrite <- Hother1 by discriminate;
            rewrite <- Hother2 by discriminate; eassumption
           |now simplify_map_eq]|]).
  contradiction.
Qed.

Lemma member_shows_subnet_fields_witness :
  let run :=
    IpAddress_update_info server_env (subnet_doc "10.0.0.0" 24 "10.0.0.1")
      the_member [] in
  run = (Ok tt, snd (fst run), []) /\
  snd (fst run) !! "traffic_daily" = Some (VInt 500).
Proof.
  intros run.
  assert (Hrun : run = (Ok tt, snd (fst run), []))
    by (apply run_ok; vm_compute; reflexivity).
  split; [exact Hrun|].
  destruct (member_shows_subnet_fields server_env
              (subnet_doc "10.0.0.0" 24 "10.0.0.1") (VStr "10.0.0.5")
              the_member (snd (fst run)) [] [] eq_refl eq_refl eq_refl Hrun)
    as (data & Hdata & Hfields).
  inversion Hdata; subst data.
  destruct (Hfields "traffic_daily") as (v & Hv & Hattr); [simpl; tauto|].
  inversion Hv; subst v. exact Hattr.
Defined.

(** The constructors need a document: with [None] in its place
    [update_info] first reads the attribute that names the canonical
    path, which a fresh object does not have yet, so construction ends in
    [AttributeError] and nothing is sent. *)
Theorem constructors_need_document :
  forall (E : env) (S : Type) (st : S) (l : log) (member : value),
    IpAddress_init E VNone VNone st l = (Raise (AttributeError "ip"), st, l) /\
    (is_None member = false ->
     IpAddress_init E VNone member st l
     = (Raise (AttributeError "_subnet_addr"), st, l)) /\
    Subnet_init E VNone st l = (Raise (AttributeError "net_ip"), st, l) /\
    Server_init E VNone st l = (Raise (AttributeError "ip"), st, l).
Proof.
  intros E S st l member. split; [|split; [|split]].
  - reflexivity.
  - intros Hm. unfold IpAddress_init, construct, bind, setattr, modify.
    unfold IpAddress_update_info, bind, getattr.
    rewrite lookup_insert_eq. rewrite Hm. cbn [negb is_None].
    rewrite lookup_insert_ne by done. rewrite lookup_empty. reflexivity.
  - reflexivity.
  - reflexivity.
Qed.

Lemma constructors_need_document_witness :
  IpAddress_init server_env VNone (VStr "10.0.0.5") tt []
  = (Raise (AttributeError "_subnet_addr"), tt, []).
Proof.
  destruct (constructors_need_document server_env unit tt [] (VStr "10.0.0.5"))
    as (_ & H & _).
  exact (H eq_refl).
Defined.

(** ** Subnet *)

Lemma Subnet_update_info_ok_inv E doc (o o' : Subnet) l l' :
  is_None doc = false ->
  Subnet_update_info E doc o l = (Ok tt, o', l') ->
  (exists data,
      subscript doc "subnet" = Ok data /\
      forall attr key, In (attr, key) Subnet_fields ->
                       exists v, subscript data key = Ok v /\
                                 o' !! attr = Some v) /\
  Subnet_consistent E o'.
Proof.
  intros Hdoc Hrun. unfold Subnet_update_info in Hrun.
  rewrite Hdoc in Hrun. cbv beta iota in Hrun. inv_run Hrun.
  match goal with
  | H : (let '(_, _) := ?p in _) _ _ = _ |- _ => destruct p as [is6 n]
  end.
  inv_run Hrun.
  repeat match goal with
         | H : _ !! _ = Some _ |- _ => progress simplify_map_eq
         end.
  split.
  - eexists. split; [eassumption|].
    intros attr key Hin. unfold Subnet_fields in Hin. simpl in Hin.
    repeat (destruct Hin as [Hin|Hin];
            [inversion Hin; subst attr key;
             eexists; split; [eassumption|now simplify_map_eq]|]).
    contradiction.
  - unfold Subnet_consistent.
    do 8 eexists. repeat split; try eassumption; now simplify_map_eq.
Qed.

(** A successful [Subnet.update_info] with a document copies the ten
    fields of the [subnet] entry and recomputes every numeric attribute
    from them, whatever the object held before: afterwards the numeric
    attributes agree with the textual ones, and nothing was sent. *)
Theorem Subnet_update_info_consistent :
  forall (E : env) (doc : value) (o o' : Subnet) (l l' : log),
    is_None doc = false ->
    Subnet_update_info E doc o l = (Ok tt, o', l') ->
    (exists data,
        subscript doc "subnet" = Ok data /\
        forall attr key, In (attr, key) Subnet_fields ->
                         exists v, subscript data key = Ok v /\
                                   o' !! attr = Some v) /\
    Subnet_consistent E o' /\
    l' = l.
Proof.
  intros E doc o o' l l' Hdoc Hrun.
  destruct (Subnet_update_info_ok_inv E doc o o' l l' Hdoc Hrun)
    as [Hfields Hcons].
  split; [exact Hfields|]. split; [exact Hcons|].
  destruct (Subnet_update_info_silent E doc Hdoc o) as (r & o1 & Hsilent).
  rewrite Hsilent in Hrun. now inversion Hrun.
Qed.

Lemma bind_step {S A B} (m : M S A) (k : A -> M S B) s l a s' l' :
  m s l = (Ok a, s', l') -> bind m k s l = k a s' l'.
Proof. intros H. unfold bind. now rewrite H. Qed.

Lemma bind_fail {S A B} (m : M S A) (k : A -> M S B) s l e s' l' :
  m s l = (Raise e, s', l') -> bind m k s l = (Raise e, s', l').
Proof. intros H. unfold bind. now rewrite H. Qed.

Lemma copy_field_run {V} (inj : value -> V) data name key v
      (s : gmap string V) l :
  subscript data key = Ok v ->
  copy_field inj data name key s l = (Ok tt, <[name := inj v]> s, l).
Proof. intros H. unfold copy_field, bind, lift, setattr, modify. now rewrite H. Qed.

(** Run the next step of a body whose outcome is known. *)
Ltac step_with H := rewrite (bind_step _ _ _ _ _ _ _ H); cbv beta.
Ltac step_copy H :=
  rewrite (bind_step _ _ _ _ _ _ _ (copy_field_run _ _ _ _ _ _ _ H)); cbv beta.

(** [Subnet.update_info] is not all-or-nothing: when the network
    address of the document does not parse, the error of [parse_ipaddr]
    comes out with the ten textual attributes already replaced by those
    of the document, while [is_ipv6], [numeric_net_ip], [numeric_gateway]
    and [numeric_range] are still the old ones. *)
Theorem Subnet_update_info_partial :
  forall (E : env) (doc data net_ip : value) (o : Subnet) (l : log) (e : exn),
    is_None doc = false ->
    subscript doc "subnet" = Ok data ->
    (forall attr key, In (attr, key) Subnet_fields ->
                      exists v, subscript data key = Ok v) ->
    subscript data "ip" = Ok net_ip ->
    parse_ipaddr E net_ip VNone = Raise e ->
    exists o',
      Subnet_update_info E doc o l = (Raise e, o', l) /\
      (forall attr key, In (attr, key) Subnet_fields ->
                        exists v, subscript data key = Ok v /\
                                  o' !! attr = Some v) /\
      (forall k, In k ["is_ipv6"; "numeric_net_ip"; "numeric_gateway";
                       "numeric_range"] ->
                 o' !! k = o !! k).
Proof.
  intros E doc data net_ip o l e Hdoc Hdata Hall Hip Hparse.
  assert (Hk : forall attr key, In (attr, key) Subnet_fields ->
                                exists v, subscript data key = Ok v)
    by exact Hall.
  unfold Subnet_fields in Hk.
  destruct (Hk "mask" "mask") as [v1 H1]; [simpl; tauto|].
  destruct (Hk "gateway" "gateway") as [v2 H2]; [simpl; tauto|].
  destruct (Hk "server_ip" "server_ip") as [v3 H3]; [simpl; tauto|].
  destruct (Hk "failover" "failover") as [v4 H4]; [simpl; tauto|].
  destruct (Hk "locked" "locked") as [v5 H5]; [simpl; tauto|].
  destruct (Hk "traffic_warnings" "traffic_warnings") as [v6 H6];
    [simpl; tauto|].
  destruct (Hk "traffic_hourly" "traffic_hourly") as [v7 H7]; [simpl; tauto|].
  destruct (Hk "traffic_daily" "traffic_daily") as [v8 H8]; [simpl; tauto|].
  destruct (Hk "traffic_monthly" "traffic_monthly") as [v9 H9];
    [simpl; tauto|].
  clear Hk. eexists. split; [|split].
  - unfold Subnet_update_info. rewrite Hdoc. cbv beta iota.
    rewrite bind_step with (a := doc) (s' := o) (l' := l) by reflexivity.
    rewrite bind_step with (a := data) (s' := o) (l' := l)
      by (unfold lift; now rewrite Hdata).
    step_copy Hip. step_copy H1. step_copy H2. step_copy H3. step_copy H4.
    step_copy H5. step_copy H6. step_copy H7. step_copy H8. step_copy H9.
    erewrite bind_step by (unfold getattr; now simplify_map_eq).
    cbv beta. apply bind_fail. unfold lift. now rewrite Hparse.
  - intros attr key Hin. unfold Subnet_fields in Hin. simpl in Hin.
    repeat (destruct Hin as [Hin|Hin];
            [inversion Hin; subst attr key;
             eexists; split; [eassumption|now simplify_map_eq]|]).
    contradiction.
  - intros k Hin. simpl in Hin.
    repeat (destruct Hin as [<-|Hin]; [now simplify_map_eq|]).
    contradiction.
Qed.

(** [Subnet.get_ip] never gets as far as the transport: for every
    address, inside the range or not, the membership test it starts with
    raises [AttributeError]; no request is sent, the subnet is unchanged
    and neither an [IpAddress] nor [None] is returned. *)
Theorem get_ip_never_fetches :
  forall (E : env) (addr : value) (s : Subnet) (l : log),
    Subnet_get_ip E addr s l = (Raise (AttributeError "parse_ipaddr"), s, l).
Proof. intros E addr s l. destruct addr; reflexivity. Qed.

(** ** IpManager and SubnetManager *)

Lemma IpAddress_update_info_ip E doc (o o' : IpAddress) l l' :
  o !! "subnet_ip" = Some VNone ->
  is_None doc = false ->
  IpAddress_update_info E doc o l = (Ok tt, o', l') ->
  exists data v, subscript doc "ip" = Ok data /\
                 subscript data "ip" = Ok v /\
                 o' !! "ip" = Some v.
Proof.
  intros Hsip Hdoc Hrun. unfold IpAddress_update_info in Hrun.
  apply bind_ok_inv in Hrun. destruct Hrun as (sip & o1 & l1 & Hget & Hrun).
  apply getattr_ok_inv in Hget. destruct Hget as (Hget & -> & ->).
  rewrite Hsip in Hget. inversion Hget; subst sip. clear Hget.
  rewrite Hdoc in Hrun. cbn [is_None negb] in Hrun.
  inv_run Hrun.
  eexists _, _. split; [eassumption|]. split; [eassumption|].
  now simplify_map_eq.
Qed.

Lemma IpAddress_init_owned E {S} entry (st : S) :
  exists r,
    (forall l, IpAddress_init E entry VNone st l = (r, st, l)) /\
    (forall o : IpAddress,
        r = Ok o ->
        exists data v, subscript entry "ip" = Ok data /\
                       subscript data "ip" = Ok v /\
                       o !! "ip" = Some v).
Proof.
  destruct (is_None entry) eqn:Hn.
  - destruct entry; try discriminate.
    exists (Raise (AttributeError "ip")). split; [reflexivity|discriminate].
  - destruct (IpAddress_update_info_silent E entry Hn
                (<["subnet_ip" := VNone]> ∅)) as (r & o1 & Hrun).
    destruct r as [[]|e].
    + exists (Ok (<["_rdns" := VNone]> o1)). split.
      * intros l. unfold IpAddress_init, construct, bind, setattr, modify.
        now rewrite Hrun.
      * intros o Ho. inversion Ho; subst o.
        destruct (IpAddress_update_info_ip E entry _ o1 [] []
                    (lookup_insert_eq _ _ _) Hn (Hrun []))
          as (data & v & Hdata & Hv & Hip).
        exists data, v. repeat split; try assumption.
        now rewrite lookup_insert_ne.
    + exists (Raise e). split; [|discriminate].
      intros l. unfold IpAddress_init, construct, bind, setattr, modify.
      now rewrite Hrun.
Qed.

Lemma Subnet_init_any E {S} entry (st : S) :
  exists r,
    (forall l, Subnet_init E entry st l = (r, st, l)) /\
    (forall o : Subnet,
        r = Ok o ->
        (exists data v, subscript entry "subnet" = Ok data /\
                        subscript data "ip" = Ok v /\
                        o !! "net_ip" = Some v) /\
        Subnet_consistent E o).
Proof.
  destruct (is_None entry) eqn:Hn.
  - destruct entry; try discriminate.
    exists (Raise (AttributeError "net_ip")). split; [reflexivity|discriminate].
  - destruct (Subnet_update_info_silent E entry Hn ∅) as (r & o1 & Hrun).
    destruct r as [[]|e].
    + exists (Ok o1). split.
      * intros l. unfold Subnet_init, construct. now rewrite Hrun.
      * intros o Ho. inversion Ho; subst o.
        destruct (Subnet_update_info_ok_inv E entry ∅ o1 [] [] Hn (Hrun []))
          as ((data & Hdata & Hfields) & Hcons).
        destruct (Hfields "net_ip" "ip") as (v & Hv & Hip);
          [unfold Subnet_fields; simpl; tauto|].
        split; [|exact Hcons]. exists data, v. auto.
    + exists (Raise e). split; [|discriminate].
      intros l. unfold Subnet_init, construct. now rewrite Hrun.
Qed.

(** A comprehension over constructors that send nothing sends
    nothing, and its result lines up with its input. *)
Lemma for_each_quiet {S A B} (f : A -> M S B) (Q : A -> B -> Prop) :
  (forall x st, exists r, (forall l, f x st l = (r, st, l)) /\
                          (forall y, r = Ok y -> Q x y)) ->
  forall xs st,
    exists r, (forall l, for_each f xs st l = (r, st, l)) /\
              (forall ys, r = Ok ys -> Forall2 Q xs ys).
Proof.
  intros Hf xs. induction xs as [|x xs IH]; intros st.
  - exists (Ok []). split; [reflexivity|].
    intros ys H. inversion H. constructor.
  - destruct (Hf x st) as (r & Hrun & HQ). destruct r as [y|e].
    + destruct (IH st) as (rs & Hruns & HQs). destruct rs as [ys|e].
      * exists (Ok (y :: ys)). split.
        -- intros l. simpl. unfold bind. rewrite Hrun, Hruns. reflexivity.
        -- intros zs H. inversion H; subst. constructor; auto.
      * exists (Raise e). split; [|discriminate].
        intros l. simpl. unfold bind. rewrite Hrun, Hruns. reflexivity.
    + exists (Raise e). split; [|discriminate].
      intros l. simpl. unfold bind. now rewrite Hrun.
Qed.

(** Iteration over a manager sends exactly one request, the collection
    query, however many entries come back: the resource objects are built
    from the entries of the answer without further requests.  When
    iteration succeeds it yields one object per entry, in the order of
    the answer, each holding the address of its entry (and, for a
    subnet, numeric attributes that agree with it). *)
Theorem iteration_single_request :
  forall (E : env) (main_ip : value) (S : Type) (st : S) (l : log)
         (entries : list value),
    (conn E l (Get (IpQuery main_ip)) = Doc (VList entries) ->
     exists r,
       IpManager_iter E (mkIpManager main_ip) st l
       = (r, st, l ++ [Api (Get (IpQuery main_ip))]) /\
       forall objs,
         r = Ok objs ->
         Forall2 (fun entry (o : IpAddress) =>
                    exists data v, subscript entry "ip" = Ok data /\
                                   subscript data "ip" = Ok v /\
                                   o !! "ip" = Some v)
                 entries objs) /\
    (conn E l (Get (SubnetQuery main_ip)) = Doc (VList entries) ->
     exists r,
       SubnetManager_iter E (mkSubnetManager main_ip) st l
       = (r, st, l ++ [Api (Get (SubnetQuery main_ip))]) /\
       forall objs,
         r = Ok objs ->
         Forall2 (fun entry (o : Subnet) =>
                    (exists data v, subscript entry "subnet" = Ok data /\
                                    subscript data "ip" = Ok v /\
                                    o !! "net_ip" = Some v) /\
                    Subnet_consistent E o)
                 entries objs).
Proof.
  intros E main_ip S st l entries. split; intros Hc.
  - destruct (for_each_quiet (fun ip => IpAddress_init E ip VNone) _
                (fun x st => IpAddress_init_owned E x st) entries st)
      as (r & Hrun & HQ).
    exists r. split; [|exact HQ].
    unfold IpManager_iter, bind. rw Hc. unfold lift. cbn [py_iter].
    apply Hrun.
  - destruct (for_each_quiet (fun net => Subnet_init E net) _
                (fun x st => Subnet_init_any E x st) entries st)
      as (r & Hrun & HQ).
    exists r. split; [|exact HQ].
    unfold SubnetManager_iter, bind. rw Hc. unfold lift. cbn [py_iter].
    apply Hrun.
Qed.

(** [get] of a manager is one [Get] of the resource path and hands every
    error of the transport on: unlike iteration, a [RobotError] of any
    status, 404 included, reaches the caller as it is. *)
Theorem manager_get_propagates :
  forall (E : env) (main_ip id status : value) (S : Type) (st : S) (l : log),
    (conn E l (Get (IpPath id)) = Fail status ->
     IpManager_get E (mkIpManager main_ip) id st l
     = (Raise (RobotError status), st, l ++ [Api (Get (IpPath id))])) /\
    (conn E l (Get (SubnetPath id)) = Fail status ->
     SubnetManager_get E (mkSubnetManager main_ip) id st l
     = (Raise (RobotError status), st, l ++ [Api (Get (SubnetPath id))])).
Proof.
  intros E main_ip id status S st l. split; intros Hc.
  - unfold IpManager_get, bind, conn_get. now rw Hc.
  - unfold SubnetManager_get, bind, conn_get. now rw Hc.
Qed.

(** When the subnet collection fails with a [RobotError] whose status
    is not 404, iteration over the [SubnetManager] does not hand that
    error on: the handler leaves the local [result] unassigned, and the
    comprehension raises [UnboundLocalError] in its place. *)
Theorem subnet_iteration_masks_other_status :
  forall (E : env) (main_ip status : value) (S : Type) (st : S) (l : log),
    conn E l (Get (SubnetQuery main_ip)) = Fail status ->
    eq_int status 404 = false ->
    SubnetManager_iter E (mkSubnetManager main_ip) st l
    = (Raise (UnboundLocalError "result"), st,
       l ++ [Api (Get (SubnetQuery main_ip))]).
Proof.
  intros E main_ip status S st l Hc Hst.
  unfold SubnetManager_iter, bind. rw Hc. now rewrite Hst.
Qed.

(** Only [RobotError] is caught in iteration: any other exception of the
    transport leaves both managers as it is, after the one request. *)
Theorem iteration_passes_other_exceptions :
  forall (E : env) (main_ip : value) (name : string) (S : Type) (st : S)
         (l : log),
    (conn E l (Get (IpQuery main_ip)) = Broken name ->
     IpManager_iter E (mkIpManager main_ip) st l
     = (Raise (External name), st, l ++ [Api (Get (IpQuery main_ip))])) /\
    (conn E l (Get (SubnetQuery main_ip)) = Broken name ->
     SubnetManager_iter E (mkSubnetManager main_ip) st l
     = (Raise (External name), st, l ++ [Api (Get (SubnetQuery main_ip))])).
Proof.
  intros E main_ip name S st l. split; intros Hc.
  - unfold IpManager_iter, bind. now rw Hc.
  - unfold SubnetManager_iter, bind. now rw Hc.
Qed.

(** ** Server *)

Lemma Server_update_info_ok_inv E result (s s' : Server) l l' :
  Server_update_info E result s l = (Ok tt, s', l') ->
  exists doc data ip paid date,
    subscript doc "server" = Ok data /\
    (is_None result = false -> doc = result /\ l' = l) /\
    select_ip data = Ok ip /\
    (forall attr key, In (attr, key) Server_fields ->
                      exists v, subscript data key = Ok v /\
                                s' !! attr = Some (PData v)) /\
    subscript data "paid_until" = Ok paid /\
    strptime E paid "%Y-%m-%d" = Ok date /\
    s' !! "ip" = Some (PData ip) /\
    s' !! "paid_until" = Some (PData date) /\
    (forall k, ~ In k Server_data_attrs -> s' !! k = s !! k).
Proof.
  intros Hrun. unfold Server_update_info in Hrun.
  apply bind_ok_inv in Hrun. destruct Hrun as (doc & s0 & l0 & Hdoc & Hrun).
  assert (Hs0 : s0 = s /\ (is_None result = false -> doc = result /\ l0 = l)).
  { destruct (is_None result).
    - inv_run Hdoc. unfold conn_get in Hdoc. inversion Hdoc; subst.
      split; [reflexivity|discriminate].
    - apply ret_ok_inv in Hdoc. destruct Hdoc as (-> & -> & ->). auto. }
  destruct Hs0 as [-> Hsrc]. inv_run Hrun.
  eexists doc, _, _, _, _.
  split; [eassumption|]. split; [exact Hsrc|]. split; [eassumption|].
  split; [|split; [eassumption|split; [eassumption|split; [|split]]]].
  - intros attr key Hin. unfold Server_fields in Hin. simpl in Hin.
    repeat (destruct Hin as [Hin|Hin];
            [inversion Hin; subst attr key;
             eexists; split; [eassumption|now simplify_map_eq]|]).
    contradiction.
  - now simplify_map_eq.
  - now simplify_map_eq.
  - intros k Hk. unfold Server_data_attrs in Hk. other_attr Hk. reflexivity.
Qed.


(** A refresh never replaces the components of a [Server]: [rescue],
    [reset], [ips], [rdns], [_admin_account] and [logger] are the same
    objects after [update_info], with or without a document.  So the
    [IpManager] of a constructed server keeps asking for the address the
    server had when it was built, also after a refresh has stored another
    [ip]. *)
Theorem refresh_keeps_components :
  forall (E : env) (result : value) (s s' : Server) (l l' : log),
    Server_update_info E result s l = (Ok tt, s', l') ->
    (forall k, In k Server_components -> s' !! k = s !! k) /\
    (forall (S : Type) (st st0 : S) doc0 l0 l1,
        Server_init E doc0 st0 l0 = (Ok s, st, l1) ->
        exists ip0, s !! "ip" = Some (PData ip0) /\
                    s' !! "ips" = Some (PIpManager (mkIpManager ip0)) /\
                    s' !! "rdns" = Some (PReverseDNSManager ip0)).
Proof.
  intros E result s s' l l' Hrun.
  destruct (Server_update_info_ok_inv E result s s' l l' Hrun)
    as (doc' & data & ip & paid & date & _ & _ & _ & _ & _ & _ & _ & _ & Hframe).
  assert (Hcomp : forall k, In k Server_components -> s' !! k = s !! k).
  { intros k Hk. apply Hframe. unfold Server_components in Hk.
    unfold Server_data_attrs. simpl in *. intros Hin.
    repeat (destruct Hk as [<-|Hk];
            [repeat (destruct Hin as [Hin|Hin]; [discriminate|]);
             contradiction|]).
    contradiction. }
  split; [exact Hcomp|].
  intros S st st0 doc0 l0 l1 Hinit.
  destruct (Server_init_ok E st0 st doc0 l0 l1 s Hinit)
    as (s1 & ip0 & number & _ & Hip & _ & _ & Hs).
  exists ip0.
  assert (Hip' : s1 !! "ip" = Some (PData ip0)).
  { unfold data_attr in Hip. destruct (s1 !! "ip") as [[]|]; congruence. }
  rewrite !Hcomp by (unfold Server_components; simpl; tauto).
  subst s. split; [|split]; now simplify_map_eq.
Qed.

Lemma Server_refresh_one_get E (s : Server) l ip :
  data_attr s "ip" = Ok ip ->
  exists r s',
    Server_update_info E VNone s l = (r, s', l ++ [Api (Get (ServerPath ip))]).
Proof.
  intros Hip.
  assert (Hp : Server_path s = Some (ServerPath ip))
    by (unfold Server_path; now rewrite Hip).
  destruct (conn E l (Get (ServerPath ip))) as [d|st|n] eqn:Hc.
  - destruct (is_None d) eqn:Hd.
    + destruct d; try discriminate.
      unfold Server_update_info, bind, self, lift, conn_get, ret.
      cbn [is_None]. rw Hip. rw Hc. cbn [of_reply subscript]. eauto.
    + rewrite (Server_update_info_fetch E s l _ d Hp Hc Hd).
      destruct (Server_update_info_silent E d Hd s) as (r & s' & Hrun).
      exists r, s'. apply Hrun.
  - unfold Server_update_info, bind, self, lift, conn_get, ret.
    cbn [is_None]. rw Hip. rw Hc. cbn [of_reply]. eauto.
  - unfold Server_update_info, bind, self, lift, conn_get, ret.
    cbn [is_None]. rw Hip. rw Hc. cbn [of_reply]. eauto.
Qed.

(** A server without an address is not refused: when the document
    gives [None] for both [server_ip] and [server_ipv6_net],
    [update_info] stores [None] as [ip], and the next refresh without a
    document is sent all the same, once, to the server path built from
    [None]. *)
Theorem refresh_without_address :
  forall (E : env) (doc data : value) (s s1 : Server) (l l1 : log),
    is_None doc = false ->
    subscript doc "server" = Ok data ->
    subscript data "server_ip" = Ok VNone ->
    subscript data "server_ipv6_net" = Ok VNone ->
    Server_update_info E doc s l = (Ok tt, s1, l1) ->
    s1 !! "ip" = Some (PData VNone) /\
    forall l2,
      exists r s2,
        Server_update_info E VNone s1 l2
        = (r, s2, l2 ++ [Api (Get (ServerPath VNone))]).
Proof.
  intros E doc data s s1 l l1 Hdoc Hdata Hip Hnet Hrun.
  destruct (Server_update_info_ok_inv E doc s s1 l l1 Hrun)
    as (doc' & data' & ip & paid & date & Hdata' & Hsrc & Hsel & _ & _ & _
        & Hattr & _).
  destruct (Hsrc Hdoc) as [-> _]. rewrite Hdata in Hdata'.
  inversion Hdata'; subst data'.
  unfold select_ip in Hsel. rewrite Hip, Hnet in Hsel. simpl in Hsel.
  inversion Hsel; subst ip. split; [exact Hattr|].
  intros l2. apply Server_refresh_one_get. unfold data_attr. now rewrite Hattr.
Qed.


(** [Server.update_info] is not all-or-nothing either: when
    [paid_until] does not parse as a date, the error of [strptime] comes
    out with [ip] and the eight fields before it already replaced, while
    [paid_until] and [linked_storagebox] are still the old ones. *)
Theorem Server_update_info_bad_date :
  forall (E : env) (doc data ip paid : value) (s : Server) (l : log) (e : exn),
    is_None doc = false ->
    subscript doc "server" = Ok data ->
    select_ip data = Ok ip ->
    (forall attr key, In (attr, key) Server_fields ->
                      exists v, subscript data key = Ok v) ->
    subscript data "paid_until" = Ok paid ->
    strptime E paid "%Y-%m-%d" = Raise e ->
    exists s',
      Server_update_info E doc s l = (Raise e, s', l) /\
      s' !! "ip" = Some (PData ip) /\
      (forall attr key, In (attr, key) Server_fields ->
                        attr <> "linked_storagebox" ->
                        exists v, subscript data key = Ok v /\
                                  s' !! attr = Some (PData v)) /\
      s' !! "paid_until" = s !! "paid_until" /\
      s' !! "linked_storagebox" = s !! "linked_storagebox".
Proof.
  intros E doc data ip paid s l e Hdoc Hdata Hsel Hall Hpaid Hdate.
  assert (Hk : forall attr key, In (attr, key) Server_fields ->
                                exists v, subscript data key = Ok v)
    by exact Hall.
  unfold Server_fields in Hk.
  destruct (Hk "number" "server_number") as [v1 H1]; [simpl; tauto|].
  destruct (Hk "name" "server_name") as [v2 H2]; [simpl; tauto|].
  destruct (Hk "product" "product") as [v3 H3]; [simpl; tauto|].
  destruct (Hk "datacenter" "dc") as [v4 H4]; [simpl; tauto|].
  destruct (Hk "traffic" "traffic") as [v5 H5]; [simpl; tauto|].
  destruct (Hk "status" "status") as [v6 H6]; [simpl; tauto|].
  destruct (Hk "subnets" "subnet") as [v7 H7]; [simpl; tauto|].
  destruct (Hk "cancelled" "cancelled") as [v8 H8]; [simpl; tauto|].
  clear Hk. eexists. split; [|split; [|split; [|split]]].
  - unfold Server_update_info. rewrite Hdoc. cbv beta iota.
    rewrite bind_step with (a := doc) (s' := s) (l' := l) by reflexivity.
    rewrite bind_step with (a := data) (s' := s) (l' := l)
      by (unfold lift; now rewrite Hdata).
    rewrite bind_step with (a := ip) (s' := s) (l' := l)
      by (unfold lift; now rewrite Hsel).
    erewrite bind_step by reflexivity. cbv beta.
    step_copy H1. step_copy H2. step_copy H3. step_copy H4. step_copy H5.
    step_copy H6. step_copy H7. step_copy H8.
    erewrite bind_step by (unfold lift; now rewrite Hpaid).
    cbv beta. apply bind_fail. unfold lift. now rewrite Hdate.
  - now simplify_map_eq.
  - intros attr key Hin Hne. unfold Server_fields in Hin. simpl in Hin.
    repeat (destruct Hin as [Hin|Hin];
            [inversion Hin; subst attr key;
             try (eexists; split; [eassumption|now simplify_map_eq]);
             now contradiction Hne|]).
    contradiction.
  - now simplify_map_eq.
  - now simplify_map_eq.
Qed.

Ltac in_fields :=
  let H := fresh in
  intros ? ? H; simpl in H;
  repeat (destruct H as [H|H]; [inversion H; subst; eexists; reflexivity|]);
  contradiction.

Lemma Subnet_update_info_consistent_witness :
  let run :=
    Subnet_update_info server_env (subnet_doc "10.0.0.0" 24 "10.0.0.1") ∅ [] in
  run = (Ok tt, snd (fst run), []) /\
  Subnet_consistent server_env (snd (fst run)).
Proof.
  intros run.
  assert (Hrun : run = (Ok tt, snd (fst run), []))
    by (apply run_ok; vm_compute; reflexivity).
  split; [exact Hrun|].
  exact (proj1 (proj2 (Subnet_update_info_consistent server_env
                         (subnet_doc "10.0.0.0" 24 "10.0.0.1") ∅
                         (snd (fst run)) [] [] eq_refl Hrun))).
Defined.

Lemma Subnet_update_info_partial_witness :
  exists o' : Subnet,
    Subnet_update_info server_env bad_subnet_doc the_subnet []
    = (Raise (External "AddressFormatError"), o', []) /\
    o' !! "net_ip" = Some (VStr "10.0.0") /\
    o' !! "numeric_net_ip" = Some (VInt 167772160).
Proof.
  destruct (Subnet_update_info_partial server_env bad_subnet_doc
              (VDict [("ip", VStr "10.0.0"); ("mask", VInt 24);
                      ("gateway", VStr "10.0.0.1");
                      ("server_ip", VStr "192.0.2.10");
                      ("failover", VBool false); ("locked", VBool false);
                      ("traffic_warnings", VBool false);
                      ("traffic_hourly", VInt 100);
                      ("traffic_daily", VInt 500);
                      ("traffic_monthly", VInt 2)])
              (VStr "10.0.0") the_subnet []
              (External "AddressFormatError") eq_refl eq_refl)
    as (o' & Hrun & Hfields & Hold).
  - unfold Subnet_fields. in_fields.
  - reflexivity.
  - reflexivity.
  - exists o'. split; [exact Hrun|]. split.
    + destruct (Hfields "net_ip" "ip") as (v & Hv & Hattr);
        [unfold Subnet_fields; simpl; tauto|].
      inversion Hv; subst v. exact Hattr.
    + rewrite Hold by (simpl; tauto). reflexivity.
Defined.

Lemma iteration_single_request_witness :
  exists r,
    IpManager_iter server_env (mkIpManager (VStr "192.0.2.10")) tt []
    = (r, tt, [] ++ [Api (Get (IpQuery (VStr "192.0.2.10")))]) /\
    forall objs, r = Ok objs -> length objs = 2%nat.
Proof.
  destruct (iteration_single_request server_env (VStr "192.0.2.10") unit tt []
              [ip_doc "192.0.2.10"; ip_doc "192.0.2.77"]) as [Hip _].
  destruct (Hip eq_refl) as (r & Hrun & Hobjs).
  exists r. split; [exact Hrun|].
  intros objs Hr. apply Hobjs in Hr. apply Forall2_length in Hr.
  now rewrite <- Hr.
Defined.

Lemma manager_get_propagates_witness :
  IpManager_get (failing_env 404) (mkIpManager (VStr "192.0.2.10"))
    (VStr "192.0.2.11") tt []
  = (Raise (RobotError (VInt 404)), tt,
     [] ++ [Api (Get (IpPath (VStr "192.0.2.11")))]).
Proof.
  destruct (manager_get_propagates (failing_env 404) (VStr "192.0.2.10")
              (VStr "192.0.2.11") (VInt 404) unit tt []) as [H _].
  exact (H eq_refl).
Defined.

Lemma subnet_iteration_masks_other_status_witness :
  SubnetManager_iter (failing_env 503) (mkSubnetManager (VStr "192.0.2.10"))
    tt []
  = (Raise (UnboundLocalError "result"), tt,
     [] ++ [Api (Get (SubnetQuery (VStr "192.0.2.10")))]).
Proof.
  apply (subnet_iteration_masks_other_status (failing_env 503)
           (VStr "192.0.2.10") (VInt 503)); reflexivity.
Defined.

Lemma iteration_passes_other_exceptions_witness :
  IpManager_iter (example_env no_conn no_scraper)
    (mkIpManager (VStr "192.0.2.10")) tt []
  = (Raise (External "ConnectError"), tt,
     [] ++ [Api (Get (IpQuery (VStr "192.0.2.10")))]).
Proof.
  destruct (iteration_passes_other_exceptions (example_env no_conn no_scraper)
              (VStr "192.0.2.10") "ConnectError" unit tt []) as [H _].
  exact (H eq_refl).
Defined.


Lemma refresh_keeps_components_witness :
  let run :=
    Server_update_info server_env (server_doc_paid "2027-01-31") the_server [] in
  run = (Ok tt, snd (fst run), []) /\
  snd (fst run) !! "ips" = Some (PIpManager (mkIpManager (VStr "192.0.2.10"))).
Proof.
  intros run.
  assert (Hrun : run = (Ok tt, snd (fst run), []))
    by (apply run_ok; vm_compute; reflexivity).
  split; [exact Hrun|].
  destruct (refresh_keeps_components server_env (server_doc_paid "2027-01-31")
              the_server (snd (fst run)) [] [] Hrun) as [Hcomp _].
  rewrite Hcomp by (unfold Server_components; simpl; tauto).
  reflexivity.
Defined.

Lemma refresh_without_address_witness :
  let run :=
    Server_update_info server_env (server_doc VNone VNone) the_server [] in
  run = (Ok tt, snd (fst run), []) /\
  snd (fst run) !! "ip" = Some (PData VNone) /\
  exists r s2,
    Server_update_info server_env VNone (snd (fst run)) []
    = (r, s2, [] ++ [Api (Get (ServerPath VNone))]).
Proof.
  intros run.
  assert (Hrun : run = (Ok tt, snd (fst run), []))
    by (apply run_ok; vm_compute; reflexivity).
  split; [exact Hrun|].
  destruct (refresh_without_address server_env (server_doc VNone VNone) _
              the_server (snd (fst run)) [] [] eq_refl eq_refl eq_refl eq_refl
              Hrun) as [Hip Hnext].
  split; [exact Hip|]. apply Hnext.
Defined.


Lemma Server_update_info_bad_date_witness :
  exists s' : Server,
    Server_update_info server_env (server_doc_paid "2027-02-30") the_server []
    = (Raise ValueError, s', []) /\
    s' !! "ip" = Some (PData (VStr "192.0.2.99")) /\
    s' !! "paid_until" = Some (PData (VTuple [VInt 2026; VInt 11; VInt 30])) /\
    s' !! "linked_storagebox" = Some (PData VNone).
Proof.
  destruct (Server_update_info_bad_date server_env
              (server_doc_paid "2027-02-30")
              (VDict [("server_ip", VStr "192.0.2.99");
                      ("server_ipv6_net", VNone);
                      ("server_number", VInt 321);
                      ("server_name", VStr "renamed");
                      ("product", VStr "EQ 8"); ("dc", VStr "FSN1-DC1");
                      ("traffic", VStr "5 TB"); ("status", VStr "ready");
                      ("subnet", VNone); ("cancelled", VBool true);
                      ("paid_until", VStr "2027-02-30");
                      ("linked_storagebox", VInt 7)])
              (VStr "192.0.2.99") (VStr "2027-02-30") the_server []
              ValueError eq_refl eq_refl eq_refl)
    as (s' & Hrun & Hip & _ & Hpaid & Hbox).
  - unfold Server_fields. in_fields.
  - reflexivity.
  - reflexivity.
  - exists s'. split; [exact Hrun|]. split; [exact Hip|].
    rewrite Hpaid, Hbox. split; reflexivity.
Defined.

(** ** What the patterns capture *)

(** The login that [login_re] captures is never empty and holds no
    ["<"]. *)
Lemma login_re_captures text m :
  search login_re text = Some m ->
  group1 text m <> EmptyString /\ all_chars not_lt (group1 text m) = true.
Proof.
  unfold search. intros H.
  destruct (search_from_inv _ _ _ _ H) as (a0 & s0 & Htext & Hstart & Hm).
  unfold login_re in Hm.
  apply match_lit_inv in Hm. destruct Hm as (s1 & Hs0 & Hm).
  apply match_rep_inv in Hm. destruct Hm as (a1 & s2 & Hs1 & _ & _ & Hm).
  apply match_lit_inv in Hm. destruct Hm as (s3 & Hs2 & Hm).
  rewrite match_gopen in Hm.
  apply match_rep_inv in Hm. destruct Hm as (grp & s4 & Hs3 & Hall & Hlen & Hm).
  rewrite match_gclose in Hm. cbn [match_here fst snd] in Hm.
  set (A := String.append (quoted "label_req") ">Login") in *.
  set (B := String.append (quoted "element") ">") in *.
  set (pre := String.append a0 (String.append A (String.append a1 B))).
  assert (Hpos : (m_start m + String.length A + String.length a1
                  + String.length B)%nat = String.length pre).
  { unfold pre. rewrite !length_append. rewrite Hstart. lia. }
  rewrite Hpos in Hm.
  assert (Hgs : g_start m = String.length pre) by congruence.
  assert (Hge : g_end m = (String.length pre + String.length grp)%nat)
    by congruence.
  assert (Hwhole : text = String.append pre (String.append grp s4)).
  { rewrite Htext, Hs0, Hs1, Hs2, Hs3. unfold pre.
    now rewrite !append_assoc. }
  unfold group1. rewrite Hgs, Hge.
  replace (String.length pre + String.length grp - String.length pre)%nat
    with (String.length grp) by lia.
  rewrite Hwhole, substring_app_middle. split; [|exact Hall].
  intros ->. simpl in Hlen. lia.
Qed.

(** ** AdminAccount, continued *)

(** When discovery finds an account, the [login] it stores is a text
    that is not empty and holds no ["<"]: the pattern captures the run of
    characters up to the next tag. *)
Theorem discovered_login_well_formed :
  forall (E : env) (a a' : AdminAccount) (l l' : log),
    AdminAccount_update_info E a l = (Ok tt, a', l') ->
    (exists_ a' = true ->
     exists name, login a' = VStr name /\ name <> EmptyString /\
                  all_chars not_lt name = true) /\
    (exists_ a' = false -> login a' = login a).
Proof.
  intros E a a' l l'.
  unfold AdminAccount_update_info, bind, self, scraper_do_login,
    scraper_do_request, assert, ret, raise, modify.
  destruct (scraper_login E l) as [e0|]; [discriminate|].
  destruct (scraper_request E _ _) as [page|e0]; [|discriminate].
  destruct (status page =? 200); [|discriminate].
  destruct (search login_re (text page)) as [m|] eqn:Hm;
    intros H; inversion H; subst; cbn.
  - split; [|discriminate]. intros _.
    destruct (login_re_captures _ _ Hm) as [Hne Hall].
    eexists. split; [reflexivity|]. split; assumption.
  - split; [discriminate|reflexivity].
Qed.

Lemma discovered_login_well_formed_witness :
  let run := AdminAccount_update_info
               (admin_env (Response 200 success_page) (Response 200 account_page))
               missing_account [] in
  exists name, login (snd (fst run)) = VStr name /\ name <> EmptyString /\
               all_chars not_lt name = true.
Proof.
  intros run.
  assert (Hrun : run = (Ok tt, snd (fst run), snd run))
    by (apply run_ok; vm_compute; reflexivity).
  apply (proj1 (discovered_login_well_formed _ missing_account _ [] _ Hrun)).
  vm_compute. reflexivity.
Defined.

(** The reasons that a failed [create] lists in its message, one per
    [<li>] entry of the error list, are texts without ["<"]: an entry
    that holds markup of its own is not listed. *)
Theorem error_reasons_tag_free :
  forall ul : string,
    Forall (fun reason => all_chars not_lt reason = true)
           (map (group1 ul) (finditer li_re ul)).
Proof.
  intros ul.
  assert (H : forall ms, (forall m, In m ms -> In m (finditer li_re ul)) ->
                         Forall (fun reason => all_chars not_lt reason = true)
                                (map (group1 ul) ms)).
  { induction ms as [|m ms IH]; intros Hsub; simpl; constructor.
    - apply li_re_captures, Hsub. now left.
    - apply IH. intros m' Hm'. apply Hsub. now right. }
  apply H. auto.
Qed.

(** ** SSHAskPassHelper *)

Lemma escape_keeps_ascii (p : string) :
  all_chars SSHAskPass.is_ascii (SSHAskPass.replace_char "'" "'\''" p)
  = all_chars SSHAskPass.is_ascii p.
Proof.
  induction p as [|c p IH]; [reflexivity|].
  cbn [SSHAskPass.replace_char]. destruct (Ascii.eqb c "'") eqn:Hc.
  - apply Ascii.eqb_eq in Hc. subst c. rewrite all_chars_app, IH. reflexivity.
  - cbn [all_chars]. now rewrite IH.
Qed.

Lemma askpass_text_ascii (p : string) :
  all_chars SSHAskPass.is_ascii
    (SSHAskPass.askpass_text (SSHAskPass.replace_char "'" "'\''" p))
  = all_chars SSHAskPass.is_ascii p.
Proof.
  unfold SSHAskPass.askpass_text. rewrite !all_chars_app, escape_keeps_ascii.
  change (all_chars SSHAskPass.is_ascii SSHAskPass.shebang) with true.
  change (all_chars SSHAskPass.is_ascii "echo -n '") with true.
  change (all_chars SSHAskPass.is_ascii "'") with true.
  cbn [andb]. now rewrite andb_true_r.
Qed.

Lemma sh_word_escape (p : string) : forall rest : string,
  SSHAskPass.sh_word true
    (String.append (SSHAskPass.replace_char "'" "'\''" p) rest)
  = option_map (String.append p) (SSHAskPass.sh_word true rest).
Proof.
  induction p as [|c p IH]; intros rest.
  - rewrite append_nil. now destruct (SSHAskPass.sh_word true rest).
  - cbn [SSHAskPass.replace_char]. destruct (Ascii.eqb c "'") eqn:Hc.
    + apply Ascii.eqb_eq in Hc. subst c.
      rewrite append_assoc. rewrite !append_cons, append_nil.
      cbn [SSHAskPass.sh_word Ascii.eqb Bool.eqb andb].
      rewrite IH. now destruct (SSHAskPass.sh_word true rest).
    + rewrite append_cons. cbn [SSHAskPass.sh_word]. rewrite Hc, IH.
      now destruct (SSHAskPass.sh_word true rest).
Qed.

Lemma sh_word_quoted (p : string) :
  SSHAskPass.sh_word false
    (String "'" (String.append (SSHAskPass.replace_char "'" "'\''" p) "'"))
  = Some p.
Proof.
  cbn [SSHAskPass.sh_word Ascii.eqb Bool.eqb andb].
  rewrite sh_word_escape. cbn. now rewrite append_empty.
Qed.

Lemma enter_ok_inv O v t l s w' l' :
  SSHAskPass.enter O (SSHAskPass.mkWorld (SSHAskPass.init v) t) l
  = (Ok s, w', l') ->
  exists p d fd,
    v = VStr p /\ all_chars SSHAskPass.is_ascii p = true /\
    SSHAskPass.mkdtemp O t = Ok d /\
    s = SSHAskPass.path_join d "askpass" /\
    SSHAskPass.os_open O (t ++ [SSHAskPass.Mkdtemp]) s
      SSHAskPass.askpass_flags 448 = Ok fd /\
    w' = SSHAskPass.mkWorld
           (SSHAskPass.mkHelper v (VStr d) (VStr s))
           (t ++ [SSHAskPass.Mkdtemp;
                  SSHAskPass.OsOpen s SSHAskPass.askpass_flags 448;
                  SSHAskPass.OsWrite fd
                    (SSHAskPass.askpass_text
                       (SSHAskPass.replace_char "'" "'\''" p));
                  SSHAskPass.OsClose fd]) /\
    l' = l.
Proof.
  unfold SSHAskPass.enter, bind, SSHAskPass.os_do, modify, self, lift, ret,
    SSHAskPass.set_tempdir, SSHAskPass.set_script, SSHAskPass.init.
  cbn [SSHAskPass.calls SSHAskPass.this SSHAskPass.passwd SSHAskPass.tempdir
       SSHAskPass.script].
  destruct (SSHAskPass.mkdtemp O t) as [d|e]; [|discriminate].
  destruct (SSHAskPass.os_open O _ _ _ _) as [fd|e] eqn:Hopen; [|discriminate].
  destruct v as [| | |p| | |]; try discriminate.
  cbn [SSHAskPass.escape]. unfold SSHAskPass.encode_ascii.
  rewrite askpass_text_ascii.
  destruct (all_chars SSHAskPass.is_ascii p) eqn:Hascii; [|discriminate].
  destruct (SSHAskPass.os_write O _ _ _) as [n|e]; [|discriminate].
  destruct (SSHAskPass.os_close O _ _) as [[]|e]; [|discriminate].
  intros H. inversion H; subst. exists p, d, fd.
  repeat split; auto. now rewrite <- !app_assoc.
Qed.

(** When [__enter__] returns, the password was a text of ASCII
    characters, the helper holds the directory and the path of the
    script, and exactly four calls were made: [mkdtemp], [os.open] of
    [askpass] in the new directory (write-only, created, no symbolic
    link followed, mode [0o700]), one [os.write] and [os.close].  What
    was written is the line [#!/bin/sh] followed by [echo -n] and one
    word, and that word, read by the quoting rules of the shell, is the
    password itself: quotes in the password do not end it. *)
Theorem askpass_script_yields_password :
  forall (O : SSHAskPass.os_env) (v : value) (t : list SSHAskPass.os_call)
         (l : log) (s : string) (w' : SSHAskPass.world) (l' : log),
    SSHAskPass.enter O (SSHAskPass.mkWorld (SSHAskPass.init v) t) l
    = (Ok s, w', l') ->
    exists p d fd word,
      v = VStr p /\ all_chars SSHAskPass.is_ascii p = true /\
      SSHAskPass.mkdtemp O t = Ok d /\
      s = SSHAskPass.path_join d "askpass" /\
      SSHAskPass.this w' = SSHAskPass.mkHelper v (VStr d) (VStr s) /\
      SSHAskPass.calls w'
      = t ++ [SSHAskPass.Mkdtemp;
              SSHAskPass.OsOpen s [SSHAskPass.O_WRONLY; SSHAskPass.O_CREAT;
                                   SSHAskPass.O_NOFOLLOW] 448;
              SSHAskPass.OsWrite fd
                (String.append SSHAskPass.shebang
                   (String.append "echo -n " word));
              SSHAskPass.OsClose fd] /\
      SSHAskPass.sh_word false word = Some p /\
      l' = l.
Proof.
  intros O v t l s w' l' H.
  destruct (enter_ok_inv _ _ _ _ _ _ _ H)
    as (p & d & fd & Hv & Hascii & Hd & Hs & _ & Hw & Hl).
  exists p, d, fd,
    (String "'" (String.append (SSHAskPass.replace_char "'" "'\''" p) "'")).
  subst w'. cbn [SSHAskPass.this SSHAskPass.calls].
  repeat split; auto. apply sh_word_quoted.
Qed.

Lemma askpass_script_yields_password_witness :
  let run := SSHAskPass.enter SSHAskPass.plain_os
               (SSHAskPass.mkWorld (SSHAskPass.init (VStr "it's")) []) [] in
  exists p d fd word,
    VStr "it's" = VStr p /\ all_chars SSHAskPass.is_ascii p = true /\
    SSHAskPass.mkdtemp SSHAskPass.plain_os [] = Ok d /\
    fst (fst run) = Ok (SSHAskPass.path_join d "askpass") /\
    SSHAskPass.calls (snd (fst run))
    = [] ++ [SSHAskPass.Mkdtemp;
             SSHAskPass.OsOpen (SSHAskPass.path_join d "askpass")
               [SSHAskPass.O_WRONLY; SSHAskPass.O_CREAT;
                SSHAskPass.O_NOFOLLOW] 448;
             SSHAskPass.OsWrite fd
               (String.append SSHAskPass.shebang
                  (String.append "echo -n " word));
             SSHAskPass.OsClose fd] /\
    SSHAskPass.sh_word false word = Some p.
Proof.
  intros run.
  destruct (askpass_script_yields_password SSHAskPass.plain_os (VStr "it's") []
              [] "/tmp/tmpk3v9x2ad/askpass" (snd (fst run)) [])
    as (p & d & fd & word & Hv & Hascii & Hd & Hs & _ & Hcalls & Hword & _).
  - reflexivity.
  - exists p, d, fd, word. rewrite <- Hs.
    repeat split; auto; vm_compute; reflexivity.
Defined.

(** A password that [__enter__] cannot write leaves everything behind.
    When the password is not a text, or holds a character outside
    ASCII, and the system has made the directory and opened the file,
    [__enter__] raises ([AttributeError] for the missing [replace],
    [UnicodeEncodeError] from the encoding) after those two calls: the
    file is neither written nor closed, and as the [with] statement
    does not run [__exit__] for a failed [__enter__], neither the body
    nor [os.unlink] nor [os.rmdir] is reached. *)
Theorem unwritable_password_leaks :
  forall (O : SSHAskPass.os_env) (v : value) (A : Type)
         (body : string -> M SSHAskPass.world A)
         (w : SSHAskPass.world) (l : log) (d : string) (fd : Z),
    let s := SSHAskPass.path_join d "askpass" in
    let t := SSHAskPass.calls w in
    SSHAskPass.mkdtemp O t = Ok d ->
    SSHAskPass.os_open O (t ++ [SSHAskPass.Mkdtemp]) s
      SSHAskPass.askpass_flags 448 = Ok fd ->
    (forall p, v = VStr p -> all_chars SSHAskPass.is_ascii p = false) ->
    exists e,
      SSHAskPass.with_helper O v body w l
      = (Raise e,
         SSHAskPass.mkWorld (SSHAskPass.mkHelper v (VStr d) (VStr s))
           (t ++ [SSHAskPass.Mkdtemp;
                  SSHAskPass.OsOpen s SSHAskPass.askpass_flags 448]),
         l) /\
      e = match v with
          | VStr _ => External "UnicodeEncodeError"
          | _ => AttributeError "replace"
          end.
Proof.
  intros O v A body w l d fd s t Hd Hopen Hbad.
  unfold SSHAskPass.with_helper, SSHAskPass.enter, bind, SSHAskPass.os_do,
    modify, self, lift, ret, SSHAskPass.set_tempdir, SSHAskPass.set_script,
    SSHAskPass.init.
  cbn [SSHAskPass.calls SSHAskPass.this SSHAskPass.passwd SSHAskPass.tempdir
       SSHAskPass.script].
  fold t. rewrite Hd. cbv beta iota. fold s. rewrite Hopen. cbv beta iota.
  destruct v as [| | |p| | |]; cbn [SSHAskPass.escape]; cbv beta iota;
    try (eexists; split; [rewrite <- app_assoc; reflexivity|reflexivity]).
  unfold SSHAskPass.encode_ascii. rewrite askpass_text_ascii.
  rewrite (Hbad p eq_refl). cbv beta iota.
  eexists; split; [rewrite <- app_assoc; reflexivity|reflexivity].
Qed.

Lemma unwritable_password_leaks_witness :
  SSHAskPass.with_helper SSHAskPass.plain_os VNone (fun _ => ret tt)
    (SSHAskPass.mkWorld (SSHAskPass.init VNone) []) []
  = (Raise (AttributeError "replace"),
     SSHAskPass.mkWorld
       (SSHAskPass.mkHelper VNone (VStr "/tmp/tmpk3v9x2ad")
          (VStr "/tmp/tmpk3v9x2ad/askpass"))
       [SSHAskPass.Mkdtemp;
        SSHAskPass.OsOpen "/tmp/tmpk3v9x2ad/askpass" SSHAskPass.askpass_flags 448],
     []).
Proof.
  destruct (unwritable_password_leaks SSHAskPass.plain_os VNone unit
              (fun _ => ret tt)
              (SSHAskPass.mkWorld (SSHAskPass.init VNone) []) []
              "/tmp/tmpk3v9x2ad" 3 eq_refl eq_refl)
    as (e & Hrun & He).
  - intros p Hp. discriminate Hp.
  - rewrite Hrun, He. reflexivity.
Defined.

(** The [with] statement removes what [__enter__] made, and nothing
    else decides the outcome: when [__enter__] has returned and the
    body leaves the helper as it is, [__exit__] unlinks the script and
    then removes the directory, whether the body returned or raised,
    and the statement ends as the body did.  When [os.unlink] raises,
    that exception replaces the outcome of the body and [os.rmdir] is
    not called. *)
Theorem with_removes_script_and_directory :
  forall (O : SSHAskPass.os_env) (v : value) (A : Type)
         (body : string -> M SSHAskPass.world A)
         (w : SSHAskPass.world) (l : log) (s : string)
         (w1 : SSHAskPass.world) (l1 : log) (r : outcome A)
         (w2 : SSHAskPass.world) (l2 : log) (d : string),
    SSHAskPass.enter O
      (SSHAskPass.mkWorld (SSHAskPass.init v) (SSHAskPass.calls w)) l
    = (Ok s, w1, l1) ->
    SSHAskPass.mkdtemp O (SSHAskPass.calls w) = Ok d ->
    body s w1 l1 = (r, w2, l2) ->
    SSHAskPass.this w2 = SSHAskPass.this w1 ->
    let t2 := SSHAskPass.calls w2 in
    (SSHAskPass.os_unlink O t2 s = Ok tt ->
     forall q,
       SSHAskPass.os_rmdir O (t2 ++ [SSHAskPass.OsUnlink s]) d = q ->
       SSHAskPass.with_helper O v body w l
       = (match q with Ok _ => r | Raise e => Raise e end,
          SSHAskPass.mkWorld (SSHAskPass.this w2)
            (t2 ++ [SSHAskPass.OsUnlink s; SSHAskPass.OsRmdir d]),
          l2)) /\
    (forall e,
       SSHAskPass.os_unlink O t2 s = Raise e ->
       SSHAskPass.with_helper O v body w l
       = (Raise e,
          SSHAskPass.mkWorld (SSHAskPass.this w2)
            (t2 ++ [SSHAskPass.OsUnlink s]),
          l2)).
Proof.
  intros O v A body w l s w1 l1 r w2 l2 d Henter Hd Hbody Hthis t2.
  destruct (enter_ok_inv _ _ _ _ _ _ _ Henter)
    as (p & d' & fd & Hv & Hascii & Hd' & Hs & _ & Hw1 & Hl1).
  assert (d' = d) by congruence. subst d'.
  assert (Hobj : SSHAskPass.this w2
                 = SSHAskPass.mkHelper v (VStr d) (VStr s))
    by (rewrite Hthis, Hw1; reflexivity).
  assert (Hwith : SSHAskPass.with_helper O v body w l
                  = match r with
                    | Ok a => (do* SSHAskPass.exit O in ret a) w2 l2
                    | Raise e => (do* SSHAskPass.exit O in raise e) w2 l2
                    end).
  { unfold SSHAskPass.with_helper. unfold bind at 1, modify.
    unfold bind at 1. rewrite Henter. cbv beta iota. rewrite Hbody.
    now destruct r. }
  rewrite Hwith. split.
  - intros Hunlink q Hrmdir.
    destruct r as [a|e]; unfold SSHAskPass.exit, bind, self, ret, raise,
      SSHAskPass.remove, SSHAskPass.os_do; rewrite Hobj;
      cbn [SSHAskPass.script SSHAskPass.tempdir SSHAskPass.this
           SSHAskPass.calls is_None negb];
      fold t2; rewrite Hunlink; cbv beta iota;
      cbn [SSHAskPass.script SSHAskPass.tempdir SSHAskPass.this
           SSHAskPass.calls is_None negb];
      rewrite ?Hobj;
      cbn [SSHAskPass.script SSHAskPass.tempdir SSHAskPass.this
           SSHAskPass.calls is_None negb];
      rewrite Hrmdir; rewrite <- app_assoc; destruct q as [[]|e'];
      reflexivity.
  - intros e Hunlink.
    destruct r as [a|e0]; unfold SSHAskPass.exit, bind, self, ret, raise,
      SSHAskPass.remove, SSHAskPass.os_do; rewrite Hobj;
      cbn [SSHAskPass.script SSHAskPass.tempdir SSHAskPass.this
           SSHAskPass.calls is_None negb];
      fold t2; rewrite Hunlink; cbv beta iota; rewrite ?Hobj; reflexivity.
Qed.

Lemma with_removes_script_and_directory_witness :
  let run := SSHAskPass.with_helper SSHAskPass.plain_os (VStr "it's")
               (fun _ => raise (External "CalledProcessError"))
               (SSHAskPass.mkWorld (SSHAskPass.init VNone) []) [] in
  fst (fst run) = @Raise unit (External "CalledProcessError") /\
  SSHAskPass.calls (snd (fst run))
  = [SSHAskPass.Mkdtemp;
     SSHAskPass.OsOpen "/tmp/tmpk3v9x2ad/askpass" SSHAskPass.askpass_flags 448;
     SSHAskPass.OsWrite 3
       (String.append SSHAskPass.shebang "echo -n 'it'\''s'");
     SSHAskPass.OsClose 3;
     SSHAskPass.OsUnlink "/tmp/tmpk3v9x2ad/askpass";
     SSHAskPass.OsRmdir "/tmp/tmpk3v9x2ad"].
Proof.
  intros run.
  pose (body := fun _ : string =>
                  @raise SSHAskPass.world unit (External "CalledProcessError")).
  pose (w0 := SSHAskPass.mkWorld (SSHAskPass.init VNone) []).
  pose (ent := SSHAskPass.enter SSHAskPass.plain_os
                 (SSHAskPass.mkWorld (SSHAskPass.init (VStr "it's"))
                    (SSHAskPass.calls w0)) []).
  assert (Henter : ent = (Ok "/tmp/tmpk3v9x2ad/askpass", snd (fst ent), []))
    by (apply run_ok; vm_compute; reflexivity).
  destruct (with_removes_script_and_directory SSHAskPass.plain_os
              (VStr "it's") unit body w0 [] _ _ _
              (Raise (External "CalledProcessError")) (snd (fst ent)) []
              "/tmp/tmpk3v9x2ad" Henter eq_refl eq_refl eq_refl) as [H _].
  unfold run. fold body w0. rewrite (H eq_refl _ eq_refl).
  split; vm_compute; reflexivity.
Defined.
